(** * Surface-of-revolution mesh builder ([Model] of model.js) and its
      use in main.js

    A shallow embedding of [Model.surfacePoint], [Model.build] and the
    index-type resolution of [Model.upload], with the properties of the mesh
    (buffer sizes, vertex grid, triangle list, normals, texture coordinates,
    index width, resolution clamping) proved about it; then of the whole of
    [Model.upload] and [Model.draw] on a model of the WebGL 1 context, and
    of [rebuildSurface], [makeMipCanvas], [createMipTexture],
    [createProgram], [mat3FromMat4] and [mulMat4Vec4] of main.js.

    Conventions of the embedding.
    - The resolution fields [Nr] and [Nu] are JavaScript Numbers that the
      code only reads through [x | 0]; they are modelled by [Number]
      (NaN, the infinities, or a finite rational) and [ToInt32].
    - Integer-valued Numbers (counters, sizes, vertex ids) are integers of
      [Z] or [nat].  A size that a typed array is created with is below
      2^53, where the double arithmetic of JavaScript is exact on integers.
    - The surface parameters and everything stored in a [Float32Array] are
      real numbers: [Math.PI] is [PI], [Math.cos], [Math.sin], [Math.exp]
      are the real functions, [Math.hypot] is the Euclidean norm.  Rounding
      to binary64 and binary32 is not part of the model, nor are non-finite
      values (as [b = 0] produces them).
    - A typed array is a list of fixed length; creating one may be refused
      by the engine ([RangeError]), which the oracle [alloc] decides. *)

From Stdlib Require Import String.
From Stdlib Require Import ZArith QArith List Lia Bool.
From Stdlib Require Import Reals Lra Psatz.
From Stdlib Require Import Qminmax.
From Stdlib Require DecimalString DecimalZ.
Import ListNotations.

Local Open Scope Z_scope.

(** ** JavaScript Numbers and [ToInt32] *)

(** A Number as [x | 0] sees it.  A finite double is a rational. *)
Inductive Number : Type :=
| NaN
| Infinity (negative : bool)
| Finite (q : Q).

(** truncate(x): the integer part, rounding toward zero. *)
Definition truncate (q : Q) : Z := Z.quot (Qnum q) (Zpos (Qden q)).

(** ToInt32 (ECMA-262, 7.1.6): non-finite Numbers give 0; otherwise the
    truncated value modulo 2^32, read as a signed 32-bit integer. *)
Definition ToInt32 (x : Number) : Z :=
  match x with
  | NaN => 0
  | Infinity _ => 0
  | Finite q =>
      let int := truncate q in
      let int32bit := int mod 2 ^ 32 in
      if int32bit >=? 2 ^ 31 then int32bit - 2 ^ 32 else int32bit
  end.

(** ** Typed arrays *)

Inductive ArrayKind : Type := Float32 | Uint16 | Uint32.

(** The outcome of a call that may throw. *)
Inductive completion (A : Type) : Type :=
| Return (value : A)
| RangeError.
Arguments Return {A} value.
Arguments RangeError {A}.

Definition bind {A B : Type} (c : completion A) (k : A -> completion B) : completion B :=
  match c with
  | Return v => k v
  | RangeError => RangeError
  end.

Notation "x <- c ;; k" := (bind c (fun x => k))
  (at level 61, c at next level, right associativity).

(** [arr[k] = v] on a typed array: a write past the end is ignored. *)
Fixpoint store {A : Type} (k : nat) (v : A) (arr : list A) : list A :=
  match arr, k with
  | [], _ => []
  | _ :: rest, O => v :: rest
  | x :: rest, S k' => x :: store k' v rest
  end.

(** The index buffer: 16-bit or 32-bit unsigned elements. *)
Inductive IndexArray : Type :=
| Uint16Array (data : list Z)
| Uint32Array (data : list Z).

Definition elements (idx : IndexArray) : list Z :=
  match idx with
  | Uint16Array data => data
  | Uint32Array data => data
  end.

(** [idx[k] = v]: the value is stored modulo the element width. *)
Definition store_index (k : nat) (v : Z) (idx : IndexArray) : IndexArray :=
  match idx with
  | Uint16Array data => Uint16Array (store k (v mod 2 ^ 16) data)
  | Uint32Array data => Uint32Array (store k (v mod 2 ^ 32) data)
  end.

(** [for (let k = 0; k < n; k++)]: the values the counter takes. *)
Definition range (n : Z) : list nat := seq 0 (Z.to_nat n).

(** ** Parameters and the model object *)

Module Params.
Record t : Type := mk {
  a : R; n : R; m : R; b : R; phi : R;
  Nr : Number; Nu : Number
}.
End Params.

Inductive GLenum : Type := UNSIGNED_SHORT | UNSIGNED_INT.

(** The fields of [Model] that [build] and the index-type resolution of
    [upload] read and write (the WebGL buffer handles are left out). *)
Record Model : Type := {
  positions : list R;
  normals : list R;
  texcoords : list R;
  indices : option IndexArray;
  indexCount : Z;
  indexType : option GLenum
}.

(** [new Model()]. *)
Definition new_Model : Model :=
  {| positions := []; normals := []; texcoords := []; indices := None;
     indexCount := 0; indexType := None |}.

(** ** [Model.surfacePoint] *)

Definition surfacePoint (r u : R) (p : Params.t) : R * R * R :=
  let w := ((Params.m p * PI) / Params.b p)%R in
  let z := (Params.a p * exp (- Params.n p * r) * sin (w * r + Params.phi p))%R in
  let x := (r * cos u)%R in
  let y := (r * sin u)%R in
  (x, y, z).

(** ** [Model.build] *)

(** The state of the vertex loop: the two arrays and their write cursors. *)
Record VertexState : Type := {
  st_pos : list R; st_uv : list R; st_pk : nat; st_uk : nat
}.

(** The body of the inner loop over [j]. *)
Definition vertex_step (p : Params.t) (Nu : Z) (uMin uMax t r : R)
    (st : VertexState) (j : nat) : VertexState :=
  let s := (IZR (Z.of_nat j) / IZR (Nu - 1))%R in
  let u := (uMin + s * (uMax - uMin))%R in
  let '(x, y, z) := surfacePoint r u p in
  let pk := st_pk st in
  let uk := st_uk st in
  let pos := store pk x (st_pos st) in
  let pos := store (pk + 1) y pos in
  let pos := store (pk + 2) z pos in
  let uv := store uk s (st_uv st) in
  let uv := store (uk + 1) t uv in
  {| st_pos := pos; st_uv := uv; st_pk := pk + 3; st_uk := uk + 2 |}.

(** The body of the outer loop over [i]. *)
Definition row_step (p : Params.t) (Nr Nu : Z) (rMin rMax uMin uMax : R)
    (st : VertexState) (i : nat) : VertexState :=
  let t := (IZR (Z.of_nat i) / IZR (Nr - 1))%R in
  let r := (rMin + t * (rMax - rMin))%R in
  fold_left (vertex_step p Nu uMin uMax t r) (range Nu) st.

Definition fill_vertices (p : Params.t) (Nr Nu : Z) (rMin rMax uMin uMax : R)
    (pos0 uv0 : list R) : VertexState :=
  fold_left (row_step p Nr Nu rMin rMax uMin uMax) (range Nr)
    {| st_pos := pos0; st_uv := uv0; st_pk := 0; st_uk := 0 |}.

(** [vid = (i, j) => i * Nu + j]. *)
Definition vid (Nu : Z) (i j : Z) : Z := i * Nu + j.

(** The body of the inner index loop: the two triangles of quad (i, j). *)
Definition quad_step (Nu : Z) (i : nat) (st : IndexArray * nat) (j : nat)
    : IndexArray * nat :=
  let '(idx, t) := st in
  let a := vid Nu (Z.of_nat i) (Z.of_nat j) in
  let b := vid Nu (Z.of_nat i + 1) (Z.of_nat j) in
  let c := vid Nu (Z.of_nat i) (Z.of_nat j + 1) in
  let d := vid Nu (Z.of_nat i + 1) (Z.of_nat j + 1) in
  let idx := store_index t a idx in
  let idx := store_index (t + 1) b idx in
  let idx := store_index (t + 2) c idx in
  let idx := store_index (t + 3) b idx in
  let idx := store_index (t + 4) d idx in
  let idx := store_index (t + 5) c idx in
  (idx, (t + 6)%nat).

Definition fill_indices (Nr Nu : Z) (idx0 : IndexArray) : IndexArray :=
  fst (fold_left
         (fun st i => fold_left (quad_step Nu i) (range (Nu - 1)) st)
         (range (Nr - 1)) (idx0, 0%nat)).

(** [arr[k] += v]. *)
Definition add_at (k : nat) (v : R) (arr : list R) : list R :=
  store k (nth k arr 0 + v)%R arr.

(** [pos[i * 3 + c]]; an index buffer element is a non-negative integer. *)
Definition coord (arr : list R) (i : Z) (c : nat) : R :=
  nth (Z.to_nat i * 3 + c) arr 0%R.

(** The body of the accumulation loop, for the triangle that starts at
    position [ii] of the index buffer. *)
Definition accumulate_step (pos : list R) (idx : list Z) (nrm : list R)
    (ii : nat) : list R :=
  let i0 := nth ii idx 0 in
  let i1 := nth (ii + 1) idx 0 in
  let i2 := nth (ii + 2) idx 0 in
  let p0x := coord pos i0 0 in let p0y := coord pos i0 1 in let p0z := coord pos i0 2 in
  let p1x := coord pos i1 0 in let p1y := coord pos i1 1 in let p1z := coord pos i1 2 in
  let p2x := coord pos i2 0 in let p2y := coord pos i2 1 in let p2z := coord pos i2 2 in
  let e1x := (p1x - p0x)%R in let e1y := (p1y - p0y)%R in let e1z := (p1z - p0z)%R in
  let e2x := (p2x - p0x)%R in let e2y := (p2y - p0y)%R in let e2z := (p2z - p0z)%R in
  let nx := (e1y * e2z - e1z * e2y)%R in
  let ny := (e1z * e2x - e1x * e2z)%R in
  let nz := (e1x * e2y - e1y * e2x)%R in
  let nrm := add_at (Z.to_nat i0 * 3) nx nrm in
  let nrm := add_at (Z.to_nat i0 * 3 + 1) ny nrm in
  let nrm := add_at (Z.to_nat i0 * 3 + 2) nz nrm in
  let nrm := add_at (Z.to_nat i1 * 3) nx nrm in
  let nrm := add_at (Z.to_nat i1 * 3 + 1) ny nrm in
  let nrm := add_at (Z.to_nat i1 * 3 + 2) nz nrm in
  let nrm := add_at (Z.to_nat i2 * 3) nx nrm in
  let nrm := add_at (Z.to_nat i2 * 3 + 1) ny nrm in
  let nrm := add_at (Z.to_nat i2 * 3 + 2) nz nrm in
  nrm.

(** [for (let ii = 0; ii < n; ii += 3)]: the values the counter takes. *)
Definition triangle_starts (n : nat) : list nat :=
  map (fun k => (3 * k)%nat) (seq 0 ((n + 2) / 3)).

Definition accumulate_normals (pos : list R) (idx : list Z) (nrm0 : list R) : list R :=
  fold_left (accumulate_step pos idx) (triangle_starts (length idx)) nrm0.

(** [Math.hypot(x, y, z)]. *)
Definition hypot (x y z : R) : R := sqrt (x * x + y * y + z * z).

(** The body of the normalisation loop. *)
Definition normalize_step (nrm : list R) (v : nat) : list R :=
  let x := nth (v * 3) nrm 0%R in
  let y := nth (v * 3 + 1) nrm 0%R in
  let z := nth (v * 3 + 2) nrm 0%R in
  let len := hypot x y z in
  if Rlt_dec 1e-12 len then
    let nrm := store (v * 3) (x / len)%R nrm in
    let nrm := store (v * 3 + 1) (y / len)%R nrm in
    store (v * 3 + 2) (z / len)%R nrm
  else
    let nrm := store (v * 3) 0%R nrm in
    let nrm := store (v * 3 + 1) 0%R nrm in
    store (v * 3 + 2) 1%R nrm.

Definition normalize_normals (vertCount : Z) (nrm : list R) : list R :=
  fold_left normalize_step (range vertCount) nrm.

Section Engine.

(** Whether the engine creates a typed array of the given kind and length.
    ECMA-262 refuses every length above 2^53 - 1; below that the answer is
    the engine's. *)
Variable alloc : ArrayKind -> Z -> bool.

(** [new Float32Array(len)]. *)
Definition new_Float32Array (len : Z) : completion (list R) :=
  if alloc Float32 len then Return (repeat 0%R (Z.to_nat len)) else RangeError.

(** [new Uint16Array(len)] and [new Uint32Array(len)]. *)
Definition new_Uint16Array (len : Z) : completion IndexArray :=
  if alloc Uint16 len then Return (Uint16Array (repeat 0 (Z.to_nat len))) else RangeError.

Definition new_Uint32Array (len : Z) : completion IndexArray :=
  if alloc Uint32 len then Return (Uint32Array (repeat 0 (Z.to_nat len))) else RangeError.

(** [build(params)]: the new state of the object, or the exception that
    leaves it as it was. *)
Definition build (params : Params.t) (this : Model) : completion Model :=
  let p := params in
  let rMin := 0%R in
  let rMax := Params.b p in
  let uMin := 0%R in
  let uMax := (PI * 2)%R in
  let Nr := Z.max 2 (ToInt32 (Params.Nr p)) in
  let Nu := Z.max 3 (ToInt32 (Params.Nu p)) in
  let vertCount := Nr * Nu in
  pos <- new_Float32Array (vertCount * 3) ;;
  nrm <- new_Float32Array (vertCount * 3) ;;
  uv <- new_Float32Array (vertCount * 2) ;;
  let st := fill_vertices p Nr Nu rMin rMax uMin uMax pos uv in
  let pos := st_pos st in
  let uv := st_uv st in
  let triCount := (Nr - 1) * (Nu - 1) * 2 in
  let indexCount := triCount * 3 in
  let useUint32 := vertCount >? 65535 in
  idx <- (if useUint32 then new_Uint32Array indexCount
          else new_Uint16Array indexCount) ;;
  let idx := fill_indices Nr Nu idx in
  let nrm := accumulate_normals pos (elements idx) nrm in
  let nrm := normalize_normals vertCount nrm in
  Return {| positions := pos;
            normals := nrm;
            texcoords := uv;
            indices := Some idx;
            indexCount := Z.of_nat (length (elements idx));
            indexType := indexType this |}.

End Engine.

(** ** The index-type resolution of [Model.upload] *)

(** What [upload] asks of the WebGL context: whether
    [gl.getExtension('OES_element_index_uint')] returns an object. *)
Record GL : Type := { OES_element_index_uint : bool }.

Definition warning : string :=
  "OES_element_index_uint not supported. Reduce Nr/Nu so vertices <= 65535."%string.

(** [this.indices instanceof Uint32Array]; [null] is no instance. *)
Definition instanceof_Uint32Array (idx : option IndexArray) : bool :=
  match idx with
  | Some (Uint32Array _) => true
  | _ => false
  end.

(** [upload(gl)]: the new state of the object and what [console.warn]
    printed. *)
Definition upload (gl : GL) (this : Model) : Model * list string :=
  let set_type ty :=
    {| positions := positions this; normals := normals this;
       texcoords := texcoords this; indices := indices this;
       indexCount := indexCount this; indexType := Some ty |} in
  if instanceof_Uint32Array (indices this) then
    let ext := OES_element_index_uint gl in
    let console := if negb ext then [warning] else [] in
    (set_type UNSIGNED_INT, console)
  else
    (set_type UNSIGNED_SHORT, []).

(** ** The mesh as the specification describes it *)

(** The resolution [build] works with: [Math.max(2, p.Nr | 0)] and
    [Math.max(3, p.Nu | 0)]. *)
Definition effective_Nr (p : Params.t) : Z := Z.max 2 (ToInt32 (Params.Nr p)).
Definition effective_Nu (p : Params.t) : Z := Z.max 3 (ToInt32 (Params.Nu p)).


(** The height of the surface at radius [r]. *)
Definition height (p : Params.t) (r : R) : R :=
  (Params.a p * exp (- Params.n p * r)
   * sin ((Params.m p * PI / Params.b p) * r + Params.phi p))%R.

(** The two triangles (a, b, c) and (b, d, c) of quad (i, j). *)
Definition quad_triangles (Nu : Z) (i j : nat) : list Z :=
  let a := Z.of_nat i * Nu + Z.of_nat j in
  let b := (Z.of_nat i + 1) * Nu + Z.of_nat j in
  let c := Z.of_nat i * Nu + (Z.of_nat j + 1) in
  let d := (Z.of_nat i + 1) * Nu + (Z.of_nat j + 1) in
  [a; b; c; b; d; c].

(** The triangles of all quads, rows first. *)
Definition triangle_list (Nr Nu : Z) : list Z :=
  flat_map (fun i => flat_map (quad_triangles Nu i) (range (Nu - 1)))
           (range (Nr - 1)).

(** The number of values an element of the index buffer can take. *)
Definition modulus (idx : IndexArray) : Z :=
  match idx with
  | Uint16Array _ => 2 ^ 16
  | Uint32Array _ => 2 ^ 32
  end.

(** The array of the same kind with other elements. *)
Definition with_elements (idx : IndexArray) (data : list Z) : IndexArray :=
  match idx with
  | Uint16Array _ => Uint16Array data
  | Uint32Array _ => Uint32Array data
  end.

(** The triangles as the index buffer holds them. *)
Definition stored_quad (M Nu : Z) (i j : nat) : list Z :=
  map (fun v => v mod M) (quad_triangles Nu i j).
Definition stored_triangle_list (M Nr Nu : Z) : list Z :=
  flat_map (fun i => flat_map (stored_quad M Nu i) (range (Nu - 1)))
           (range (Nr - 1)).



(** How many corners of that triangle are vertex [v]. *)
Definition corners_at (idx : list Z) (ii : nat) (v : nat) : nat :=
  length (filter (fun i => Nat.eqb (Z.to_nat i) v)
                 [nth ii idx 0; nth (ii + 1) idx 0; nth (ii + 2) idx 0]).





(** Row-major vertex addressing. *)
Definition vertex_index (Nu : Z) (i j : nat) : nat := (i * Z.to_nat Nu + j)%nat.

(** An engine that creates every typed array whose length ECMA-262 allows. *)
Definition es_alloc (kind : ArrayKind) (len : Z) : bool :=
  (0 <=? len) && (len <=? 2 ^ 53 - 1).

(** Whether the engine grants the four arrays of [build]. *)
Definition allocations_granted (alloc : ArrayKind -> Z -> bool) (Nr Nu : Z) : bool :=
  alloc Float32 (Nr * Nu * 3) && alloc Float32 (Nr * Nu * 2)
  && (if Nr * Nu >? 65535 then alloc Uint32 ((Nr - 1) * (Nu - 1) * 2 * 3)
      else alloc Uint16 ((Nr - 1) * (Nu - 1) * 2 * 3)).

(** *** The tables the vertex loop fills *)

Section VertexTable.
Variable p : Params.t.
Variables Nr Nu : Z.
Variables rMin rMax uMin uMax : R.

(** What the loop body computes for vertex (i, j). *)
Definition loop_t (i : nat) : R := (IZR (Z.of_nat i) / IZR (Nr - 1))%R.
Definition loop_r (i : nat) : R := (rMin + loop_t i * (rMax - rMin))%R.
Definition loop_s (j : nat) : R := (IZR (Z.of_nat j) / IZR (Nu - 1))%R.
Definition loop_u (j : nat) : R := (uMin + loop_s j * (uMax - uMin))%R.

Definition loop_position (i j : nat) : list R :=
  let '(x, y, z) := surfacePoint (loop_r i) (loop_u j) p in [x; y; z].
Definition loop_texcoord (i j : nat) : list R := [loop_s j; loop_t i].

(** The whole vertex table and the whole table of texture coordinates. *)
Definition loop_positions : list R :=
  flat_map (fun i => flat_map (loop_position i) (range Nu)) (range Nr).
Definition loop_texcoords : list R :=
  flat_map (fun i => flat_map (loop_texcoord i) (range Nu)) (range Nr).

End VertexTable.

(** *** [build] in closed form *)

(** The index buffer [build] creates for a grid of the given size. *)
Definition built_indices (Nr Nu : Z) : IndexArray :=
  if Nr * Nu >? 65535
  then Uint32Array (stored_triangle_list (2 ^ 32) Nr Nu)
  else Uint16Array (stored_triangle_list (2 ^ 16) Nr Nu).

(** The state [build] leaves the object in when it returns. *)
Definition built_mesh (p : Params.t) (this : Model) : Model :=
  let Nr := effective_Nr p in
  let Nu := effective_Nu p in
  let pos := loop_positions p Nr Nu 0 (Params.b p) 0 (PI * 2) in
  let idx := built_indices Nr Nu in
  {| positions := pos;
     normals :=
       normalize_normals (Nr * Nu)
         (accumulate_normals pos (elements idx)
            (repeat 0%R (Z.to_nat (Nr * Nu * 3))));
     texcoords := loop_texcoords Nr Nu;
     indices := Some idx;
     indexCount := Z.of_nat (length (elements idx));
     indexType := indexType this |}.

(** *** Inputs used in examples *)

(** The parameters with another [Nr], another [Nu]. *)
Definition set_Nr (x : Number) (p : Params.t) : Params.t :=
  Params.mk (Params.a p) (Params.n p) (Params.m p) (Params.b p) (Params.phi p)
            x (Params.Nu p).
Definition set_Nu (x : Number) (p : Params.t) : Params.t :=
  Params.mk (Params.a p) (Params.n p) (Params.m p) (Params.b p) (Params.phi p)
            (Params.Nr p) x.

(** An integer as a Number. *)
Definition of_int (k : Z) : Number := Finite (inject_Z k).

(** The scenario of the specification: a = 4, n = 0.5, m = 6, b = 6,
    phi = 0 on a grid of 2 rings and 4 columns. *)
Definition scenario : Params.t :=
  Params.mk 4 0.5 6 6 0 (of_int 2) (of_int 4).

(** A grid of 2147483647 rings and 3 columns: 6442450941 vertices, more
    than 2^32. *)
Definition huge : Params.t :=
  Params.mk 4 0.5 6 6 0 (of_int 2147483647) (of_int 3).

(** Grids of exactly 65535 and of exactly 65536 vertices. *)
Definition grid_65535 : Params.t := Params.mk 4 0.5 6 6 0 (of_int 255) (of_int 257).
Definition grid_65536 : Params.t := Params.mk 4 0.5 6 6 0 (of_int 256) (of_int 256).


(** *** The grid coordinates of a vertex id *)

(** The ring and the column of the vertex with id [v] = i*Nu + j. *)
Definition ring_of (Nu : Z) (v : Z) : Z := v / Nu.
Definition column_of (Nu : Z) (v : Z) : Z := v mod Nu.

(** Twice the signed area, in grid coordinates (ring, column), of the
    triangle with the corners [v0], [v1], [v2]. *)
Definition grid_orientation (Nu : Z) (v0 v1 v2 : Z) : Z :=
  (ring_of Nu v1 - ring_of Nu v0) * (column_of Nu v2 - column_of Nu v0)
  - (ring_of Nu v2 - ring_of Nu v0) * (column_of Nu v1 - column_of Nu v0).

(** ** The 2D canvas of [makeMipCanvas] (main.js) *)

(** What [makeMipCanvas] does to the 2D context, in order: the properties it
    sets and the methods it calls. *)
Inductive CanvasCall : Type :=
| fillStyle (style : string)
| fillRect (x y w h : Q)
| strokeStyle (style : string)
| lineWidth (w : Q)
| beginPath
| moveTo (x y : Q)
| lineTo (x y : Q)
| stroke
| font (f : string)
| textAlign (a : string)
| textBaseline (b : string)
| fillText (text : string) (x y : Q).

(** A canvas element: the width and height assigned to it and what was
    drawn on it. *)
Record Canvas : Type := {
  canvas_width : Z;
  canvas_height : Z;
  canvas_calls : list CanvasCall
}.

(** An integer Number inside a template literal. *)
Definition template_int (z : Z) : string :=
  DecimalString.NilZero.string_of_int (Z.to_int z).

(** [for (let i = 0; i <= size; i += step)] with a positive step: the values
    the counter takes. *)
Definition grid_lines (size step : Z) : list Z :=
  if size <? 0 then []
  else map (fun k => Z.of_nat k * step) (seq 0 (Z.to_nat (size / step) + 1)).

(** [makeMipCanvas(size, level)] for integer arguments. *)
Definition makeMipCanvas (size level : Z) : Canvas :=
  let s := inject_Z size in
  let background :=
    [ fillStyle ("hsl(" ++ template_int (Z.rem (level * 60) 360) ++ ", 85%, 55%)");
      fillRect 0 0 s s ] in
  let step := Z.max 4 (size / 8) in
  let grid :=
    flat_map
      (fun i =>
         [ beginPath; moveTo (inject_Z i) 0; lineTo (inject_Z i) s; stroke;
           beginPath; moveTo 0 (inject_Z i); lineTo s (inject_Z i); stroke ])
      (grid_lines size step) in
  let label :=
    [ fillStyle "rgba(255,255,255,0.95)";
      font ("bold " ++ template_int (Z.max 10 (size / 3)) ++ "px Arial");
      textAlign "center";
      textBaseline "middle";
      fillText ("MIP " ++ template_int level) (s / 2)%Q (s / 2)%Q ] in
  {| canvas_width := size;
     canvas_height := size;
     canvas_calls :=
       background
       ++ [ strokeStyle "rgba(0,0,0,0.45)"; lineWidth (Qmax 1 (s / 128)) ]
       ++ grid ++ label |}.




(** ** The WebGL 1 context *)

(** [canvas.getContext('webgl')] gives a WebGL 1 context.  The part of its
    state machine that model.js and main.js drive is written out below after
    the WebGL 1.0 specification and OpenGL ES 2.0, which it refers to: the
    objects, the binding points, the vertex attributes, and the checks that
    make a call generate an error and leave the state as it is.  The context
    is taken not to be lost and not to run out of memory, so that the
    [create] functions return an object; objects are named by the order of
    their creation, and nothing deletes one.  A typed array handed to the
    context is copied, as the list of its elements. *)

Definition WebGLBuffer : Type := nat.
Definition WebGLShader : Type := nat.
Definition WebGLProgram : Type := nat.
Definition WebGLTexture : Type := nat.

Inductive GLerror : Type := INVALID_ENUM | INVALID_VALUE | INVALID_OPERATION.

Inductive Target : Type := ARRAY_BUFFER | ELEMENT_ARRAY_BUFFER.
Inductive Usage : Type := STATIC_DRAW.
Inductive Mode : Type := TRIANGLES.
Inductive ComponentType : Type := FLOAT.
Inductive ShaderType : Type := VERTEX_SHADER | FRAGMENT_SHADER.
Inductive ShaderParameter : Type := COMPILE_STATUS.
Inductive ProgramParameter : Type := LINK_STATUS.
Inductive TextureTarget : Type := TEXTURE_2D.
Inductive PixelFormat : Type := RGBA.
Inductive PixelType : Type := UNSIGNED_BYTE.
Inductive PixelStore : Type := UNPACK_FLIP_Y_WEBGL.
Inductive TexParameter : Type :=
  TEXTURE_WRAP_S | TEXTURE_WRAP_T | TEXTURE_MIN_FILTER | TEXTURE_MAG_FILTER.
Inductive TexValue : Type :=
| REPEAT | CLAMP_TO_EDGE | MIRRORED_REPEAT
| NEAREST | LINEAR
| NEAREST_MIPMAP_NEAREST | LINEAR_MIPMAP_NEAREST
| NEAREST_MIPMAP_LINEAR | LINEAR_MIPMAP_LINEAR.

Inductive Capability : Type := DEPTH_TEST.
Inductive ClearBit : Type :=
  COLOR_BUFFER_BIT | DEPTH_BUFFER_BIT | STENCIL_BUFFER_BIT.
Inductive TextureUnit : Type := TEXTURE0.

(** A uniform location: the program it belongs to and the name of the
    uniform. *)
Definition UniformLocation : Type := (WebGLProgram * string)%type.

(** What a [uniform...] call gives to a uniform. *)
Inductive UniformValue : Type :=
| Matrix4fv (value : list R)
| Matrix3fv (value : list R)
| Float3 (x y z : R)
| Float1 (x : R)
| Int1 (x : Z).

Definition Target_eqb (s t : Target) : bool :=
  match s, t with
  | ARRAY_BUFFER, ARRAY_BUFFER => true
  | ELEMENT_ARRAY_BUFFER, ELEMENT_ARRAY_BUFFER => true
  | _, _ => false
  end.

(** The contents of the typed array that [bufferData] copies. *)
Inductive BufferData : Type :=
| Float32Data (data : list R)
| IndexData (data : IndexArray).

Definition byteLength (d : BufferData) : Z :=
  match d with
  | Float32Data data => 4 * Z.of_nat (length data)
  | IndexData (Uint16Array data) => 2 * Z.of_nat (length data)
  | IndexData (Uint32Array data) => 4 * Z.of_nat (length data)
  end.

(** A buffer object: the binding point it was first bound to, which it
    keeps for life, and its data store. *)
Record BufferObject : Type := {
  buffer_target : option Target;
  buffer_data : option BufferData
}.

Definition new_buffer : BufferObject :=
  {| buffer_target := None; buffer_data := None |}.

(** A vertex attribute: whether it reads an array, and the buffer and the
    layout that [vertexAttribPointer] gave it. *)
Record VertexAttrib : Type := {
  attrib_enabled : bool;
  attrib_buffer : option WebGLBuffer;
  attrib_size : Z;
  attrib_type : ComponentType;
  attrib_normalized : bool;
  attrib_stride : Z;
  attrib_offset : Z
}.

Definition new_attrib : VertexAttrib :=
  {| attrib_enabled := false; attrib_buffer := None; attrib_size := 4;
     attrib_type := FLOAT; attrib_normalized := false; attrib_stride := 0;
     attrib_offset := 0 |}.

Record ShaderObject : Type := {
  shader_type : ShaderType;
  shader_source : string;
  shader_compiled : bool;
  shader_log : string
}.

Record ProgramObject : Type := {
  program_shaders : list WebGLShader;
  program_linked : bool;
  program_log : string
}.

(** The answers of the shader compiler and of the linker: the status and
    the information log; and, for the shaders of a linked program, the
    location of the attribute of a name (-1 when no such attribute is
    active) and whether a uniform of a name is active. *)
Record Driver : Type := {
  driver_compile : ShaderType -> string -> bool * string;
  driver_link : list ShaderObject -> bool * string;
  driver_attrib : list ShaderObject -> string -> Z;
  driver_uniform : list ShaderObject -> string -> bool
}.

(** An image of a texture: the mip level, the canvas it was taken from and
    whether it was flipped. *)
Record TexImage : Type := {
  image_level : Z;
  image_source : Canvas;
  image_flipped : bool
}.

Record TextureObject : Type := {
  tex_images : list TexImage;   (* newest first *)
  tex_wrap_s : TexValue;
  tex_wrap_t : TexValue;
  tex_min_filter : TexValue;
  tex_mag_filter : TexValue
}.

Definition new_texture : TextureObject :=
  {| tex_images := []; tex_wrap_s := REPEAT; tex_wrap_t := REPEAT;
     tex_min_filter := NEAREST_MIPMAP_LINEAR; tex_mag_filter := LINEAR |}.

(** What a [drawElements] call that passed the checks of the context read:
    the program, the arguments, and the buffers and the attributes as they
    were. *)
Record Draw : Type := {
  draw_program : WebGLProgram;
  draw_mode : Mode;
  draw_count : Z;
  draw_type : GLenum;
  draw_offset : Z;
  draw_index_buffer : WebGLBuffer;
  draw_attribs : list VertexAttrib;
  draw_buffers : list BufferObject
}.

Record WebGL : Type := {
  driver : Driver;  (* what the compiler and the linker answer *)
  supported : GL;  (* the extensions the implementation offers *)
  canvas : Canvas;  (* [gl.canvas], the element the context draws on *)
  uint_indices : bool;  (* whether OES_element_index_uint is enabled *)
  buffers : list BufferObject;  (* the buffer objects, by handle *)
  ARRAY_BUFFER_BINDING : option WebGLBuffer;
  ELEMENT_ARRAY_BUFFER_BINDING : option WebGLBuffer;
  (* the MAX_VERTEX_ATTRIBS attribute slots *)
  vertex_attribs : list VertexAttrib;
  shaders : list ShaderObject;  (* the shader objects, by handle *)
  programs : list ProgramObject;  (* the program objects, by handle *)
  CURRENT_PROGRAM : option WebGLProgram;
  (* the values given to uniforms, newest first *)
  uniforms : list (UniformLocation * UniformValue);
  textures : list TextureObject;  (* the texture objects, by handle *)
  TEXTURE_BINDING_2D : option WebGLTexture;
  unpack_flip_y : bool;
  depth_test : bool;  (* whether DEPTH_TEST is enabled *)
  VIEWPORT : Z * Z * Z * Z;
  COLOR_CLEAR_VALUE : R * R * R * R;
  errors : list GLerror;  (* the errors generated, newest first *)
  drawn : list Draw;  (* the draw calls executed, newest first *)
  shown : list Draw  (* those since the colour buffer was cleared *)
}.

(** Assignments to one component of the state. *)
Definition set_uint_indices (v : bool) (gl : WebGL) : WebGL :=
  {| driver := driver gl; supported := supported gl; canvas := canvas gl;
     uint_indices := v; buffers := buffers gl;
     ARRAY_BUFFER_BINDING := ARRAY_BUFFER_BINDING gl;
     ELEMENT_ARRAY_BUFFER_BINDING := ELEMENT_ARRAY_BUFFER_BINDING gl;
     vertex_attribs := vertex_attribs gl; shaders := shaders gl;
     programs := programs gl; CURRENT_PROGRAM := CURRENT_PROGRAM gl;
     uniforms := uniforms gl; textures := textures gl;
     TEXTURE_BINDING_2D := TEXTURE_BINDING_2D gl;
     unpack_flip_y := unpack_flip_y gl; depth_test := depth_test gl;
     VIEWPORT := VIEWPORT gl; COLOR_CLEAR_VALUE := COLOR_CLEAR_VALUE gl;
     errors := errors gl; drawn := drawn gl; shown := shown gl |}.

Definition set_buffers (v : list BufferObject) (gl : WebGL) : WebGL :=
  {| driver := driver gl; supported := supported gl; canvas := canvas gl;
     uint_indices := uint_indices gl; buffers := v;
     ARRAY_BUFFER_BINDING := ARRAY_BUFFER_BINDING gl;
     ELEMENT_ARRAY_BUFFER_BINDING := ELEMENT_ARRAY_BUFFER_BINDING gl;
     vertex_attribs := vertex_attribs gl; shaders := shaders gl;
     programs := programs gl; CURRENT_PROGRAM := CURRENT_PROGRAM gl;
     uniforms := uniforms gl; textures := textures gl;
     TEXTURE_BINDING_2D := TEXTURE_BINDING_2D gl;
     unpack_flip_y := unpack_flip_y gl; depth_test := depth_test gl;
     VIEWPORT := VIEWPORT gl; COLOR_CLEAR_VALUE := COLOR_CLEAR_VALUE gl;
     errors := errors gl; drawn := drawn gl; shown := shown gl |}.

Definition set_ARRAY_BUFFER_BINDING (v : option WebGLBuffer) (gl : WebGL)
    : WebGL :=
  {| driver := driver gl; supported := supported gl; canvas := canvas gl;
     uint_indices := uint_indices gl; buffers := buffers gl;
     ARRAY_BUFFER_BINDING := v;
     ELEMENT_ARRAY_BUFFER_BINDING := ELEMENT_ARRAY_BUFFER_BINDING gl;
     vertex_attribs := vertex_attribs gl; shaders := shaders gl;
     programs := programs gl; CURRENT_PROGRAM := CURRENT_PROGRAM gl;
     uniforms := uniforms gl; textures := textures gl;
     TEXTURE_BINDING_2D := TEXTURE_BINDING_2D gl;
     unpack_flip_y := unpack_flip_y gl; depth_test := depth_test gl;
     VIEWPORT := VIEWPORT gl; COLOR_CLEAR_VALUE := COLOR_CLEAR_VALUE gl;
     errors := errors gl; drawn := drawn gl; shown := shown gl |}.

Definition set_ELEMENT_ARRAY_BUFFER_BINDING (v : option WebGLBuffer) (gl : WebGL)
    : WebGL :=
  {| driver := driver gl; supported := supported gl; canvas := canvas gl;
     uint_indices := uint_indices gl; buffers := buffers gl;
     ARRAY_BUFFER_BINDING := ARRAY_BUFFER_BINDING gl;
     ELEMENT_ARRAY_BUFFER_BINDING := v; vertex_attribs := vertex_attribs gl;
     shaders := shaders gl; programs := programs gl;
     CURRENT_PROGRAM := CURRENT_PROGRAM gl; uniforms := uniforms gl;
     textures := textures gl; TEXTURE_BINDING_2D := TEXTURE_BINDING_2D gl;
     unpack_flip_y := unpack_flip_y gl; depth_test := depth_test gl;
     VIEWPORT := VIEWPORT gl; COLOR_CLEAR_VALUE := COLOR_CLEAR_VALUE gl;
     errors := errors gl; drawn := drawn gl; shown := shown gl |}.

Definition set_vertex_attribs (v : list VertexAttrib) (gl : WebGL) : WebGL :=
  {| driver := driver gl; supported := supported gl; canvas := canvas gl;
     uint_indices := uint_indices gl; buffers := buffers gl;
     ARRAY_BUFFER_BINDING := ARRAY_BUFFER_BINDING gl;
     ELEMENT_ARRAY_BUFFER_BINDING := ELEMENT_ARRAY_BUFFER_BINDING gl;
     vertex_attribs := v; shaders := shaders gl; programs := programs gl;
     CURRENT_PROGRAM := CURRENT_PROGRAM gl; uniforms := uniforms gl;
     textures := textures gl; TEXTURE_BINDING_2D := TEXTURE_BINDING_2D gl;
     unpack_flip_y := unpack_flip_y gl; depth_test := depth_test gl;
     VIEWPORT := VIEWPORT gl; COLOR_CLEAR_VALUE := COLOR_CLEAR_VALUE gl;
     errors := errors gl; drawn := drawn gl; shown := shown gl |}.

Definition set_shaders (v : list ShaderObject) (gl : WebGL) : WebGL :=
  {| driver := driver gl; supported := supported gl; canvas := canvas gl;
     uint_indices := uint_indices gl; buffers := buffers gl;
     ARRAY_BUFFER_BINDING := ARRAY_BUFFER_BINDING gl;
     ELEMENT_ARRAY_BUFFER_BINDING := ELEMENT_ARRAY_BUFFER_BINDING gl;
     vertex_attribs := vertex_attribs gl; shaders := v;
     programs := programs gl; CURRENT_PROGRAM := CURRENT_PROGRAM gl;
     uniforms := uniforms gl; textures := textures gl;
     TEXTURE_BINDING_2D := TEXTURE_BINDING_2D gl;
     unpack_flip_y := unpack_flip_y gl; depth_test := depth_test gl;
     VIEWPORT := VIEWPORT gl; COLOR_CLEAR_VALUE := COLOR_CLEAR_VALUE gl;
     errors := errors gl; drawn := drawn gl; shown := shown gl |}.

Definition set_programs (v : list ProgramObject) (gl : WebGL) : WebGL :=
  {| driver := driver gl; supported := supported gl; canvas := canvas gl;
     uint_indices := uint_indices gl; buffers := buffers gl;
     ARRAY_BUFFER_BINDING := ARRAY_BUFFER_BINDING gl;
     ELEMENT_ARRAY_BUFFER_BINDING := ELEMENT_ARRAY_BUFFER_BINDING gl;
     vertex_attribs := vertex_attribs gl; shaders := shaders gl;
     programs := v; CURRENT_PROGRAM := CURRENT_PROGRAM gl;
     uniforms := uniforms gl; textures := textures gl;
     TEXTURE_BINDING_2D := TEXTURE_BINDING_2D gl;
     unpack_flip_y := unpack_flip_y gl; depth_test := depth_test gl;
     VIEWPORT := VIEWPORT gl; COLOR_CLEAR_VALUE := COLOR_CLEAR_VALUE gl;
     errors := errors gl; drawn := drawn gl; shown := shown gl |}.

Definition set_CURRENT_PROGRAM (v : option WebGLProgram) (gl : WebGL)
    : WebGL :=
  {| driver := driver gl; supported := supported gl; canvas := canvas gl;
     uint_indices := uint_indices gl; buffers := buffers gl;
     ARRAY_BUFFER_BINDING := ARRAY_BUFFER_BINDING gl;
     ELEMENT_ARRAY_BUFFER_BINDING := ELEMENT_ARRAY_BUFFER_BINDING gl;
     vertex_attribs := vertex_attribs gl; shaders := shaders gl;
     programs := programs gl; CURRENT_PROGRAM := v; uniforms := uniforms gl;
     textures := textures gl; TEXTURE_BINDING_2D := TEXTURE_BINDING_2D gl;
     unpack_flip_y := unpack_flip_y gl; depth_test := depth_test gl;
     VIEWPORT := VIEWPORT gl; COLOR_CLEAR_VALUE := COLOR_CLEAR_VALUE gl;
     errors := errors gl; drawn := drawn gl; shown := shown gl |}.

Definition set_uniforms (v : list (UniformLocation * UniformValue)) (gl : WebGL)
    : WebGL :=
  {| driver := driver gl; supported := supported gl; canvas := canvas gl;
     uint_indices := uint_indices gl; buffers := buffers gl;
     ARRAY_BUFFER_BINDING := ARRAY_BUFFER_BINDING gl;
     ELEMENT_ARRAY_BUFFER_BINDING := ELEMENT_ARRAY_BUFFER_BINDING gl;
     vertex_attribs := vertex_attribs gl; shaders := shaders gl;
     programs := programs gl; CURRENT_PROGRAM := CURRENT_PROGRAM gl;
     uniforms := v; textures := textures gl;
     TEXTURE_BINDING_2D := TEXTURE_BINDING_2D gl;
     unpack_flip_y := unpack_flip_y gl; depth_test := depth_test gl;
     VIEWPORT := VIEWPORT gl; COLOR_CLEAR_VALUE := COLOR_CLEAR_VALUE gl;
     errors := errors gl; drawn := drawn gl; shown := shown gl |}.

Definition set_textures (v : list TextureObject) (gl : WebGL) : WebGL :=
  {| driver := driver gl; supported := supported gl; canvas := canvas gl;
     uint_indices := uint_indices gl; buffers := buffers gl;
     ARRAY_BUFFER_BINDING := ARRAY_BUFFER_BINDING gl;
     ELEMENT_ARRAY_BUFFER_BINDING := ELEMENT_ARRAY_BUFFER_BINDING gl;
     vertex_attribs := vertex_attribs gl; shaders := shaders gl;
     programs := programs gl; CURRENT_PROGRAM := CURRENT_PROGRAM gl;
     uniforms := uniforms gl; textures := v;
     TEXTURE_BINDING_2D := TEXTURE_BINDING_2D gl;
     unpack_flip_y := unpack_flip_y gl; depth_test := depth_test gl;
     VIEWPORT := VIEWPORT gl; COLOR_CLEAR_VALUE := COLOR_CLEAR_VALUE gl;
     errors := errors gl; drawn := drawn gl; shown := shown gl |}.

Definition set_TEXTURE_BINDING_2D (v : option WebGLTexture) (gl : WebGL)
    : WebGL :=
  {| driver := driver gl; supported := supported gl; canvas := canvas gl;
     uint_indices := uint_indices gl; buffers := buffers gl;
     ARRAY_BUFFER_BINDING := ARRAY_BUFFER_BINDING gl;
     ELEMENT_ARRAY_BUFFER_BINDING := ELEMENT_ARRAY_BUFFER_BINDING gl;
     vertex_attribs := vertex_attribs gl; shaders := shaders gl;
     programs := programs gl; CURRENT_PROGRAM := CURRENT_PROGRAM gl;
     uniforms := uniforms gl; textures := textures gl;
     TEXTURE_BINDING_2D := v; unpack_flip_y := unpack_flip_y gl;
     depth_test := depth_test gl; VIEWPORT := VIEWPORT gl;
     COLOR_CLEAR_VALUE := COLOR_CLEAR_VALUE gl; errors := errors gl;
     drawn := drawn gl; shown := shown gl |}.

Definition set_unpack_flip_y (v : bool) (gl : WebGL) : WebGL :=
  {| driver := driver gl; supported := supported gl; canvas := canvas gl;
     uint_indices := uint_indices gl; buffers := buffers gl;
     ARRAY_BUFFER_BINDING := ARRAY_BUFFER_BINDING gl;
     ELEMENT_ARRAY_BUFFER_BINDING := ELEMENT_ARRAY_BUFFER_BINDING gl;
     vertex_attribs := vertex_attribs gl; shaders := shaders gl;
     programs := programs gl; CURRENT_PROGRAM := CURRENT_PROGRAM gl;
     uniforms := uniforms gl; textures := textures gl;
     TEXTURE_BINDING_2D := TEXTURE_BINDING_2D gl; unpack_flip_y := v;
     depth_test := depth_test gl; VIEWPORT := VIEWPORT gl;
     COLOR_CLEAR_VALUE := COLOR_CLEAR_VALUE gl; errors := errors gl;
     drawn := drawn gl; shown := shown gl |}.

Definition set_depth_test (v : bool) (gl : WebGL) : WebGL :=
  {| driver := driver gl; supported := supported gl; canvas := canvas gl;
     uint_indices := uint_indices gl; buffers := buffers gl;
     ARRAY_BUFFER_BINDING := ARRAY_BUFFER_BINDING gl;
     ELEMENT_ARRAY_BUFFER_BINDING := ELEMENT_ARRAY_BUFFER_BINDING gl;
     vertex_attribs := vertex_attribs gl; shaders := shaders gl;
     programs := programs gl; CURRENT_PROGRAM := CURRENT_PROGRAM gl;
     uniforms := uniforms gl; textures := textures gl;
     TEXTURE_BINDING_2D := TEXTURE_BINDING_2D gl;
     unpack_flip_y := unpack_flip_y gl; depth_test := v;
     VIEWPORT := VIEWPORT gl; COLOR_CLEAR_VALUE := COLOR_CLEAR_VALUE gl;
     errors := errors gl; drawn := drawn gl; shown := shown gl |}.

Definition set_VIEWPORT (v : Z * Z * Z * Z) (gl : WebGL) : WebGL :=
  {| driver := driver gl; supported := supported gl; canvas := canvas gl;
     uint_indices := uint_indices gl; buffers := buffers gl;
     ARRAY_BUFFER_BINDING := ARRAY_BUFFER_BINDING gl;
     ELEMENT_ARRAY_BUFFER_BINDING := ELEMENT_ARRAY_BUFFER_BINDING gl;
     vertex_attribs := vertex_attribs gl; shaders := shaders gl;
     programs := programs gl; CURRENT_PROGRAM := CURRENT_PROGRAM gl;
     uniforms := uniforms gl; textures := textures gl;
     TEXTURE_BINDING_2D := TEXTURE_BINDING_2D gl;
     unpack_flip_y := unpack_flip_y gl; depth_test := depth_test gl;
     VIEWPORT := v; COLOR_CLEAR_VALUE := COLOR_CLEAR_VALUE gl;
     errors := errors gl; drawn := drawn gl; shown := shown gl |}.

Definition set_COLOR_CLEAR_VALUE (v : R * R * R * R) (gl : WebGL) : WebGL :=
  {| driver := driver gl; supported := supported gl; canvas := canvas gl;
     uint_indices := uint_indices gl; buffers := buffers gl;
     ARRAY_BUFFER_BINDING := ARRAY_BUFFER_BINDING gl;
     ELEMENT_ARRAY_BUFFER_BINDING := ELEMENT_ARRAY_BUFFER_BINDING gl;
     vertex_attribs := vertex_attribs gl; shaders := shaders gl;
     programs := programs gl; CURRENT_PROGRAM := CURRENT_PROGRAM gl;
     uniforms := uniforms gl; textures := textures gl;
     TEXTURE_BINDING_2D := TEXTURE_BINDING_2D gl;
     unpack_flip_y := unpack_flip_y gl; depth_test := depth_test gl;
     VIEWPORT := VIEWPORT gl; COLOR_CLEAR_VALUE := v; errors := errors gl;
     drawn := drawn gl; shown := shown gl |}.

Definition set_errors (v : list GLerror) (gl : WebGL) : WebGL :=
  {| driver := driver gl; supported := supported gl; canvas := canvas gl;
     uint_indices := uint_indices gl; buffers := buffers gl;
     ARRAY_BUFFER_BINDING := ARRAY_BUFFER_BINDING gl;
     ELEMENT_ARRAY_BUFFER_BINDING := ELEMENT_ARRAY_BUFFER_BINDING gl;
     vertex_attribs := vertex_attribs gl; shaders := shaders gl;
     programs := programs gl; CURRENT_PROGRAM := CURRENT_PROGRAM gl;
     uniforms := uniforms gl; textures := textures gl;
     TEXTURE_BINDING_2D := TEXTURE_BINDING_2D gl;
     unpack_flip_y := unpack_flip_y gl; depth_test := depth_test gl;
     VIEWPORT := VIEWPORT gl; COLOR_CLEAR_VALUE := COLOR_CLEAR_VALUE gl;
     errors := v; drawn := drawn gl; shown := shown gl |}.

Definition set_drawn (v : list Draw) (gl : WebGL) : WebGL :=
  {| driver := driver gl; supported := supported gl; canvas := canvas gl;
     uint_indices := uint_indices gl; buffers := buffers gl;
     ARRAY_BUFFER_BINDING := ARRAY_BUFFER_BINDING gl;
     ELEMENT_ARRAY_BUFFER_BINDING := ELEMENT_ARRAY_BUFFER_BINDING gl;
     vertex_attribs := vertex_attribs gl; shaders := shaders gl;
     programs := programs gl; CURRENT_PROGRAM := CURRENT_PROGRAM gl;
     uniforms := uniforms gl; textures := textures gl;
     TEXTURE_BINDING_2D := TEXTURE_BINDING_2D gl;
     unpack_flip_y := unpack_flip_y gl; depth_test := depth_test gl;
     VIEWPORT := VIEWPORT gl; COLOR_CLEAR_VALUE := COLOR_CLEAR_VALUE gl;
     errors := errors gl; drawn := v; shown := shown gl |}.

Definition set_shown (v : list Draw) (gl : WebGL) : WebGL :=
  {| driver := driver gl; supported := supported gl; canvas := canvas gl;
     uint_indices := uint_indices gl; buffers := buffers gl;
     ARRAY_BUFFER_BINDING := ARRAY_BUFFER_BINDING gl;
     ELEMENT_ARRAY_BUFFER_BINDING := ELEMENT_ARRAY_BUFFER_BINDING gl;
     vertex_attribs := vertex_attribs gl; shaders := shaders gl;
     programs := programs gl; CURRENT_PROGRAM := CURRENT_PROGRAM gl;
     uniforms := uniforms gl; textures := textures gl;
     TEXTURE_BINDING_2D := TEXTURE_BINDING_2D gl;
     unpack_flip_y := unpack_flip_y gl; depth_test := depth_test gl;
     VIEWPORT := VIEWPORT gl; COLOR_CLEAR_VALUE := COLOR_CLEAR_VALUE gl;
     errors := errors gl; drawn := drawn gl; shown := v |}.

Definition raise (e : GLerror) (gl : WebGL) : WebGL :=
  set_errors (e :: errors gl) gl.

(** A [GLuint] argument: the Number modulo 2^32. *)
Definition ToUint32 (i : Z) : Z := i mod 2 ^ 32.

Definition binding (target : Target) (gl : WebGL) : option WebGLBuffer :=
  match target with
  | ARRAY_BUFFER => ARRAY_BUFFER_BINDING gl
  | ELEMENT_ARRAY_BUFFER => ELEMENT_ARRAY_BUFFER_BINDING gl
  end.

Definition set_binding (target : Target) (b : option WebGLBuffer) (gl : WebGL)
    : WebGL :=
  match target with
  | ARRAY_BUFFER => set_ARRAY_BUFFER_BINDING b gl
  | ELEMENT_ARRAY_BUFFER => set_ELEMENT_ARRAY_BUFFER_BINDING b gl
  end.

(** The size in bytes of an index of the given type. *)
Definition index_size (type : GLenum) : Z :=
  match type with
  | UNSIGNED_SHORT => 2
  | UNSIGNED_INT => 4
  end.

(** An enabled attribute needs a buffer. *)
Definition attrib_ready (a : VertexAttrib) : bool :=
  match attrib_enabled a, attrib_buffer a with
  | true, None => false
  | _, _ => true
  end.

(** The values a texture parameter accepts. *)
Definition tex_value_ok (pname : TexParameter) (v : TexValue) : bool :=
  match pname, v with
  | (TEXTURE_WRAP_S | TEXTURE_WRAP_T), (REPEAT | CLAMP_TO_EDGE | MIRRORED_REPEAT) => true
  | TEXTURE_MAG_FILTER, (NEAREST | LINEAR) => true
  | TEXTURE_MIN_FILTER,
    (NEAREST | LINEAR | NEAREST_MIPMAP_NEAREST | LINEAR_MIPMAP_NEAREST
     | NEAREST_MIPMAP_LINEAR | LINEAR_MIPMAP_LINEAR) => true
  | _, _ => false
  end.

Definition set_tex_parameter (pname : TexParameter) (v : TexValue)
    (t : TextureObject) : TextureObject :=
  match pname with
  | TEXTURE_WRAP_S =>
      {| tex_images := tex_images t; tex_wrap_s := v; tex_wrap_t := tex_wrap_t t;
         tex_min_filter := tex_min_filter t; tex_mag_filter := tex_mag_filter t |}
  | TEXTURE_WRAP_T =>
      {| tex_images := tex_images t; tex_wrap_s := tex_wrap_s t; tex_wrap_t := v;
         tex_min_filter := tex_min_filter t; tex_mag_filter := tex_mag_filter t |}
  | TEXTURE_MIN_FILTER =>
      {| tex_images := tex_images t; tex_wrap_s := tex_wrap_s t;
         tex_wrap_t := tex_wrap_t t; tex_min_filter := v;
         tex_mag_filter := tex_mag_filter t |}
  | TEXTURE_MAG_FILTER =>
      {| tex_images := tex_images t; tex_wrap_s := tex_wrap_s t;
         tex_wrap_t := tex_wrap_t t; tex_min_filter := tex_min_filter t;
         tex_mag_filter := v |}
  end.

Definition power_of_two (w : Z) : bool := (0 <? w) && (w =? 2 ^ Z.log2 w).

Definition add_image (img : TexImage) (t : TextureObject) : TextureObject :=
  {| tex_images := img :: tex_images t; tex_wrap_s := tex_wrap_s t;
     tex_wrap_t := tex_wrap_t t; tex_min_filter := tex_min_filter t;
     tex_mag_filter := tex_mag_filter t |}.

(** The shader objects attached to a program. *)
Definition attached_shaders (gl : WebGL) (p : ProgramObject)
    : list ShaderObject :=
  flat_map
    (fun sh => match nth_error (shaders gl) sh with
               | Some s => [s]
               | None => []
               end)
    (program_shaders p).

(** A colour component is clamped to [0, 1]. *)
Definition clamp01 (x : R) : R := Rmax 0 (Rmin 1 x).

Definition color_bit (b : ClearBit) : bool :=
  match b with
  | COLOR_BUFFER_BIT => true
  | _ => false
  end.

(** The methods of the context.  Each takes the state last and returns the
    new state, with the value of the call before it where there is one. *)
Module gl.

Definition createBuffer (gl : WebGL) : WebGLBuffer * WebGL :=
  (length (buffers gl), set_buffers (buffers gl ++ [new_buffer]) gl).

(** A buffer keeps to the binding point of its first binding: binding it to
    the other one is an INVALID_OPERATION and leaves the binding as it is. *)
Definition bindBuffer (target : Target) (buffer : option WebGLBuffer)
    (gl : WebGL) : WebGL :=
  match buffer with
  | None => set_binding target None gl
  | Some b =>
      if (b <? length (buffers gl))%nat then
        let obj := nth b (buffers gl) new_buffer in
        if match buffer_target obj with
           | Some t => Target_eqb t target
           | None => true
           end
        then
          set_binding target (Some b)
            (set_buffers
               (store b {| buffer_target := Some target;
                           buffer_data := buffer_data obj |} (buffers gl)) gl)
        else raise INVALID_OPERATION gl
      else raise INVALID_OPERATION gl
  end.

(** [null] data is an INVALID_VALUE, no bound buffer an INVALID_OPERATION. *)
Definition bufferData (target : Target) (data : option BufferData)
    (usage : Usage) (gl : WebGL) : WebGL :=
  match data with
  | None => raise INVALID_VALUE gl
  | Some d =>
      match binding target gl with
      | None => raise INVALID_OPERATION gl
      | Some b =>
          set_buffers
            (store b {| buffer_target := Some target; buffer_data := Some d |}
               (buffers gl)) gl
      end
  end.

(** Whether the call returns an extension object; returning it enables the
    extension.  Of the extensions only the one the program asks for is
    modelled. *)
Definition getExtension (name : string) (gl : WebGL) : bool * WebGL :=
  if (String.eqb name "OES_element_index_uint"
      && OES_element_index_uint (supported gl))%bool
  then (true, set_uint_indices true gl)
  else (false, gl).

Definition useProgram (program : option WebGLProgram) (gl : WebGL) : WebGL :=
  match program with
  | None => set_CURRENT_PROGRAM None gl
  | Some p =>
      match nth_error (programs gl) p with
      | Some obj =>
          if program_linked obj then set_CURRENT_PROGRAM (Some p) gl
          else raise INVALID_OPERATION gl
      | None => raise INVALID_OPERATION gl
      end
  end.

Definition vertexAttribPointer (index size : Z) (type : ComponentType)
    (normalized : bool) (stride offset : Z) (gl : WebGL) : WebGL :=
  let i := Z.to_nat (ToUint32 index) in
  if negb (i <? length (vertex_attribs gl))%nat then raise INVALID_VALUE gl
  else if negb ((1 <=? size) && (size <=? 4)) then raise INVALID_VALUE gl
  else if negb ((0 <=? stride) && (stride <=? 255) && (0 <=? offset))
  then raise INVALID_VALUE gl
  else if negb ((stride mod 4 =? 0) && (offset mod 4 =? 0))
  then raise INVALID_OPERATION gl
  else
    match ARRAY_BUFFER_BINDING gl, offset =? 0 with
    | None, false => raise INVALID_OPERATION gl
    | b, _ =>
        let a := nth i (vertex_attribs gl) new_attrib in
        set_vertex_attribs
          (store i {| attrib_enabled := attrib_enabled a; attrib_buffer := b;
                      attrib_size := size; attrib_type := type;
                      attrib_normalized := normalized;
                      attrib_stride := stride; attrib_offset := offset |}
             (vertex_attribs gl)) gl
    end.

Definition enableVertexAttribArray (index : Z) (gl : WebGL) : WebGL :=
  let i := Z.to_nat (ToUint32 index) in
  if negb (i <? length (vertex_attribs gl))%nat then raise INVALID_VALUE gl
  else
    let a := nth i (vertex_attribs gl) new_attrib in
    set_vertex_attribs
      (store i {| attrib_enabled := true; attrib_buffer := attrib_buffer a;
                  attrib_size := attrib_size a; attrib_type := attrib_type a;
                  attrib_normalized := attrib_normalized a;
                  attrib_stride := attrib_stride a;
                  attrib_offset := attrib_offset a |}
         (vertex_attribs gl)) gl.

(** [drawElements]: the checks on the arguments and on the state.  A [null]
    type is the enumerant 0, and UNSIGNED_INT is an enumerant of the
    extension only.  The indices must lie inside the data store of the
    buffer bound to ELEMENT_ARRAY_BUFFER.  That the vertices they name lie
    inside the attribute arrays is checked by the context as well; this
    check is left to [draw_in_range], on the draw recorded here. *)
Definition drawElements (mode : Mode) (count : Z) (type : option GLenum)
    (offset : Z) (gl : WebGL) : WebGL :=
  match type with
  | None => raise INVALID_ENUM gl
  | Some ty =>
      if match ty with
         | UNSIGNED_INT => negb (uint_indices gl)
         | UNSIGNED_SHORT => false
         end
      then raise INVALID_ENUM gl
      else if (count <? 0) || (offset <? 0) then raise INVALID_VALUE gl
      else if negb (offset mod index_size ty =? 0)
      then raise INVALID_OPERATION gl
      else
        match CURRENT_PROGRAM gl, ELEMENT_ARRAY_BUFFER_BINDING gl with
        | Some p, Some e =>
            let stored :=
              match buffer_data (nth e (buffers gl) new_buffer) with
              | Some d => byteLength d
              | None => 0
              end in
            if negb (offset + count * index_size ty <=? stored)
            then raise INVALID_OPERATION gl
            else if negb (forallb attrib_ready (vertex_attribs gl))
            then raise INVALID_OPERATION gl
            else
              let d :=
                {| draw_program := p; draw_mode := mode; draw_count := count;
                   draw_type := ty; draw_offset := offset;
                   draw_index_buffer := e;
                   draw_attribs := vertex_attribs gl;
                   draw_buffers := buffers gl |} in
              set_shown (d :: shown gl) (set_drawn (d :: drawn gl) gl)
        | _, _ => raise INVALID_OPERATION gl
        end
  end.

Definition createShader (type : ShaderType) (gl : WebGL) : WebGLShader * WebGL :=
  (length (shaders gl),
   set_shaders
     (shaders gl ++ [ {| shader_type := type; shader_source := EmptyString;
                         shader_compiled := false;
                         shader_log := EmptyString |} ]) gl).

Definition shaderSource (shader : WebGLShader) (source : string) (gl : WebGL)
    : WebGL :=
  match nth_error (shaders gl) shader with
  | Some s =>
      set_shaders
        (store shader {| shader_type := shader_type s; shader_source := source;
                         shader_compiled := shader_compiled s;
                         shader_log := shader_log s |} (shaders gl)) gl
  | None => raise INVALID_OPERATION gl
  end.

Definition compileShader (shader : WebGLShader) (gl : WebGL) : WebGL :=
  match nth_error (shaders gl) shader with
  | Some s =>
      let (status, log) :=
        driver_compile (driver gl) (shader_type s) (shader_source s) in
      set_shaders
        (store shader {| shader_type := shader_type s;
                         shader_source := shader_source s;
                         shader_compiled := status; shader_log := log |}
           (shaders gl)) gl
  | None => raise INVALID_OPERATION gl
  end.

(** The value of the call, [null] when the shader is none of the context;
    the error it generates then is not recorded. *)
Definition getShaderParameter (shader : WebGLShader) (pname : ShaderParameter)
    (gl : WebGL) : option bool :=
  match nth_error (shaders gl) shader with
  | Some s => Some (shader_compiled s)
  | None => None
  end.

Definition getShaderInfoLog (shader : WebGLShader) (gl : WebGL) : option string :=
  match nth_error (shaders gl) shader with
  | Some s => Some (shader_log s)
  | None => None
  end.

Definition createProgram (gl : WebGL) : WebGLProgram * WebGL :=
  (length (programs gl),
   set_programs
     (programs gl ++ [ {| program_shaders := []; program_linked := false;
                          program_log := EmptyString |} ]) gl).

(** A program takes one shader of each type, once. *)
Definition attachShader (program : WebGLProgram) (shader : WebGLShader)
    (gl : WebGL) : WebGL :=
  match nth_error (programs gl) program, nth_error (shaders gl) shader with
  | Some p, Some s =>
      if existsb
           (fun other =>
              match nth_error (shaders gl) other with
              | Some o =>
                  match shader_type o, shader_type s with
                  | VERTEX_SHADER, VERTEX_SHADER => true
                  | FRAGMENT_SHADER, FRAGMENT_SHADER => true
                  | _, _ => false
                  end
              | None => false
              end)
           (program_shaders p)
      then raise INVALID_OPERATION gl
      else
        set_programs
          (store program {| program_shaders := program_shaders p ++ [shader];
                            program_linked := program_linked p;
                            program_log := program_log p |} (programs gl)) gl
  | _, _ => raise INVALID_OPERATION gl
  end.

(** Linking fails when an attached shader is not compiled; otherwise the
    linker decides. *)
Definition linkProgram (program : WebGLProgram) (gl : WebGL) : WebGL :=
  match nth_error (programs gl) program with
  | Some p =>
      let attached :=
        flat_map
          (fun sh => match nth_error (shaders gl) sh with
                     | Some s => [s]
                     | None => []
                     end)
          (program_shaders p) in
      let (status, log) := driver_link (driver gl) attached in
      set_programs
        (store program
           {| program_shaders := program_shaders p;
              program_linked := forallb shader_compiled attached && status;
              program_log := log |} (programs gl)) gl
  | None => raise INVALID_OPERATION gl
  end.

Definition getProgramParameter (program : WebGLProgram)
    (pname : ProgramParameter) (gl : WebGL) : option bool :=
  match nth_error (programs gl) program with
  | Some p => Some (program_linked p)
  | None => None
  end.

Definition getProgramInfoLog (program : WebGLProgram) (gl : WebGL)
    : option string :=
  match nth_error (programs gl) program with
  | Some p => Some (program_log p)
  | None => None
  end.

Definition createTexture (gl : WebGL) : WebGLTexture * WebGL :=
  (length (textures gl), set_textures (textures gl ++ [new_texture]) gl).

Definition bindTexture (target : TextureTarget) (texture : option WebGLTexture)
    (gl : WebGL) : WebGL :=
  match texture with
  | None => set_TEXTURE_BINDING_2D None gl
  | Some t =>
      if (t <? length (textures gl))%nat then set_TEXTURE_BINDING_2D (Some t) gl
      else raise INVALID_OPERATION gl
  end.

Definition pixelStorei (pname : PixelStore) (param : bool) (gl : WebGL) : WebGL :=
  set_unpack_flip_y param gl.

(** The image of a canvas replaces the level of the bound texture; a level
    above 0 takes power-of-two sizes only. *)
Definition texImage2D (target : TextureTarget) (level : Z)
    (internalformat format : PixelFormat) (type : PixelType) (source : Canvas)
    (gl : WebGL) : WebGL :=
  if level <? 0 then raise INVALID_VALUE gl
  else if (0 <? level)
          && negb (power_of_two (canvas_width source)
                   && power_of_two (canvas_height source))
  then raise INVALID_VALUE gl
  else
    match TEXTURE_BINDING_2D gl with
    | None => raise INVALID_OPERATION gl
    | Some t =>
        set_textures
          (store t
             (add_image {| image_level := level; image_source := source;
                           image_flipped := unpack_flip_y gl |}
                (nth t (textures gl) new_texture))
             (textures gl)) gl
    end.

Definition texParameteri (target : TextureTarget) (pname : TexParameter)
    (param : TexValue) (gl : WebGL) : WebGL :=
  if negb (tex_value_ok pname param) then raise INVALID_ENUM gl
  else
    match TEXTURE_BINDING_2D gl with
    | None => raise INVALID_OPERATION gl
    | Some t =>
        set_textures
          (store t (set_tex_parameter pname param (nth t (textures gl) new_texture))
             (textures gl)) gl
    end.

(** The one texture unit the program uses is the active one from the
    start. *)
Definition activeTexture (unit : TextureUnit) (gl : WebGL) : WebGL := gl.

Definition enable (cap : Capability) (gl : WebGL) : WebGL :=
  set_depth_test true gl.

Definition viewport (x y width height : Z) (gl : WebGL) : WebGL :=
  if (width <? 0) || (height <? 0) then raise INVALID_VALUE gl
  else set_VIEWPORT (x, y, width, height) gl.

Definition clearColor (red green blue alpha : R) (gl : WebGL) : WebGL :=
  set_COLOR_CLEAR_VALUE
    (clamp01 red, clamp01 green, clamp01 blue, clamp01 alpha) gl.

(** A mask is the list of its bits.  Clearing the colour buffer wipes what
    was drawn. *)
Definition clear (mask : list ClearBit) (gl : WebGL) : WebGL :=
  if existsb color_bit mask then set_shown [] gl else gl.

(** -1 for a program that is not linked. *)
Definition getAttribLocation (program : WebGLProgram) (name : string)
    (gl : WebGL) : Z :=
  match nth_error (programs gl) program with
  | Some p =>
      if program_linked p
      then driver_attrib (driver gl) (attached_shaders gl p) name
      else -1
  | None => -1
  end.

(** [null] for a program that is not linked or has no such uniform. *)
Definition getUniformLocation (program : WebGLProgram) (name : string)
    (gl : WebGL) : option UniformLocation :=
  match nth_error (programs gl) program with
  | Some p =>
      if program_linked p
         && driver_uniform (driver gl) (attached_shaders gl p) name
      then Some (program, name)
      else None
  | None => None
  end.

(** The [uniform...] calls: a [null] location is ignored without an error,
    the location of another program than the current one is an
    INVALID_OPERATION.  Whether the value has the type the shader declares
    is the driver's to check and is not modelled. *)
Definition uniform (location : option UniformLocation) (v : unit -> WebGL -> WebGL)
    (gl : WebGL) : WebGL :=
  match location with
  | None => gl
  | Some l =>
      match CURRENT_PROGRAM gl with
      | Some p =>
          if (fst l =? p)%nat then v tt gl else raise INVALID_OPERATION gl
      | None => raise INVALID_OPERATION gl
      end
  end.

Definition put (location : option UniformLocation) (v : UniformValue)
    (gl : WebGL) : WebGL :=
  match location with
  | Some l => set_uniforms ((l, v) :: uniforms gl) gl
  | None => gl
  end.

(** A matrix is not transposed in WebGL 1 and has all its entries. *)
Definition uniformMatrix4fv (location : option UniformLocation)
    (transpose : bool) (value : list R) (gl : WebGL) : WebGL :=
  uniform location
    (fun _ gl =>
       if transpose || (length value <? 16)%nat then raise INVALID_VALUE gl
       else put location (Matrix4fv value) gl) gl.

Definition uniformMatrix3fv (location : option UniformLocation)
    (transpose : bool) (value : list R) (gl : WebGL) : WebGL :=
  uniform location
    (fun _ gl =>
       if transpose || (length value <? 9)%nat then raise INVALID_VALUE gl
       else put location (Matrix3fv value) gl) gl.

Definition uniform3f (location : option UniformLocation) (x y z : R)
    (gl : WebGL) : WebGL :=
  uniform location (fun _ gl => put location (Float3 x y z) gl) gl.

Definition uniform1f (location : option UniformLocation) (x : R)
    (gl : WebGL) : WebGL :=
  uniform location (fun _ gl => put location (Float1 x) gl) gl.

Definition uniform1i (location : option UniformLocation) (x : Z)
    (gl : WebGL) : WebGL :=
  uniform location (fun _ gl => put location (Int1 x) gl) gl.

End gl.

(** ** The model object with its buffers *)

(** The whole [Model] object: the mesh fields and the four buffer handles,
    [null] until [upload] creates the buffers. *)
Record ModelObject : Type := {
  mesh : Model;
  posVBO : option WebGLBuffer;
  nrmVBO : option WebGLBuffer;
  uvVBO : option WebGLBuffer;
  ibo : option WebGLBuffer
}.

(** [new Model()]. *)
Definition Model_constructor : ModelObject :=
  {| mesh := new_Model; posVBO := None; nrmVBO := None; uvVBO := None;
     ibo := None |}.

(** [if (!handle) handle = gl.createBuffer()]. *)
Definition create_if_null (handle : option WebGLBuffer) (gl : WebGL)
    : option WebGLBuffer * WebGL :=
  match handle with
  | Some _ => (handle, gl)
  | None => let (b, gl) := gl.createBuffer gl in (Some b, gl)
  end.

(** [upload(gl)], all of it: the new state of the object, the new state of
    the context and what [console.warn] printed. *)
Definition Model_upload (gl : WebGL) (this : ModelObject)
    : ModelObject * WebGL * list string :=
  let (posVBO, gl) := create_if_null (posVBO this) gl in
  let (nrmVBO, gl) := create_if_null (nrmVBO this) gl in
  let (uvVBO, gl) := create_if_null (uvVBO this) gl in
  let (ibo, gl) := create_if_null (ibo this) gl in
  let gl := gl.bindBuffer ARRAY_BUFFER posVBO gl in
  let gl :=
    gl.bufferData ARRAY_BUFFER (Some (Float32Data (positions (mesh this))))
      STATIC_DRAW gl in
  let gl := gl.bindBuffer ARRAY_BUFFER nrmVBO gl in
  let gl :=
    gl.bufferData ARRAY_BUFFER (Some (Float32Data (normals (mesh this))))
      STATIC_DRAW gl in
  let gl := gl.bindBuffer ARRAY_BUFFER uvVBO gl in
  let gl :=
    gl.bufferData ARRAY_BUFFER (Some (Float32Data (texcoords (mesh this))))
      STATIC_DRAW gl in
  let gl := gl.bindBuffer ELEMENT_ARRAY_BUFFER ibo gl in
  let gl :=
    gl.bufferData ELEMENT_ARRAY_BUFFER
      (option_map IndexData (indices (mesh this))) STATIC_DRAW gl in
  let '(indexType, gl, console) :=
    if instanceof_Uint32Array (indices (mesh this)) then
      let (ext, gl) := gl.getExtension "OES_element_index_uint" gl in
      (UNSIGNED_INT, gl, if negb ext then [warning] else [])
    else (UNSIGNED_SHORT, gl, []) in
  let gl := gl.bindBuffer ARRAY_BUFFER None gl in
  let gl := gl.bindBuffer ELEMENT_ARRAY_BUFFER None gl in
  ({| mesh :=
        {| positions := positions (mesh this); normals := normals (mesh this);
           texcoords := texcoords (mesh this); indices := indices (mesh this);
           indexCount := indexCount (mesh this); indexType := Some indexType |};
      posVBO := posVBO; nrmVBO := nrmVBO; uvVBO := uvVBO; ibo := ibo |},
   gl, console).

(** The shader locations of [loc]: the attributes and the uniforms. *)
Record Locations : Type := {
  aVertex : Z;
  aNormal : Z;
  aTexcoord : Z;
  uMVP : option UniformLocation;
  uMV : option UniformLocation;
  uN : option UniformLocation;
  uLight : option UniformLocation;
  uTex : option UniformLocation;
  uUVScale : option UniformLocation
}.

(** [draw(gl, program, loc)]: the new state of the context. *)
Definition Model_draw (gl : WebGL) (program : option WebGLProgram)
    (loc : Locations) (this : ModelObject) : WebGL :=
  let gl := gl.useProgram program gl in
  let gl := gl.bindBuffer ARRAY_BUFFER (posVBO this) gl in
  let gl := gl.vertexAttribPointer (aVertex loc) 3 FLOAT false 0 0 gl in
  let gl := gl.enableVertexAttribArray (aVertex loc) gl in
  let gl := gl.bindBuffer ARRAY_BUFFER (nrmVBO this) gl in
  let gl := gl.vertexAttribPointer (aNormal loc) 3 FLOAT false 0 0 gl in
  let gl := gl.enableVertexAttribArray (aNormal loc) gl in
  let gl := gl.bindBuffer ARRAY_BUFFER (uvVBO this) gl in
  let gl := gl.vertexAttribPointer (aTexcoord loc) 2 FLOAT false 0 0 gl in
  let gl := gl.enableVertexAttribArray (aTexcoord loc) gl in
  let gl := gl.bindBuffer ELEMENT_ARRAY_BUFFER (ibo this) gl in
  let gl :=
    gl.drawElements TRIANGLES (indexCount (mesh this)) (indexType (mesh this))
      0 gl in
  let gl := gl.bindBuffer ARRAY_BUFFER None gl in
  gl.bindBuffer ELEMENT_ARRAY_BUFFER None gl.

(** ** main.js *)

(** The globals of main.js, but for [canvas]: [params] holds the fields
    that [build] reads, [scale] and [uvScale] are [params.scale] and
    [params.uvScale], and the trackball is the view matrix it has. *)
Module Main.
Record t : Type := {
  gl : option WebGL;
  surface : option ModelObject;
  program : option WebGLProgram;
  spaceball : option (list R);
  params : Params.t;
  scale : R;
  uvScale : R;
  loc : option Locations;
  mipTex : option WebGLTexture;
  startTime : R
}.

Definition set_gl (v : option WebGL) (g : t) : t :=
  {| gl := v; surface := surface g; program := program g;
     spaceball := spaceball g; params := params g; scale := scale g;
     uvScale := uvScale g; loc := loc g; mipTex := mipTex g;
     startTime := startTime g |}.

Definition set_surface (v : option ModelObject) (g : t) : t :=
  {| gl := gl g; surface := v; program := program g;
     spaceball := spaceball g; params := params g; scale := scale g;
     uvScale := uvScale g; loc := loc g; mipTex := mipTex g;
     startTime := startTime g |}.

Definition set_program (v : option WebGLProgram) (g : t) : t :=
  {| gl := gl g; surface := surface g; program := v;
     spaceball := spaceball g; params := params g; scale := scale g;
     uvScale := uvScale g; loc := loc g; mipTex := mipTex g;
     startTime := startTime g |}.

Definition set_spaceball (v : option (list R)) (g : t) : t :=
  {| gl := gl g; surface := surface g; program := program g;
     spaceball := v; params := params g; scale := scale g;
     uvScale := uvScale g; loc := loc g; mipTex := mipTex g;
     startTime := startTime g |}.

Definition set_loc (v : option Locations) (g : t) : t :=
  {| gl := gl g; surface := surface g; program := program g;
     spaceball := spaceball g; params := params g; scale := scale g;
     uvScale := uvScale g; loc := v; mipTex := mipTex g;
     startTime := startTime g |}.

Definition set_mipTex (v : option WebGLTexture) (g : t) : t :=
  {| gl := gl g; surface := surface g; program := program g;
     spaceball := spaceball g; params := params g; scale := scale g;
     uvScale := uvScale g; loc := loc g; mipTex := v;
     startTime := startTime g |}.

Definition set_startTime (v : R) (g : t) : t :=
  {| gl := gl g; surface := surface g; program := program g;
     spaceball := spaceball g; params := params g; scale := scale g;
     uvScale := uvScale g; loc := loc g; mipTex := mipTex g;
     startTime := v |}.
End Main.

Section Rebuild.

Variable alloc : ArrayKind -> Z -> bool.

(** [surface.build(params)] on the whole object: the handles stay. *)
Definition Model_build (params : Params.t) (this : ModelObject)
    : completion ModelObject :=
  built <- build alloc params (mesh this) ;;
  Return {| mesh := built; posVBO := posVBO this; nrmVBO := nrmVBO this;
            uvVBO := uvVBO this; ibo := ibo this |}.

(** [rebuildSurface()]: the new globals and what the console got, or the
    exception of [build], which leaves everything as it was. *)
Definition rebuildSurface (globals : Main.t)
    : completion (Main.t * list string) :=
  match Main.surface globals, Main.gl globals with
  | Some surface, Some gl =>
      surface <- Model_build (Main.params globals) surface ;;
      let '(surface, gl, console) := Model_upload gl surface in
      Return (Main.set_gl (Some gl) (Main.set_surface (Some surface) globals),
              console)
  | _, _ => Return (globals, [])
  end.

End Rebuild.

(** [createMipTexture(gl)]: the texture and the new state of the context.
    [Math.log2] of a power of two is taken to be exact. *)
Definition createMipTexture (gl : WebGL) : WebGLTexture * WebGL :=
  let (tex, gl) := gl.createTexture gl in
  let gl := gl.bindTexture TEXTURE_2D (Some tex) gl in
  let gl := gl.pixelStorei UNPACK_FLIP_Y_WEBGL true gl in
  let baseSize := 256 in
  let maxLevel := Z.log2 baseSize in
  let gl :=
    fold_left
      (fun gl level =>
         let level := Z.of_nat level in
         let size := Z.shiftr baseSize level in
         let img := makeMipCanvas size level in
         gl.texImage2D TEXTURE_2D level RGBA RGBA UNSIGNED_BYTE img gl)
      (range (maxLevel + 1)) gl in
  let gl := gl.texParameteri TEXTURE_2D TEXTURE_WRAP_S REPEAT gl in
  let gl := gl.texParameteri TEXTURE_2D TEXTURE_WRAP_T REPEAT gl in
  let gl :=
    gl.texParameteri TEXTURE_2D TEXTURE_MIN_FILTER NEAREST_MIPMAP_NEAREST gl in
  let gl := gl.texParameteri TEXTURE_2D TEXTURE_MAG_FILTER LINEAR gl in
  let gl := gl.bindTexture TEXTURE_2D None gl in
  (tex, gl).

(** A call that returns a value or throws an [Error] with a message. *)
Inductive result (A : Type) : Type :=
| Returned (value : A)
| Thrown (message : string).
Arguments Returned {A} value.
Arguments Thrown {A} message.

(** A string or [null] in a concatenation. *)
Definition concat_value (s : option string) : string :=
  match s with
  | Some s => s
  | None => "null"
  end.

(** [!value] for a boolean or [null]. *)
Definition falsy (v : option bool) : bool :=
  match v with
  | Some true => false
  | _ => true
  end.

(** [createProgram(gl, vShader, fShader)]: the program or the error thrown,
    and the new state of the context. *)
Definition createProgram (gl : WebGL) (vShader fShader : string)
    : result WebGLProgram * WebGL :=
  let (vsh, gl) := gl.createShader VERTEX_SHADER gl in
  let gl := gl.shaderSource vsh vShader gl in
  let gl := gl.compileShader vsh gl in
  if falsy (gl.getShaderParameter vsh COMPILE_STATUS gl) then
    (Thrown ("Vertex shader error: " ++ concat_value (gl.getShaderInfoLog vsh gl)),
     gl)
  else
    let (fsh, gl) := gl.createShader FRAGMENT_SHADER gl in
    let gl := gl.shaderSource fsh fShader gl in
    let gl := gl.compileShader fsh gl in
    if falsy (gl.getShaderParameter fsh COMPILE_STATUS gl) then
      (Thrown ("Fragment shader error: "
               ++ concat_value (gl.getShaderInfoLog fsh gl)), gl)
    else
      let (prog, gl) := gl.createProgram gl in
      let gl := gl.attachShader prog vsh gl in
      let gl := gl.attachShader prog fsh gl in
      let gl := gl.linkProgram prog gl in
      if falsy (gl.getProgramParameter prog LINK_STATUS gl) then
        (Thrown ("Program link error: "
                 ++ concat_value (gl.getProgramInfoLog prog gl)), gl)
      else (Returned prog, gl).

(** [m[i]] on an array that has the entry; an entry that is missing reads
    [undefined] in the source, which is not modelled. *)
Definition entry (m : list R) (i : nat) : R := nth i m 0%R.

(** [mat3FromMat4(m)]. *)
Definition mat3FromMat4 (m : list R) : list R :=
  [ entry m 0; entry m 1; entry m 2;
    entry m 4; entry m 5; entry m 6;
    entry m 8; entry m 9; entry m 10 ].

(** [mulMat4Vec4(m, v)]. *)
Definition mulMat4Vec4 (m v : list R) : list R :=
  let x := (entry m 0 * entry v 0 + entry m 4 * entry v 1
            + entry m 8 * entry v 2 + entry m 12 * entry v 3)%R in
  let y := (entry m 1 * entry v 0 + entry m 5 * entry v 1
            + entry m 9 * entry v 2 + entry m 13 * entry v 3)%R in
  let z := (entry m 2 * entry v 0 + entry m 6 * entry v 1
            + entry m 10 * entry v 2 + entry m 14 * entry v 3)%R in
  let w := (entry m 3 * entry v 0 + entry m 7 * entry v 1
            + entry m 11 * entry v 2 + entry m 15 * entry v 3)%R in
  [x; y; z; w].

(** *** [initGL] *)

(** What the console gets. *)
Inductive ConsoleCall : Type :=
| console_warn (message : string)
| console_error (message : string).

(** What a function of main.js throws: [new Error(message)], the
    [RangeError] of a typed array constructor, the [TypeError] of a method
    call on [null]. *)
Inductive Exception : Type :=
| ErrorObject (message : string)
| RangeErrorObject
| TypeErrorObject.

(** [if (c) console.error(message)]. *)
Definition error_if (c : bool) (message : string) : list ConsoleCall :=
  if c then [console_error message] else [].

(** [!location]. *)
Definition is_null {A : Type} (v : option A) : bool :=
  match v with
  | Some _ => false
  | None => true
  end.

Section Init.

Variable alloc : ArrayKind -> Z -> bool.

(** [initGL()]: the new globals, what the console got and the exception
    thrown, if any.  The two arguments are the globals that shader.gpu
    defines, or not. *)
Definition initGL (vertexShaderSource fragmentShaderSource : option string)
    (globals : Main.t) : Main.t * list ConsoleCall * option Exception :=
  match vertexShaderSource, fragmentShaderSource with
  | Some vertexShaderSource, Some fragmentShaderSource =>
      match Main.gl globals with
      | None => (globals, [], Some TypeErrorObject)
      | Some gl =>
          let (created, gl) :=
            createProgram gl vertexShaderSource fragmentShaderSource in
          let globals := Main.set_gl (Some gl) globals in
          match created with
          | Thrown message => (globals, [], Some (ErrorObject message))
          | Returned program =>
              let globals := Main.set_program (Some program) globals in
              let loc :=
                {| aVertex := gl.getAttribLocation program "vertex" gl;
                   aNormal := gl.getAttribLocation program "normal" gl;
                   aTexcoord := gl.getAttribLocation program "texcoord" gl;
                   uMVP :=
                     gl.getUniformLocation program "ModelViewProjectionMatrix"
                       gl;
                   uMV := gl.getUniformLocation program "ModelViewMatrix" gl;
                   uN := gl.getUniformLocation program "NormalMatrix" gl;
                   uLight := gl.getUniformLocation program "LightPosView" gl;
                   uTex := gl.getUniformLocation program "uTex" gl;
                   uUVScale := gl.getUniformLocation program "uUVScale" gl |} in
              let globals := Main.set_loc (Some loc) globals in
              let console :=
                error_if (aVertex loc <? 0) "Attribute vertex not found"
                ++ error_if (aNormal loc <? 0) "Attribute normal not found"
                ++ error_if (aTexcoord loc <? 0) "Attribute texcoord not found"
                ++ error_if (is_null (uMVP loc))
                     "Uniform ModelViewProjectionMatrix not found"
                ++ error_if (is_null (uMV loc))
                     "Uniform ModelViewMatrix not found"
                ++ error_if (is_null (uN loc)) "Uniform NormalMatrix not found"
                ++ error_if (is_null (uLight loc))
                     "Uniform LightPosView not found"
                ++ error_if (is_null (uTex loc)) "Uniform uTex not found"
                ++ error_if (is_null (uUVScale loc))
                     "Uniform uUVScale not found" in
              let globals := Main.set_surface (Some Model_constructor) globals in
              match rebuildSurface alloc globals with
              | RangeError => (globals, console, Some RangeErrorObject)
              | Return (globals, warnings) =>
                  let console := console ++ map console_warn warnings in
                  match Main.gl globals with
                  | None => (globals, console, Some TypeErrorObject)
                  | Some gl =>
                      let (tex, gl) := createMipTexture gl in
                      let globals := Main.set_mipTex (Some tex) globals in
                      let gl := gl.enable DEPTH_TEST gl in
                      (Main.set_gl (Some gl) globals, console, None)
                  end
              end
          end
      end
  | _, _ =>
      (globals, [],
       Some (ErrorObject
               "shader.gpu did not define vertexShaderSource/fragmentShaderSource"))
  end.

End Init.

(** *** [drawFrame] *)

(** The functions of the matrix library [m4] that [drawFrame] calls. *)
Record M4 : Type := {
  m4_perspective : R -> R -> R -> R -> list R;
  m4_axisRotation : list R -> R -> list R;
  m4_translation : R -> R -> R -> list R;
  m4_scaling : R -> R -> R -> list R;
  m4_multiply : list R -> list R -> list R
}.

Section Frame.

Variable m4 : M4.

(** [drawFrame(timeMs)]: the new globals, and whether
    [requestAnimationFrame(drawFrame)] was called. *)
Definition drawFrame (timeMs : R) (globals : Main.t) : Main.t * bool :=
  match Main.gl globals, Main.program globals, Main.surface globals,
        Main.spaceball globals, Main.loc globals with
  | Some gl, Some program, Some surface, Some spaceball, Some loc =>
      let startTime :=
        if Req_dec_T (Main.startTime globals) 0 then timeMs
        else Main.startTime globals in
      let t := ((timeMs - startTime) * 0.001)%R in
      let width := canvas_width (canvas gl) in
      let height := canvas_height (canvas gl) in
      let gl := gl.viewport 0 0 width height gl in
      let gl := gl.clearColor 0 0 0 1 gl in
      let gl := gl.clear [COLOR_BUFFER_BIT; DEPTH_BUFFER_BIT] gl in
      let aspect := (IZR width / IZR height)%R in
      let projection := m4_perspective m4 (PI / 10) aspect 0.1 300 in
      let view := spaceball in
      let rotateToPointZero :=
        m4_axisRotation m4 [0.707; 0.707; 0]%R 0.7 in
      let translateToPointZero := m4_translation m4 0 0 (-18) in
      let s := Rmax 0.01 (Main.scale globals) in
      let scaleM := m4_scaling m4 s s s in
      let modelView :=
        m4_multiply m4 translateToPointZero
          (m4_multiply m4 scaleM (m4_multiply m4 rotateToPointZero view)) in
      let mvp := m4_multiply m4 projection modelView in
      let lightR := 12%R in
      let lightH := 6%R in
      let lightWorld := [lightR * cos t; lightH; lightR * sin t; 1]%R in
      let lightView4 := mulMat4Vec4 modelView lightWorld in
      let gl := gl.useProgram (Some program) gl in
      let gl := gl.uniformMatrix4fv (uMVP loc) false mvp gl in
      let gl := gl.uniformMatrix4fv (uMV loc) false modelView gl in
      let gl := gl.uniformMatrix3fv (uN loc) false (mat3FromMat4 modelView) gl in
      let gl :=
        gl.uniform3f (uLight loc) (entry lightView4 0) (entry lightView4 1)
          (entry lightView4 2) gl in
      let gl := gl.uniform1f (uUVScale loc) (Main.uvScale globals) gl in
      let gl := gl.activeTexture TEXTURE0 gl in
      let gl := gl.bindTexture TEXTURE_2D (Main.mipTex globals) gl in
      let gl := gl.uniform1i (uTex loc) 0 gl in
      let gl := Model_draw gl (Some program) loc surface in
      (Main.set_startTime startTime (Main.set_gl (Some gl) globals), true)
  | _, _, _, _, _ => (globals, false)
  end.

End Frame.

(** *** What a draw reads *)

(** The indices a draw fetches, when the data store holds an index array of
    the width of the draw's type. *)
Definition draw_indices (d : Draw) : option (list Z) :=
  match buffer_data (nth (draw_index_buffer d) (draw_buffers d) new_buffer),
        draw_type d with
  | Some (IndexData (Uint16Array data)), UNSIGNED_SHORT
  | Some (IndexData (Uint32Array data)), UNSIGNED_INT =>
      Some (firstn (Z.to_nat (draw_count d))
              (skipn (Z.to_nat (draw_offset d / index_size (draw_type d))) data))
  | _, _ => None
  end.

(** The array that the attribute at a location reads in a draw: the number
    of components of a vertex and the floats of the buffer. *)
Definition draw_attribute (d : Draw) (index : Z) : option (Z * list R) :=
  let a := nth (Z.to_nat (ToUint32 index)) (draw_attribs d) new_attrib in
  if attrib_enabled a then
    match attrib_buffer a with
    | Some b =>
        match buffer_data (nth b (draw_buffers d) new_buffer) with
        | Some (Float32Data data) => Some (attrib_size a, data)
        | _ => None
        end
    | None => None
    end
  else None.

(** The range check of WebGL on the vertices of a draw: the bytes that an
    enabled attribute reads for the vertex [v] lie inside its buffer. *)
Definition attrib_in_range (buffers : list BufferObject) (vertices : list Z)
    (a : VertexAttrib) : bool :=
  if attrib_enabled a then
    match attrib_buffer a with
    | Some b =>
        let stored :=
          match buffer_data (nth b buffers new_buffer) with
          | Some d => byteLength d
          | None => 0
          end in
        let stride :=
          if attrib_stride a =? 0 then 4 * attrib_size a else attrib_stride a in
        forallb
          (fun v =>
             (0 <=? v)
             && (attrib_offset a + v * stride + 4 * attrib_size a <=? stored))
          vertices
    | None => false
    end
  else true.

Definition draw_in_range (d : Draw) : bool :=
  match draw_indices d with
  | Some vertices =>
      forallb (attrib_in_range (draw_buffers d) vertices) (draw_attribs d)
  | None => false
  end.

(** *** The state between the calls *)

(** A handle is [null] or names a buffer of the context that was never bound
    to the other binding point. *)
Definition handle_ok (gl : WebGL) (target : Target)
    (handle : option WebGLBuffer) : Prop :=
  match handle with
  | None => True
  | Some b =>
      (b < length (buffers gl))%nat
      /\ (buffer_target (nth b (buffers gl) new_buffer) = None
          \/ buffer_target (nth b (buffers gl) new_buffer) = Some target)
  end.

Definition distinct_handles (h h' : option WebGLBuffer) : Prop :=
  match h, h' with
  | Some b, Some b' => b <> b'
  | _, _ => True
  end.

(** The object owns its buffers: the handles it has are buffers of the
    context, each of the right kind, and no two are the same buffer. *)
Definition owns (gl : WebGL) (this : ModelObject) : Prop :=
  handle_ok gl ARRAY_BUFFER (posVBO this)
  /\ handle_ok gl ARRAY_BUFFER (nrmVBO this)
  /\ handle_ok gl ARRAY_BUFFER (uvVBO this)
  /\ handle_ok gl ELEMENT_ARRAY_BUFFER (ibo this)
  /\ distinct_handles (posVBO this) (nrmVBO this)
  /\ distinct_handles (posVBO this) (uvVBO this)
  /\ distinct_handles (posVBO this) (ibo this)
  /\ distinct_handles (nrmVBO this) (uvVBO this)
  /\ distinct_handles (nrmVBO this) (ibo this)
  /\ distinct_handles (uvVBO this) (ibo this).

(** The buffer of a handle holds the given data. *)
Definition holds (gl : WebGL) (target : Target) (handle : option WebGLBuffer)
    (data : BufferData) : Prop :=
  exists b,
    handle = Some b /\ (b < length (buffers gl))%nat
    /\ nth b (buffers gl) new_buffer
       = {| buffer_target := Some target; buffer_data := Some data |}.

(** The index type that goes with an index array. *)
Definition type_of_indices (idx : IndexArray) : GLenum :=
  match idx with
  | Uint16Array _ => UNSIGNED_SHORT
  | Uint32Array _ => UNSIGNED_INT
  end.

(** The mesh of the object is on the GPU: the four buffers hold its four
    arrays, and the index type is resolved. *)
Definition uploaded (gl : WebGL) (this : ModelObject) : Prop :=
  exists idx,
    indices (mesh this) = Some idx
    /\ indexType (mesh this) = Some (type_of_indices idx)
    /\ holds gl ARRAY_BUFFER (posVBO this) (Float32Data (positions (mesh this)))
    /\ holds gl ARRAY_BUFFER (nrmVBO this) (Float32Data (normals (mesh this)))
    /\ holds gl ARRAY_BUFFER (uvVBO this) (Float32Data (texcoords (mesh this)))
    /\ holds gl ELEMENT_ARRAY_BUFFER (ibo this) (IndexData idx).

(** The mesh is closed: [indexCount] is the length of the index array, and
    every index names a vertex that the three vertex arrays have. *)
Definition closed_mesh (m : Model) : bool :=
  match indices m with
  | Some idx =>
      (indexCount m =? Z.of_nat (length (elements idx)))
      && forallb
           (fun v =>
              (0 <=? v)
              && (3 * (v + 1) <=? Z.of_nat (length (positions m)))
              && (3 * (v + 1) <=? Z.of_nat (length (normals m)))
              && (2 * (v + 1) <=? Z.of_nat (length (texcoords m))))
           (elements idx)
  | None => false
  end.

(** A location names an attribute slot of the context. *)
Definition slot (gl : WebGL) (index : Z) : Prop :=
  0 <= index < 2 ^ 32 /\ index < Z.of_nat (length (vertex_attribs gl)).

(** The attribute locations are three different slots of the context. *)
Definition locations_ok (gl : WebGL) (loc : Locations) : Prop :=
  slot gl (aVertex loc) /\ slot gl (aNormal loc) /\ slot gl (aTexcoord loc)
  /\ aVertex loc <> aNormal loc
  /\ aVertex loc <> aTexcoord loc
  /\ aNormal loc <> aTexcoord loc.

(** The program is one of the context and is linked. *)
Definition linked (gl : WebGL) (program : WebGLProgram) : Prop :=
  exists obj,
    nth_error (programs gl) program = Some obj /\ program_linked obj = true.

(** The context accepts the index type. *)
Definition index_type_enabled (gl : WebGL) (type : GLenum) : Prop :=
  type = UNSIGNED_INT -> uint_indices gl = true.

(** No attribute but those at the three locations is enabled. *)
Definition only_enabled (gl : WebGL) (loc : Locations) : Prop :=
  forall i : nat,
    Z.of_nat i <> aVertex loc -> Z.of_nat i <> aNormal loc ->
    Z.of_nat i <> aTexcoord loc ->
    attrib_enabled (nth i (vertex_attribs gl) new_attrib) = false.

(** A context as [c.getContext('webgl')] returns it, with [slots] vertex
    attributes. *)
Definition new_context (d : Driver) (ext : GL) (slots : nat) (c : Canvas)
    : WebGL :=
  {| driver := d; supported := ext; canvas := c; uint_indices := false;
     buffers := []; ARRAY_BUFFER_BINDING := None;
     ELEMENT_ARRAY_BUFFER_BINDING := None;
     vertex_attribs := repeat new_attrib slots; shaders := []; programs := [];
     CURRENT_PROGRAM := None; uniforms := []; textures := [];
     TEXTURE_BINDING_2D := None; unpack_flip_y := false; depth_test := false;
     VIEWPORT := (0, 0, canvas_width c, canvas_height c);
     COLOR_CLEAR_VALUE := (0, 0, 0, 0)%R; errors := []; drawn := [];
     shown := [] |}.

(** *** Textures *)

(** The image of a level of a texture: the last one given. *)
Definition level_image (t : TextureObject) (level : Z) : option TexImage :=
  find (fun img => image_level img =? level) (tex_images t).

(** Mipmap completeness (OpenGL ES 2.0, 3.7.10): the base image has a
    positive power-of-two size, and every level up to log2 of the larger
    side has an image of the size of the base halved that often, 1 at the
    least. *)
Definition mip_complete (t : TextureObject) : bool :=
  match level_image t 0 with
  | Some base =>
      let w := canvas_width (image_source base) in
      let h := canvas_height (image_source base) in
      power_of_two w && power_of_two h
      && forallb
           (fun k =>
              match level_image t (Z.of_nat k) with
              | Some img =>
                  (canvas_width (image_source img) =? Z.max 1 (w / 2 ^ Z.of_nat k))
                  && (canvas_height (image_source img)
                      =? Z.max 1 (h / 2 ^ Z.of_nat k))
              | None => false
              end)
           (seq 1 (Z.to_nat (Z.log2 (Z.max w h))))
  | None => false
  end.

(** *** Matrices as the shaders read them *)




(** *** What the theorems on the context speak of *)

(** The number of buffers [create_if_null] creates. *)
Definition missing (handle : option WebGLBuffer) : nat :=
  match handle with
  | Some _ => 0
  | None => 1
  end.

(** From one state to a later one nothing was drawn, the programs and the
    textures are the same, no error was taken back, and the extension was
    enabled only if the context has it. *)
Definition undrawn (gl gl' : WebGL) : Prop :=
  drawn gl' = drawn gl
  /\ programs gl' = programs gl
  /\ textures gl' = textures gl
  /\ supported gl' = supported gl
  /\ (OES_element_index_uint (supported gl) = false ->
      uint_indices gl' = uint_indices gl)
  /\ exists es, errors gl' = es ++ errors gl.

(** The texture that [createMipTexture] builds. *)
Definition mip_texture : TextureObject :=
  {| tex_images :=
       rev (map (fun k =>
                   {| image_level := Z.of_nat k;
                      image_source :=
                        makeMipCanvas (2 ^ (8 - Z.of_nat k)) (Z.of_nat k);
                      image_flipped := true |}) (seq 0 9));
     tex_wrap_s := REPEAT; tex_wrap_t := REPEAT;
     tex_min_filter := NEAREST_MIPMAP_NEAREST; tex_mag_filter := LINEAR |}.

(** A shader object after [shaderSource] and [compileShader]. *)
Definition compiled_shader (d : Driver) (type : ShaderType) (source : string)
    : ShaderObject :=
  {| shader_type := type; shader_source := source;
     shader_compiled := fst (driver_compile d type source);
     shader_log := snd (driver_compile d type source) |}.


(** The identity matrix as a Float32Array of 16. *)
Definition identity4 : list R :=
  [ 1; 0; 0; 0;  0; 1; 0; 0;  0; 0; 1; 0;  0; 0; 0; 1 ]%R.

(** *** A context and objects used in examples *)

(** A driver that compiles and links everything. *)
Definition example_driver : Driver :=
  {| driver_compile := fun _ _ => (true, EmptyString);
     driver_link := fun _ => (true, EmptyString);
     driver_attrib :=
       fun _ name =>
         if String.eqb name "vertex" then 0
         else if String.eqb name "normal" then 1
         else if String.eqb name "texcoord" then 2
         else -1;
     driver_uniform := fun _ _ => true |}.

(** A context of 8 attribute slots without the extension, on a canvas of
    640 by 480, with one linked program. *)
Definition example_canvas : Canvas :=
  {| canvas_width := 640; canvas_height := 480; canvas_calls := [] |}.

Definition example_context : WebGL :=
  snd (createProgram
         (new_context example_driver {| OES_element_index_uint := false |} 8
            example_canvas)
         "void main() {}" "void main() {}").

Definition example_loc : Locations :=
  {| aVertex := 0; aNormal := 1; aTexcoord := 2;
     uMVP := Some (0%nat, "ModelViewProjectionMatrix"%string);
     uMV := Some (0%nat, "ModelViewMatrix"%string);
     uN := Some (0%nat, "NormalMatrix"%string);
     uLight := Some (0%nat, "LightPosView"%string);
     uTex := Some (0%nat, "uTex"%string);
     uUVScale := Some (0%nat, "uUVScale"%string) |}.

(** One triangle, with 16-bit and with 32-bit indices. *)
Definition triangle : Model :=
  {| positions := [0; 0; 0; 1; 0; 0; 0; 1; 0]%R;
     normals := [0; 0; 1; 0; 0; 1; 0; 0; 1]%R;
     texcoords := [0; 0; 1; 0; 0; 1]%R;
     indices := Some (Uint16Array [0; 1; 2]);
     indexCount := 3;
     indexType := None |}.

Definition wide_triangle : Model :=
  {| positions := positions triangle; normals := normals triangle;
     texcoords := texcoords triangle;
     indices := Some (Uint32Array [0; 1; 2]);
     indexCount := 3;
     indexType := None |}.

(** An object that has a mesh and no buffer yet. *)
Definition object_of (m : Model) : ModelObject :=
  {| mesh := m; posVBO := None; nrmVBO := None; uvVBO := None; ibo := None |}.

(** The globals after [surface = new Model()], with the parameters of the
    example grid. *)
Definition example_globals : Main.t :=
  {| Main.gl := Some example_context;
     Main.surface := Some Model_constructor;
     Main.program := Some 0%nat;
     Main.spaceball := Some identity4;
     Main.params := scenario;
     Main.scale := 0.35;
     Main.uvScale := 16;
     Main.loc := Some example_loc;
     Main.mipTex := None;
     Main.startTime := 0 |}.

(** *** The scene and the globals of a frame *)

(** From one state to another the scene is the same: the buffers, the
    vertex attributes, the programs, the canvas, the extension and what
    was drawn. *)
Definition same_scene (gl gl' : WebGL) : Prop :=
  buffers gl' = buffers gl
  /\ vertex_attribs gl' = vertex_attribs gl
  /\ programs gl' = programs gl
  /\ supported gl' = supported gl
  /\ uint_indices gl' = uint_indices gl
  /\ canvas gl' = canvas gl
  /\ drawn gl' = drawn gl
  /\ shown gl' = shown gl.

(** The globals are ready for a frame: all five that [drawFrame] asks for
    are set, the mesh of the surface is closed and on the GPU, the program
    is linked, the attribute locations are three slots of the context, the
    only ones enabled, and the context accepts the index type. *)
Definition frame_ready (g : Main.t) : Prop :=
  exists gl program this view loc idx,
    Main.gl g = Some gl /\ Main.program g = Some program
    /\ Main.surface g = Some this /\ Main.spaceball g = Some view
    /\ Main.loc g = Some loc
    /\ uploaded gl this /\ owns gl this
    /\ indices (mesh this) = Some idx /\ closed_mesh (mesh this) = true
    /\ locations_ok gl loc /\ only_enabled gl loc /\ linked gl program
    /\ index_type_enabled gl (type_of_indices idx).

(** The context that [canvas.getContext('webgl')] returns in the examples:
    8 attribute slots, no extension, a canvas of 640 by 480. *)
Definition fresh_context : WebGL :=
  new_context example_driver {| OES_element_index_uint := false |} 8
    example_canvas.

(** The globals when [init] calls [initGL], with the parameters of the
    example grid. *)
Definition started_globals : Main.t :=
  {| Main.gl := Some fresh_context;
     Main.surface := None;
     Main.program := None;
     Main.spaceball := None;
     Main.params := scenario;
     Main.scale := 0.35;
     Main.uvScale := 16;
     Main.loc := None;
     Main.mipTex := None;
     Main.startTime := 0 |}.

(** The globals after [initGL] and [spaceball = new TrackballRotator(...)],
    with the identity as the view matrix. *)
Definition ready_globals : Main.t :=
  Main.set_spaceball (Some identity4)
    (fst (fst (initGL es_alloc (Some "void main() {}"%string)
                 (Some "void main() {}"%string) started_globals))).

Definition ready_context : WebGL :=
  match Main.gl ready_globals with
  | Some gl => gl
  | None => fresh_context
  end.

(** A matrix library whose matrices are all the identity. *)
Definition identity_m4 : M4 :=
  {| m4_perspective := fun _ _ _ _ => identity4;
     m4_axisRotation := fun _ _ => identity4;
     m4_translation := fun _ _ _ => identity4;
     m4_scaling := fun _ _ _ => identity4;
     m4_multiply := fun a _ => a |}.

(** ** Tactics *)


(** ** Lemmas on typed arrays *)

Section Store.
Context {A : Type}.

Lemma length_store (k : nat) (v : A) (arr : list A) :
  length (store k v arr) = length arr.
Proof.
  revert k; induction arr as [|x rest IH]; intros [|k]; simpl; auto.
Qed.

Lemma nth_store_same (k : nat) (v d : A) (arr : list A) :
  (k < length arr)%nat -> nth k (store k v arr) d = v.
Proof.
  revert k; induction arr as [|x rest IH]; intros [|k] Hk; simpl in *;
    try lia; auto.
  apply IH; lia.
Qed.

Lemma nth_store_other (k k' : nat) (v d : A) (arr : list A) :
  k <> k' -> nth k (store k' v arr) d = nth k arr d.
Proof.
  revert k k'; induction arr as [|x rest IH]; intros [|k] [|k'] Hk; simpl;
    auto; try congruence.
Qed.

Lemma store_app_cursor (k : nat) (v : A) (front back : list A) :
  store (length front + k) v (front ++ back) = front ++ store k v back.
Proof.
  induction front as [|x front IH]; simpl; [reflexivity|].
  now rewrite IH.
Qed.

Lemma store_cursor (v : A) (front : list A) (x : A) (back : list A) :
  store (length front) v (front ++ x :: back) = front ++ v :: back.
Proof.
  rewrite <- (Nat.add_0_r (length front)). now rewrite store_app_cursor.
Qed.

(** Two and three consecutive writes at a cursor. *)
Lemma store_pair (front back : list A) (x y x0 y0 : A) :
  store (length front + 1) y (store (length front) x (front ++ x0 :: y0 :: back))
  = front ++ x :: y :: back.
Proof.
  now rewrite store_cursor, store_app_cursor.
Qed.

Lemma store_triple (front back : list A) (x y z x0 y0 z0 : A) :
  store (length front + 2) z
    (store (length front + 1) y
       (store (length front) x (front ++ x0 :: y0 :: z0 :: back)))
  = front ++ x :: y :: z :: back.
Proof.
  now rewrite store_cursor, !store_app_cursor.
Qed.

Lemma store_six (front back : list A) (a b c d e f a0 b0 c0 d0 e0 f0 : A) :
  store (length front + 5) f
    (store (length front + 4) e
       (store (length front + 3) d
          (store (length front + 2) c
             (store (length front + 1) b
                (store (length front) a
                   (front ++ a0 :: b0 :: c0 :: d0 :: e0 :: f0 :: back))))))
  = front ++ a :: b :: c :: d :: e :: f :: back.
Proof.
  now rewrite store_cursor, !store_app_cursor.
Qed.

(** Reading a table of equal-sized chunks. *)
Lemma nth_flat_map_chunks (g : nat -> list A) (w : nat) (d : A) :
  (forall k, length (g k) = w) ->
  forall n s k c, (k < n)%nat -> (c < w)%nat ->
    nth (k * w + c) (flat_map g (seq s n)) d = nth c (g (s + k)%nat) d.
Proof.
  intros Hw; induction n as [|n IH]; intros s k c Hk Hc; [lia|].
  simpl. destruct k as [|k].
  - rewrite app_nth1 by (rewrite Hw; lia).
    now rewrite Nat.add_0_r.
  - rewrite app_nth2 by (rewrite Hw; simpl; lia).
    rewrite Hw.
    replace (S k * w + c - w)%nat with (k * w + c)%nat by (simpl; lia).
    rewrite IH by lia. f_equal. f_equal. lia.
Qed.

Lemma length_flat_map_chunks (g : nat -> list A) (w : nat) :
  (forall k, length (g k) = w) ->
  forall n s, length (flat_map g (seq s n)) = (n * w)%nat.
Proof.
  intros Hw; induction n as [|n IH]; intros s; simpl; [reflexivity|].
  now rewrite length_app, Hw, IH.
Qed.

End Store.

(** ** The vertex loop *)

Section VertexLoop.
Variable p : Params.t.
Variables Nr Nu : Z.
Variables rMin rMax uMin uMax : R.

(** The inner loop appends one row at the cursors. *)
Lemma inner_loop_fills (i : nat) : forall js front_pos front_uv rest_pos rest_uv,
  fold_left (vertex_step p Nu uMin uMax (loop_t Nr i) (loop_r Nr rMin rMax i)) js
    {| st_pos := front_pos ++ repeat 0%R (3 * length js + rest_pos);
       st_uv := front_uv ++ repeat 0%R (2 * length js + rest_uv);
       st_pk := length front_pos; st_uk := length front_uv |}
  = {| st_pos := (front_pos ++ flat_map (loop_position p Nr Nu rMin rMax uMin uMax i) js) ++ repeat 0%R rest_pos;
       st_uv := (front_uv ++ flat_map (loop_texcoord Nr Nu i) js) ++ repeat 0%R rest_uv;
       st_pk := length (front_pos ++ flat_map (loop_position p Nr Nu rMin rMax uMin uMax i) js);
       st_uk := length (front_uv ++ flat_map (loop_texcoord Nr Nu i) js) |}.
Proof.
  induction js as [|j js IH]; intros front_pos front_uv rest_pos rest_uv.
  - simpl. now rewrite !app_nil_r.
  - cbn [fold_left].
    replace (3 * length (j :: js) + rest_pos)%nat
      with (S (S (S (3 * length js + rest_pos)))) by (simpl; lia).
    replace (2 * length (j :: js) + rest_uv)%nat
      with (S (S (2 * length js + rest_uv))) by (simpl; lia).
    unfold vertex_step at 2. cbn [st_pos st_uv st_pk st_uk repeat].
    unfold surfacePoint. cbv zeta.
    rewrite store_triple, store_pair.
    specialize (IH (front_pos ++ loop_position p Nr Nu rMin rMax uMin uMax i j) (front_uv ++ loop_texcoord Nr Nu i j)
                  rest_pos rest_uv).
    cbn [flat_map]. rewrite !app_assoc. rewrite <- IH. clear IH.
    rewrite <- !app_assoc, !length_app. reflexivity.
Qed.

(** The outer loop appends row after row. *)
Lemma outer_loop_fills : forall rows front_pos front_uv rest_pos rest_uv,
  fold_left (row_step p Nr Nu rMin rMax uMin uMax) rows
    {| st_pos := front_pos
                 ++ repeat 0%R (3 * (length rows * Z.to_nat Nu) + rest_pos);
       st_uv := front_uv
                ++ repeat 0%R (2 * (length rows * Z.to_nat Nu) + rest_uv);
       st_pk := length front_pos; st_uk := length front_uv |}
  = let table_pos := flat_map (fun i => flat_map (loop_position p Nr Nu rMin rMax uMin uMax i) (range Nu)) rows in
    let table_uv := flat_map (fun i => flat_map (loop_texcoord Nr Nu i) (range Nu)) rows in
    {| st_pos := (front_pos ++ table_pos) ++ repeat 0%R rest_pos;
       st_uv := (front_uv ++ table_uv) ++ repeat 0%R rest_uv;
       st_pk := length (front_pos ++ table_pos);
       st_uk := length (front_uv ++ table_uv) |}.
Proof.
  induction rows as [|i rows IH]; intros front_pos front_uv rest_pos rest_uv.
  - simpl. now rewrite !app_nil_r.
  - cbn [fold_left flat_map length]. cbv zeta.
    unfold row_step at 2. fold (loop_t Nr i). fold (loop_r Nr rMin rMax i).
    assert (Hlen : length (range Nu) = Z.to_nat Nu) by apply length_seq.
    replace (3 * (S (length rows) * Z.to_nat Nu) + rest_pos)%nat
      with (3 * length (range Nu)
            + (3 * (length rows * Z.to_nat Nu) + rest_pos))%nat by lia.
    replace (2 * (S (length rows) * Z.to_nat Nu) + rest_uv)%nat
      with (2 * length (range Nu)
            + (2 * (length rows * Z.to_nat Nu) + rest_uv))%nat by lia.
    rewrite inner_loop_fills, IH. cbv zeta.
    now rewrite <- !app_assoc.
Qed.

Lemma fill_vertices_table :
  0 <= Nr -> 0 <= Nu ->
  fill_vertices p Nr Nu rMin rMax uMin uMax
    (repeat 0%R (Z.to_nat (Nr * Nu * 3))) (repeat 0%R (Z.to_nat (Nr * Nu * 2)))
  = {| st_pos := (loop_positions p Nr Nu rMin rMax uMin uMax); st_uv := (loop_texcoords Nr Nu);
       st_pk := length (loop_positions p Nr Nu rMin rMax uMin uMax); st_uk := length (loop_texcoords Nr Nu) |}.
Proof.
  intros HNr HNu. unfold fill_vertices.
  pose proof (outer_loop_fills (range Nr) [] [] 0 0) as H.
  cbn [app length] in H. cbv zeta in H. rewrite !app_nil_r in H.
  assert (Hlen : length (range Nr) = Z.to_nat Nr) by apply length_seq.
  rewrite Hlen in H.
  replace (Z.to_nat (Nr * Nu * 3)) with (3 * (Z.to_nat Nr * Z.to_nat Nu) + 0)%nat by nia.
  replace (Z.to_nat (Nr * Nu * 2)) with (2 * (Z.to_nat Nr * Z.to_nat Nu) + 0)%nat by nia.
  exact H.
Qed.

Lemma length_loop_positions :
  length (loop_positions p Nr Nu rMin rMax uMin uMax) = (Z.to_nat Nr * (Z.to_nat Nu * 3))%nat.
Proof.
  unfold loop_positions, range.
  apply length_flat_map_chunks. intros i.
  apply length_flat_map_chunks. intros j. reflexivity.
Qed.

Lemma length_loop_texcoords :
  length (loop_texcoords Nr Nu) = (Z.to_nat Nr * (Z.to_nat Nu * 2))%nat.
Proof.
  unfold loop_texcoords, range.
  apply length_flat_map_chunks. intros i.
  apply length_flat_map_chunks. intros j. reflexivity.
Qed.



End VertexLoop.

(** ** The index loop *)

Lemma store_index_elements (k : nat) (v : Z) (idx : IndexArray) :
  store_index k v idx
  = with_elements idx (store k (v mod modulus idx) (elements idx)).
Proof. destruct idx; reflexivity. Qed.

Lemma elements_with_elements idx data : elements (with_elements idx data) = data.
Proof. destruct idx; reflexivity. Qed.

Lemma modulus_with_elements idx data : modulus (with_elements idx data) = modulus idx.
Proof. destruct idx; reflexivity. Qed.

Lemma with_elements_twice idx data data' :
  with_elements (with_elements idx data) data' = with_elements idx data'.
Proof. destruct idx; reflexivity. Qed.

Section IndexLoop.
Variable Nu : Z.

(** The inner loop appends the triangles of one row of quads. *)
Lemma inner_index_loop_fills (i : nat) : forall js idx front rest,
  fold_left (quad_step Nu i) js
    (with_elements idx (front ++ repeat 0 (6 * length js + rest)), length front)
  = (with_elements idx
       ((front ++ flat_map (stored_quad (modulus idx) Nu i) js) ++ repeat 0 rest),
     length (front ++ flat_map (stored_quad (modulus idx) Nu i) js)).
Proof.
  induction js as [|j js IH]; intros idx front rest.
  - simpl. now rewrite !app_nil_r.
  - cbn [fold_left].
    replace (6 * length (j :: js) + rest)%nat
      with (S (S (S (S (S (S (6 * length js + rest))))))) by (simpl; lia).
    unfold quad_step at 2. cbv zeta.
    rewrite !store_index_elements.
    rewrite !modulus_with_elements, !elements_with_elements, !with_elements_twice.
    cbn [repeat]. rewrite store_six.
    specialize (IH idx (front ++ stored_quad (modulus idx) Nu i j) rest).
    cbn [flat_map]. rewrite !app_assoc. rewrite <- IH. clear IH.
    rewrite <- !app_assoc, !length_app. reflexivity.
Qed.

Lemma outer_index_loop_fills : forall rows idx front rest,
  fold_left (fun st i => fold_left (quad_step Nu i) (range (Nu - 1)) st) rows
    (with_elements idx
       (front ++ repeat 0 (6 * (length rows * Z.to_nat (Nu - 1)) + rest)),
     length front)
  = let table :=
      flat_map (fun i => flat_map (stored_quad (modulus idx) Nu i) (range (Nu - 1)))
               rows in
    (with_elements idx ((front ++ table) ++ repeat 0 rest),
     length (front ++ table)).
Proof.
  induction rows as [|i rows IH]; intros idx front rest.
  - simpl. now rewrite !app_nil_r.
  - cbn [fold_left flat_map length]. cbv zeta.
    assert (Hlen : length (range (Nu - 1)) = Z.to_nat (Nu - 1)) by apply length_seq.
    replace (6 * (S (length rows) * Z.to_nat (Nu - 1)) + rest)%nat
      with (6 * length (range (Nu - 1))
            + (6 * (length rows * Z.to_nat (Nu - 1)) + rest))%nat by lia.
    rewrite inner_index_loop_fills, IH. cbv zeta.
    now rewrite <- !app_assoc.
Qed.

End IndexLoop.

Lemma fill_indices_table (Nr Nu : Z) (idx : IndexArray) :
  1 <= Nr -> 1 <= Nu ->
  elements idx = repeat 0 (Z.to_nat ((Nr - 1) * (Nu - 1) * 2 * 3)) ->
  fill_indices Nr Nu idx
  = with_elements idx (stored_triangle_list (modulus idx) Nr Nu).
Proof.
  intros HNr HNu Hidx. unfold fill_indices.
  pose proof (outer_index_loop_fills Nu (range (Nr - 1)) idx [] 0) as H.
  cbn [app length] in H. cbv zeta in H. rewrite !app_nil_r in H.
  assert (Hlen : length (range (Nr - 1)) = Z.to_nat (Nr - 1)) by apply length_seq.
  rewrite Hlen in H.
  replace idx with (with_elements idx (elements idx)) at 1 by (destruct idx; reflexivity).
  rewrite Hidx.
  replace (Z.to_nat ((Nr - 1) * (Nu - 1) * 2 * 3))
    with (6 * (Z.to_nat (Nr - 1) * Z.to_nat (Nu - 1)) + 0)%nat by nia.
  rewrite H. reflexivity.
Qed.

Lemma length_stored_triangle_list (M Nr Nu : Z) :
  length (stored_triangle_list M Nr Nu)
  = (Z.to_nat (Nr - 1) * (Z.to_nat (Nu - 1) * 6))%nat.
Proof.
  unfold stored_triangle_list, range.
  apply length_flat_map_chunks. intros i.
  apply length_flat_map_chunks. intros j. reflexivity.
Qed.

(** ** [build] in closed form *)

Lemma effective_Nr_min p : 2 <= effective_Nr p.
Proof. unfold effective_Nr. lia. Qed.

Lemma effective_Nu_min p : 3 <= effective_Nu p.
Proof. unfold effective_Nu. lia. Qed.

(** [build] returns the closed form when the engine grants its arrays, and
    throws otherwise. *)
Lemma build_closed_form alloc p this :
  build alloc p this
  = if allocations_granted alloc (effective_Nr p) (effective_Nu p)
    then Return (built_mesh p this) else RangeError.
Proof.
  pose proof (effective_Nr_min p) as HNr.
  pose proof (effective_Nu_min p) as HNu.
  unfold build, allocations_granted, built_mesh, built_indices.
  fold (effective_Nr p). fold (effective_Nu p). cbv zeta.
  set (Nr := effective_Nr p) in *. set (Nu := effective_Nu p) in *.
  unfold new_Float32Array, new_Uint32Array, new_Uint16Array.
  destruct (alloc Float32 (Nr * Nu * 3)); cbn [bind andb]; [|reflexivity].
  destruct (alloc Float32 (Nr * Nu * 2)); cbn [bind andb]; [|reflexivity].
  rewrite fill_vertices_table by lia. cbn [st_pos st_uv].
  destruct (Nr * Nu >? 65535).
  - destruct (alloc Uint32 _); cbn [bind]; [|reflexivity].
    rewrite fill_indices_table by (cbn [elements]; auto; lia).
    reflexivity.
  - destruct (alloc Uint16 _); cbn [bind]; [|reflexivity].
    rewrite fill_indices_table by (cbn [elements]; auto; lia).
    reflexivity.
Qed.

(** ** The accumulation loop *)

Lemma length_add_at k v arr : length (add_at k v arr) = length arr.
Proof. apply length_store. Qed.


Lemma length_accumulate_step pos idx nrm ii :
  length (accumulate_step pos idx nrm ii) = length nrm.
Proof. unfold accumulate_step. now rewrite !length_add_at. Qed.


Lemma length_accumulate_normals pos idx nrm :
  length (accumulate_normals pos idx nrm) = length nrm.
Proof.
  unfold accumulate_normals.
  generalize (triangle_starts (length idx)) as starts. intros starts.
  revert nrm. induction starts as [|ii starts IH]; intros nrm; simpl.
  - reflexivity.
  - now rewrite IH, length_accumulate_step.
Qed.


(** ** The normalisation loop *)

Lemma length_normalize_step nrm v : length (normalize_step nrm v) = length nrm.
Proof.
  unfold normalize_step. cbv zeta.
  destruct (Rlt_dec _ _); now rewrite !length_store.
Qed.



Lemma length_normalize_fold vs : forall nrm,
  length (fold_left normalize_step vs nrm) = length nrm.
Proof.
  induction vs as [|v vs IH]; intros nrm; simpl; [reflexivity|].
  now rewrite IH, length_normalize_step.
Qed.



(** ** Unit vectors *)




(** ** Resolution inputs *)

Lemma truncate_inject_Z k : truncate (inject_Z k) = k.
Proof. unfold truncate, inject_Z. simpl. apply Z.quot_1_r. Qed.

Lemma ToInt32_range x : - 2 ^ 31 <= ToInt32 x < 2 ^ 31.
Proof.
  destruct x as [| |q]; simpl; try lia.
  pose proof (Z.mod_pos_bound (truncate q) (2 ^ 32) ltac:(lia)) as Hmod.
  change (Z.pow_pos 2 32) with (2 ^ 32). change (Z.pow_pos 2 31) with (2 ^ 31).
  destruct (Z.geb_spec (truncate q mod 2 ^ 32) (2 ^ 31)); lia.
Qed.

(** [ToInt32] is congruent to the truncated value modulo 2^32. *)
Lemma ToInt32_congruent q :
  ToInt32 (Finite q) mod 2 ^ 32 = truncate q mod 2 ^ 32.
Proof.
  simpl. change (Z.pow_pos 2 32) with (2 ^ 32). change (Z.pow_pos 2 31) with (2 ^ 31).
  destruct (Z.geb_spec (truncate q mod 2 ^ 32) (2 ^ 31)).
  - rewrite <- (Z.mod_add _ 1 (2 ^ 32)) by lia.
    replace (truncate q mod 2 ^ 32 - 2 ^ 32 + 1 * 2 ^ 32)
      with (truncate q mod 2 ^ 32) by lia.
    apply Z.mod_mod. lia.
  - apply Z.mod_mod. lia.
Qed.

(** Within the signed 32-bit range [ToInt32] only truncates. *)
Lemma ToInt32_in_range q :
  - 2 ^ 31 <= truncate q < 2 ^ 31 -> ToInt32 (Finite q) = truncate q.
Proof.
  intros Hq. simpl.
  change (Z.pow_pos 2 32) with (2 ^ 32). change (Z.pow_pos 2 31) with (2 ^ 31).
  destruct (Z.le_gt_cases 0 (truncate q)) as [Hpos|Hneg].
  - rewrite Z.mod_small by lia.
    destruct (Z.geb_spec (truncate q) (2 ^ 31)); lia.
  - rewrite <- (Z.mod_add _ 1 (2 ^ 32)) by lia.
    rewrite Z.mod_small by lia.
    destruct (Z.geb_spec (truncate q + 1 * 2 ^ 32) (2 ^ 31)); lia.
Qed.

Lemma ToInt32_of_int k : - 2 ^ 31 <= k < 2 ^ 31 -> ToInt32 (of_int k) = k.
Proof.
  intros Hk. unfold of_int. rewrite ToInt32_in_range; rewrite truncate_inject_Z; auto.
Qed.

(** Truncation rounds toward zero. *)
Lemma truncate_toward_zero q :
  ((0 <= q -> inject_Z (truncate q) <= q < inject_Z (truncate q + 1))
   /\ (q <= 0 -> inject_Z (truncate q - 1) < q <= inject_Z (truncate q)))%Q.
Proof.
  destruct q as [num den]. unfold truncate, Qle, Qlt, inject_Z. simpl.
  pose proof (Z.quot_rem' num (Zpos den)) as Hqr.
  split; intros Hsign; rewrite Z.mul_1_r in Hsign.
  - pose proof (Z.rem_bound_pos num (Zpos den) Hsign ltac:(lia)). nia.
  - pose proof (Z.rem_bound_pos_neg num (Zpos den) ltac:(lia) Hsign). nia.
Qed.

(** [build] reads the resolution only through its effective values. *)
Lemma build_effective_resolution alloc p p' this :
  Params.a p = Params.a p' -> Params.n p = Params.n p' ->
  Params.m p = Params.m p' -> Params.b p = Params.b p' ->
  Params.phi p = Params.phi p' ->
  effective_Nr p = effective_Nr p' -> effective_Nu p = effective_Nu p' ->
  build alloc p this = build alloc p' this.
Proof.
  intros Ha Hn Hm Hb Hphi HNr HNu.
  rewrite !build_closed_form, <- HNr, <- HNu.
  destruct (allocations_granted _ _ _); [|reflexivity].
  f_equal. unfold built_mesh. rewrite <- HNr, <- HNu.
  destruct p, p'; simpl in Ha, Hn, Hm, Hb, Hphi; subst.
  reflexivity.
Qed.

Lemma effective_Nr_set_Nr x p : effective_Nr (set_Nr x p) = Z.max 2 (ToInt32 x).
Proof. reflexivity. Qed.

Lemma effective_Nu_set_Nu x p : effective_Nu (set_Nu x p) = Z.max 3 (ToInt32 x).
Proof. reflexivity. Qed.

Lemma effective_Nr_idempotent p :
  Z.max 2 (ToInt32 (of_int (effective_Nr p))) = effective_Nr p.
Proof.
  pose proof (ToInt32_range (Params.Nr p)).
  rewrite ToInt32_of_int; unfold effective_Nr; lia.
Qed.

Lemma effective_Nu_idempotent p :
  Z.max 3 (ToInt32 (of_int (effective_Nu p))) = effective_Nu p.
Proof.
  pose proof (ToInt32_range (Params.Nu p)).
  rewrite ToInt32_of_int; unfold effective_Nu; lia.
Qed.

(** The sizes of the buffers of the closed form. *)
Lemma built_mesh_lengths p this :
  let Nr := effective_Nr p in
  let Nu := effective_Nu p in
  Z.of_nat (length (positions (built_mesh p this))) = 3 * Nr * Nu
  /\ Z.of_nat (length (normals (built_mesh p this))) = 3 * Nr * Nu
  /\ Z.of_nat (length (texcoords (built_mesh p this))) = 2 * Nr * Nu
  /\ Z.of_nat (length (elements (built_indices Nr Nu))) = 6 * (Nr - 1) * (Nu - 1).
Proof.
  pose proof (effective_Nr_min p) as HNr.
  pose proof (effective_Nu_min p) as HNu.
  cbv zeta. unfold built_mesh. cbn [positions normals texcoords].
  unfold normalize_normals.
  rewrite length_normalize_fold, length_accumulate_normals, repeat_length.
  rewrite length_loop_positions, length_loop_texcoords.
  repeat split; try nia.
  unfold built_indices.
  destruct (_ >? _); cbn [elements]; rewrite length_stored_triangle_list; nia.
Qed.

(** ** Buffer sizes *)

(** C1.  Whenever the engine grants the arrays that [build] asks for, [build]
    returns, and for the effective resolution (Nr, Nu) the buffers it leaves
    in the object have 3*Nr*Nu positions, 2*Nr*Nu texture coordinates and
    6*(Nr-1)*(Nu-1) indices, [indexCount] being the length of the index
    buffer. *)
Theorem build_buffer_lengths alloc p this :
  let Nr := effective_Nr p in
  let Nu := effective_Nu p in
  allocations_granted alloc Nr Nu = true ->
  exists mesh idx,
    build alloc p this = Return mesh
    /\ indices mesh = Some idx
    /\ Z.of_nat (length (positions mesh)) = 3 * Nr * Nu
    /\ Z.of_nat (length (texcoords mesh)) = 2 * Nr * Nu
    /\ Z.of_nat (length (elements idx)) = 6 * (Nr - 1) * (Nu - 1)
    /\ indexCount mesh = Z.of_nat (length (elements idx)).
Proof.
  intros Nr Nu Hgranted.
  exists (built_mesh p this), (built_indices Nr Nu).
  rewrite build_closed_form. fold Nr Nu. rewrite Hgranted.
  destruct (built_mesh_lengths p this) as (Hpos & _ & Huv & Hidx).
  repeat split; assumption.
Qed.

(** The scenario of the specification: 8 vertices (24 coordinates, 16
    texture coordinates) and 18 indices. *)
Lemma build_buffer_lengths_scenario :
  exists mesh idx,
    build es_alloc scenario new_Model = Return mesh
    /\ indices mesh = Some idx
    /\ Z.of_nat (length (positions mesh)) = 3 * 2 * 4
    /\ Z.of_nat (length (texcoords mesh)) = 2 * 2 * 4
    /\ Z.of_nat (length (elements idx)) = 6 * (2 - 1) * (4 - 1)
    /\ indexCount mesh = Z.of_nat (length (elements idx)).
Proof.
  exact (build_buffer_lengths es_alloc scenario new_Model eq_refl).
Defined.

(** ** Clamping of the resolution *)

(** C9.  For every input the effective resolution satisfies Nr >= 2 and
    Nu >= 3; [build] treats the input exactly as it treats the clamped
    resolution, so the only way it fails is a refused allocation of a buffer
    sized by the clamped values; and every mesh it produces has the sizes of
    a grid with Nr >= 2 and Nu >= 3. *)
Theorem build_clamps_resolution alloc p this :
  let Nr := effective_Nr p in
  let Nu := effective_Nu p in
  2 <= Nr /\ 3 <= Nu
  /\ build alloc p this
     = build alloc (set_Nr (of_int Nr) (set_Nu (of_int Nu) p)) this
  /\ (build alloc p this = RangeError <-> allocations_granted alloc Nr Nu = false)
  /\ (forall mesh, build alloc p this = Return mesh ->
        Z.of_nat (length (positions mesh)) = 3 * Nr * Nu
        /\ Z.of_nat (length (normals mesh)) = 3 * Nr * Nu
        /\ Z.of_nat (length (texcoords mesh)) = 2 * Nr * Nu).
Proof.
  intros Nr Nu.
  split; [apply effective_Nr_min|]. split; [apply effective_Nu_min|].
  split; [|split].
  - apply build_effective_resolution; try reflexivity.
    + symmetry. apply effective_Nr_idempotent.
    + symmetry. apply effective_Nu_idempotent.
  - rewrite build_closed_form. fold Nr Nu.
    destruct (allocations_granted alloc Nr Nu); split; congruence.
  - intros mesh. rewrite build_closed_form. fold Nr Nu.
    destruct (allocations_granted alloc Nr Nu); [|discriminate].
    intros [= <-].
    destruct (built_mesh_lengths p this) as (Hpos & Hnrm & Huv & _).
    repeat split; assumption.
Qed.

(** A resolution below the minimum, [Nr = 0] and [Nu = NaN], builds the
    grid of 2 rings and 3 columns. *)
Lemma invalid_resolution_builds :
  exists mesh,
    build es_alloc (set_Nr (of_int 0) (set_Nu NaN scenario)) new_Model
    = Return mesh
    /\ Z.of_nat (length (positions mesh)) = 3 * 2 * 3
    /\ Z.of_nat (length (texcoords mesh)) = 2 * 2 * 3.
Proof.
  exists (built_mesh (set_Nr (of_int 0) (set_Nu NaN scenario)) new_Model).
  split.
  - rewrite build_closed_form. reflexivity.
  - destruct (built_mesh_lengths (set_Nr (of_int 0) (set_Nu NaN scenario))
                new_Model) as (Hpos & _ & Huv & _).
    split; assumption.
Qed.

(** ** Conversion of the resolution by [| 0] *)

Lemma truncate_negative_in_range q :
  (inject_Z (- 2 ^ 31 - 1) < q)%Q -> (q < 0)%Q -> - 2 ^ 31 <= truncate q <= 0.
Proof.
  intros Hlow Hneg.
  destruct (truncate_toward_zero q) as [_ Hq].
  specialize (Hq (Qlt_le_weak _ _ Hneg)). destruct Hq as [Hq1 Hq2].
  pose proof (Qlt_le_trans _ _ _ Hlow Hq2) as H1.
  pose proof (Qlt_trans _ _ _ Hq1 Hneg) as H2.
  rewrite <- Zlt_Qlt in H1. change 0%Q with (inject_Z 0) in H2.
  rewrite <- Zlt_Qlt in H2. lia.
Qed.

Lemma effective_Nr_negative q :
  (inject_Z (- 2 ^ 31 - 1) < q)%Q -> (q < 0)%Q ->
  Z.max 2 (ToInt32 (Finite q)) = 2.
Proof.
  intros Hlow Hneg.
  pose proof (truncate_negative_in_range q Hlow Hneg).
  rewrite ToInt32_in_range; lia.
Qed.

Lemma build_set_Nr alloc x y p this :
  Z.max 2 (ToInt32 x) = Z.max 2 (ToInt32 y) ->
  build alloc (set_Nr x p) this = build alloc (set_Nr y p) this.
Proof.
  intros Heq. apply build_effective_resolution; try reflexivity.
  now rewrite !effective_Nr_set_Nr.
Qed.

Lemma build_set_Nu alloc x y p this :
  Z.max 3 (ToInt32 x) = Z.max 3 (ToInt32 y) ->
  build alloc (set_Nu x p) this = build alloc (set_Nu y p) this.
Proof.
  intros Heq. apply build_effective_resolution; try reflexivity.
  now rewrite !effective_Nu_set_Nu.
Qed.

(** C10, as stated, fails: a negative [Nr] of magnitude above 2^31 wraps to
    a positive integer.  [Nr = -4294967196] builds with [Nr = 100], not 2. *)
Lemma negative_Nr_wraps :
  (inject_Z (-4294967196) < 0)%Q
  /\ effective_Nr (set_Nr (of_int (-4294967196)) scenario) = 100
  /\ exists mesh,
       build es_alloc (set_Nr (of_int (-4294967196)) scenario) new_Model
       = Return mesh
       /\ Z.of_nat (length (positions mesh)) = 3 * 100 * 4.
Proof.
  split; [reflexivity|]. split; [reflexivity|].
  exists (built_mesh (set_Nr (of_int (-4294967196)) scenario) new_Model).
  split.
  - rewrite build_closed_form. reflexivity.
  - destruct (built_mesh_lengths (set_Nr (of_int (-4294967196)) scenario)
                new_Model) as (Hpos & _).
    exact Hpos.
Qed.

(** C10, amended.  [build] accepts any Number for [Nr] and [Nu]: each is
    converted by [ToInt32], which maps NaN and the infinities to 0, truncates
    a fraction toward zero, and brings the truncated value into the signed
    32-bit range modulo 2^32 (leaving it unchanged when it is in that range
    already); the result is then clamped to the minimum.  So [Nr = 2.9]
    builds as [Nr = 2] does, and so do [Nr = NaN] and every negative [Nr]
    above -2^31 - 1. *)
Theorem resolution_conversion alloc p this :
  (forall x, effective_Nr (set_Nr x p) = Z.max 2 (ToInt32 x))
  /\ (forall x, effective_Nu (set_Nu x p) = Z.max 3 (ToInt32 x))
  /\ ToInt32 NaN = 0
  /\ (forall negative, ToInt32 (Infinity negative) = 0)
  /\ (forall q,
        ((0 <= q -> inject_Z (truncate q) <= q < inject_Z (truncate q + 1))
         /\ (q <= 0 -> inject_Z (truncate q - 1) < q <= inject_Z (truncate q)))%Q)
  /\ (forall q,
        ToInt32 (Finite q) mod 2 ^ 32 = truncate q mod 2 ^ 32
        /\ - 2 ^ 31 <= ToInt32 (Finite q) < 2 ^ 31
        /\ (- 2 ^ 31 <= truncate q < 2 ^ 31 -> ToInt32 (Finite q) = truncate q))
  /\ build alloc (set_Nr (Finite 2.9) p) this
     = build alloc (set_Nr (of_int 2) p) this
  /\ build alloc (set_Nr NaN p) this = build alloc (set_Nr (of_int 2) p) this
  /\ build alloc (set_Nu NaN p) this = build alloc (set_Nu (of_int 3) p) this
  /\ (forall q, (inject_Z (- 2 ^ 31 - 1) < q)%Q -> (q < 0)%Q ->
        build alloc (set_Nr (Finite q) p) this
        = build alloc (set_Nr (of_int 2) p) this).
Proof.
  split; [reflexivity|]. split; [reflexivity|].
  split; [reflexivity|]. split; [reflexivity|].
  split; [exact truncate_toward_zero|].
  split; [|split; [|split; [|split]]].
  - intros q. split; [apply ToInt32_congruent|].
    split; [apply (ToInt32_range (Finite q))|apply ToInt32_in_range].
  - now apply build_set_Nr.
  - now apply build_set_Nr.
  - now apply build_set_Nu.
  - intros q Hlow Hneg. apply build_set_Nr.
    now rewrite effective_Nr_negative.
Qed.

(** ** The triangle list *)

Lemma map_flat_map_chunks {A B C : Type} (f : B -> C) (g : A -> list B) (l : list A) :
  map f (flat_map g l) = flat_map (fun x => map f (g x)) l.
Proof.
  induction l as [|x l IH]; simpl; [reflexivity|].
  now rewrite map_app, IH.
Qed.

Lemma flat_map_pointwise {A B : Type} (g g' : A -> list B) (l : list A) :
  (forall x, In x l -> g x = g' x) -> flat_map g l = flat_map g' l.
Proof.
  induction l as [|x l IH]; intros Hext; simpl; [reflexivity|].
  rewrite Hext by (now left). f_equal. apply IH. intros y Hy. apply Hext. now right.
Qed.

(** The index buffer holds the triangle list, element by element, modulo
    the element width. *)
Lemma stored_triangle_list_map M Nr Nu :
  stored_triangle_list M Nr Nu = map (fun v => v mod M) (triangle_list Nr Nu).
Proof.
  unfold stored_triangle_list, triangle_list.
  rewrite map_flat_map_chunks. apply flat_map_pointwise. intros i _.
  now rewrite map_flat_map_chunks.
Qed.

(** Every corner of every quad is a vertex of the grid. *)
Lemma In_triangle_list Nr Nu v :
  1 <= Nr -> 1 <= Nu -> In v (triangle_list Nr Nu) -> 0 <= v < Nr * Nu.
Proof.
  intros HNr HNu. unfold triangle_list, range.
  rewrite in_flat_map. intros (i & Hi & Hv).
  rewrite in_flat_map in Hv. destruct Hv as (j & Hj & Hv).
  rewrite in_seq in Hi, Hj.
  unfold quad_triangles in Hv. cbv zeta in Hv. cbn [In] in Hv.
  assert (Z.of_nat i + 1 <= Nr - 1) by lia.
  assert (Z.of_nat j + 1 <= Nu - 1) by lia.
  destruct Hv as [<-|[<-|[<-|[<-|[<-|[<-|[]]]]]]]; nia.
Qed.

(** No element changes when it is stored, unless the grid has more than
    2^32 vertices. *)
Lemma built_indices_exact Nr Nu :
  1 <= Nr -> 1 <= Nu -> Nr * Nu <= 2 ^ 32 ->
  elements (built_indices Nr Nu) = triangle_list Nr Nu.
Proof.
  intros HNr HNu Hsmall. unfold built_indices.
  destruct (Z.gtb_spec (Nr * Nu) 65535) as [Hwide|Hnarrow]; cbn [elements];
    rewrite stored_triangle_list_map;
    rewrite <- (map_id (triangle_list Nr Nu)) at 2;
    apply map_ext_in; intros v Hv;
    apply In_triangle_list in Hv; try assumption;
    apply Z.mod_small; lia.
Qed.

Lemma built_indices_stored Nr Nu :
  elements (built_indices Nr Nu)
  = map (fun v => v mod modulus (built_indices Nr Nu)) (triangle_list Nr Nu).
Proof.
  unfold built_indices.
  destruct (_ >? _); cbn [elements modulus]; apply stored_triangle_list_map.
Qed.

(** Every stored element is a vertex of the grid. *)
Lemma built_indices_in_range Nr Nu v :
  1 <= Nr -> 1 <= Nu ->
  In v (elements (built_indices Nr Nu)) -> 0 <= v < Nr * Nu.
Proof.
  intros HNr HNu Hin.
  destruct (Z.le_gt_cases (Nr * Nu) (2 ^ 32)) as [Hsmall|Hlarge].
  - rewrite built_indices_exact in Hin by assumption.
    now apply In_triangle_list.
  - rewrite built_indices_stored in Hin. apply in_map_iff in Hin.
    destruct Hin as (w & <- & _).
    unfold built_indices.
    destruct (Z.gtb_spec (Nr * Nu) 65535) as [Hwide|Hnarrow]; [|lia].
    cbn [modulus].
    pose proof (Z.mod_pos_bound w (2 ^ 32) ltac:(lia)). lia.
Qed.

(** What [build] returns is the closed form. *)
Lemma build_Return alloc p this mesh :
  build alloc p this = Return mesh -> mesh = built_mesh p this.
Proof.
  rewrite build_closed_form.
  destruct (allocations_granted _ _ _); [|discriminate]. now intros [= <-].
Qed.

Lemma triangle_starts_in_bounds n ii :
  (n mod 3 = 0)%nat -> In ii (triangle_starts n) -> (ii + 2 < n)%nat.
Proof.
  intros Hn. unfold triangle_starts. rewrite in_map_iff.
  intros (k & <- & Hk). rewrite in_seq in Hk.
  pose proof (Nat.div_mod_eq n 3) as Hdiv.
  assert ((n + 2) / 3 = n / 3)%nat as Hq.
  { symmetry. apply (Nat.div_unique (n + 2) 3 (n / 3) 2); lia. }
  lia.
Qed.

(** C3, as stated, fails beyond 2^32 vertices: on an engine that grants the
    arrays, the grid of 2147483647 by 3 has a quad corner with vertex id
    4294967296 = 2^32 (ring 1431655765, column 1), which the 32-bit index
    buffer cannot hold. *)
Lemma huge_grid_indices_wrap :
  exists mesh idx,
    build es_alloc huge new_Model = Return mesh
    /\ indices mesh = Some idx
    /\ In 4294967296 (triangle_list (effective_Nr huge) (effective_Nu huge))
    /\ ~ In 4294967296 (elements idx).
Proof.
  exists (built_mesh huge new_Model).
  exists (built_indices (effective_Nr huge) (effective_Nu huge)).
  split; [rewrite build_closed_form; reflexivity|].
  split; [reflexivity|].
  change (effective_Nr huge) with 2147483647.
  change (effective_Nu huge) with 3.
  split.
  - unfold triangle_list, range. apply in_flat_map.
    exists (Z.to_nat 1431655765). split; [apply in_seq; lia|].
    apply in_flat_map. exists (Z.to_nat 1). split; [apply in_seq; lia|].
    unfold quad_triangles. left. lia.
  - intros Hin. rewrite built_indices_stored in Hin.
    apply in_map_iff in Hin. destruct Hin as (w & Hw & _).
    assert (modulus (built_indices 2147483647 3) = 2 ^ 32) as HM by reflexivity.
    rewrite HM in Hw.
    pose proof (Z.mod_pos_bound w (2 ^ 32) ltac:(lia)). lia.
Qed.

(** C3, amended.  The index buffer is, in this order, the concatenation over
    i in [0, Nr-2] and j in [0, Nu-2] of the triangles (a, b, c) and
    (b, d, c) with a = i*Nu+j, b = (i+1)*Nu+j, c = i*Nu+(j+1),
    d = (i+1)*Nu+(j+1), each element stored modulo the element width; the
    elements are these vertex ids themselves whenever the grid has at most
    2^32 vertices. *)
Theorem index_buffer_is_triangle_list alloc p this mesh idx :
  let Nr := effective_Nr p in
  let Nu := effective_Nu p in
  build alloc p this = Return mesh ->
  indices mesh = Some idx ->
  elements idx = map (fun v => v mod modulus idx) (triangle_list Nr Nu)
  /\ (Nr * Nu <= 2 ^ 32 -> elements idx = triangle_list Nr Nu)
  /\ triangle_list Nr Nu
     = flat_map
         (fun i =>
            flat_map
              (fun j =>
                 let a := Z.of_nat i * Nu + Z.of_nat j in
                 let b := (Z.of_nat i + 1) * Nu + Z.of_nat j in
                 let c := Z.of_nat i * Nu + (Z.of_nat j + 1) in
                 let d := (Z.of_nat i + 1) * Nu + (Z.of_nat j + 1) in
                 [a; b; c; b; d; c])
              (seq 0 (Z.to_nat (Nu - 1))))
         (seq 0 (Z.to_nat (Nr - 1))).
Proof.
  intros Nr Nu Hbuild Hidx.
  apply build_Return in Hbuild. subst mesh.
  cbn [built_mesh indices] in Hidx. injection Hidx as <-.
  pose proof (effective_Nr_min p). pose proof (effective_Nu_min p).
  split; [apply built_indices_stored|].
  split; [|reflexivity].
  intros Hsmall. apply built_indices_exact; fold Nr Nu; lia.
Qed.

(** The scenario of the specification: 3 quads, 6 triangles, 18 indices. *)
Lemma index_buffer_scenario :
  build es_alloc scenario new_Model = Return (built_mesh scenario new_Model)
  /\ elements (built_indices 2 4)
     = [0; 4; 1; 4; 5; 1; 1; 5; 2; 5; 6; 2; 2; 6; 3; 6; 7; 3].
Proof.
  split; [rewrite build_closed_form; reflexivity|].
  destruct (index_buffer_is_triangle_list es_alloc scenario new_Model
              (built_mesh scenario new_Model) (built_indices 2 4))
    as (_ & Hexact & _).
  - rewrite build_closed_form. reflexivity.
  - reflexivity.
  - rewrite Hexact by (vm_compute; discriminate). reflexivity.
Defined.

(** ** Index range *)

(** C4.  Every element of the index buffer is a vertex id, at least 0 and
    below Nr*Nu; and each read of the position buffer in the accumulation
    loop, at [i*3 + c] for an element [i] of a triangle of the buffer, is
    within the bounds of the position buffer. *)
Theorem indices_in_range alloc p this mesh idx :
  let Nr := effective_Nr p in
  let Nu := effective_Nu p in
  build alloc p this = Return mesh ->
  indices mesh = Some idx ->
  (forall k, (k < length (elements idx))%nat ->
     0 <= nth k (elements idx) 0 < Nr * Nu)
  /\ (forall ii o c,
        In ii (triangle_starts (length (elements idx))) ->
        (o < 3)%nat -> (c < 3)%nat ->
        (ii + o < length (elements idx))%nat
        /\ (Z.to_nat (nth (ii + o) (elements idx) 0%Z) * 3 + c
            < length (positions mesh))%nat).
Proof.
  intros Nr Nu Hbuild Hidx.
  apply build_Return in Hbuild. subst mesh.
  cbn [built_mesh indices] in Hidx. injection Hidx as <-.
  pose proof (effective_Nr_min p) as HNr.
  pose proof (effective_Nu_min p) as HNu.
  fold Nr Nu in HNr, HNu |- *.
  assert (Hrange : forall k, (k < length (elements (built_indices Nr Nu)))%nat ->
            0 <= nth k (elements (built_indices Nr Nu)) 0 < Nr * Nu).
  { intros k Hk. apply built_indices_in_range; try lia. now apply nth_In. }
  split; [exact Hrange|].
  intros ii o c Hii Ho Hc.
  destruct (built_mesh_lengths p this) as (Hpos & _ & _ & Hlen).
  fold Nr Nu in Hpos, Hlen.
  assert (ii + 2 < length (elements (built_indices Nr Nu)))%nat as Hin.
  { apply triangle_starts_in_bounds; [|assumption].
    apply Nat.Lcm0.mod_divide.
    exists (2 * (Z.to_nat (Nr - 1) * Z.to_nat (Nu - 1)))%nat. nia. }
  split; [lia|].
  specialize (Hrange (ii + o)%nat ltac:(lia)).
  nia.
Qed.

Lemma indices_in_range_scenario :
  (forall k, (k < 18)%nat -> 0 <= nth k (elements (built_indices 2 4)) 0 < 2 * 4)
  /\ (forall ii o c,
        In ii (triangle_starts 18) -> (o < 3)%nat -> (c < 3)%nat ->
        (ii + o < 18)%nat
        /\ (Z.to_nat (nth (ii + o) (elements (built_indices 2 4)) 0%Z) * 3 + c
            < length (positions (built_mesh scenario new_Model)))%nat).
Proof.
  apply (indices_in_range es_alloc scenario new_Model
           (built_mesh scenario new_Model) (built_indices 2 4)).
  - rewrite build_closed_form. reflexivity.
  - reflexivity.
Defined.

(** ** Index width *)

Lemma instanceof_built_indices Nr Nu :
  instanceof_Uint32Array (Some (built_indices Nr Nu)) = (Nr * Nu >? 65535).
Proof. unfold built_indices. now destruct (_ >? _). Qed.

(** C8.  The index buffer is a [Uint32Array] if and only if the vertex count
    Nr*Nu exceeds 65535, and a [Uint16Array] otherwise; [upload] then
    resolves the index type to UNSIGNED_INT in the first case, where it warns
    when the context lacks the extension, and to UNSIGNED_SHORT in the
    second, where it never warns. *)
Theorem index_width_selection alloc p this mesh gl :
  let vertCount := effective_Nr p * effective_Nu p in
  build alloc p this = Return mesh ->
  (instanceof_Uint32Array (indices mesh) = true <-> vertCount > 65535)
  /\ ((exists data, indices mesh = Some (Uint16Array data)) <-> vertCount <= 65535)
  /\ (indexType (fst (upload gl mesh)) = Some UNSIGNED_INT <-> vertCount > 65535)
  /\ (indexType (fst (upload gl mesh)) = Some UNSIGNED_SHORT <-> vertCount <= 65535)
  /\ (snd (upload gl mesh) = [warning]
      <-> vertCount > 65535 /\ OES_element_index_uint gl = false)
  /\ (vertCount <= 65535 -> snd (upload gl mesh) = []).
Proof.
  intros vertCount Hbuild.
  apply build_Return in Hbuild. subst mesh.
  unfold upload. cbn [built_mesh indices].
  rewrite instanceof_built_indices. fold vertCount.
  unfold built_indices. fold vertCount.
  destruct (Z.gtb_spec vertCount 65535) as [Hwide|Hnarrow];
    cbn [fst snd indexType].
  - repeat split; intros; try lia; try discriminate; try reflexivity.
    + destruct H as (data & Hdata). discriminate.
    + destruct (OES_element_index_uint gl); [discriminate H|reflexivity].
    + destruct H as [_ ->]. reflexivity.
  - repeat split; intros; try lia; try discriminate; try reflexivity.
    eexists. reflexivity.
Qed.

(** 65536 vertices select the wide type, with a warning on a context that
    lacks the extension. *)
Lemma index_width_65536 :
  build es_alloc grid_65536 new_Model = Return (built_mesh grid_65536 new_Model)
  /\ instanceof_Uint32Array (indices (built_mesh grid_65536 new_Model)) = true
  /\ indexType (fst (upload {| OES_element_index_uint := false |}
                            (built_mesh grid_65536 new_Model)))
     = Some UNSIGNED_INT
  /\ snd (upload {| OES_element_index_uint := false |}
                 (built_mesh grid_65536 new_Model)) = [warning].
Proof.
  assert (Hbuild : build es_alloc grid_65536 new_Model
                   = Return (built_mesh grid_65536 new_Model))
    by (rewrite build_closed_form; reflexivity).
  split; [exact Hbuild|].
  destruct (index_width_selection es_alloc grid_65536 new_Model _
              {| OES_element_index_uint := false |} Hbuild)
    as (Hwide & _ & Hint & _ & Hwarn & _).
  split; [apply Hwide; reflexivity|].
  split; [apply Hint; reflexivity|].
  apply Hwarn. split; reflexivity.
Defined.

(** 65535 vertices select the narrow type, without a warning. *)
Lemma index_width_65535 :
  build es_alloc grid_65535 new_Model = Return (built_mesh grid_65535 new_Model)
  /\ (exists data,
        indices (built_mesh grid_65535 new_Model) = Some (Uint16Array data))
  /\ indexType (fst (upload {| OES_element_index_uint := false |}
                            (built_mesh grid_65535 new_Model)))
     = Some UNSIGNED_SHORT
  /\ snd (upload {| OES_element_index_uint := false |}
                 (built_mesh grid_65535 new_Model)) = [].
Proof.
  split; [rewrite build_closed_form; reflexivity|].
  split; [|split].
  - eexists. unfold built_mesh, built_indices. cbn [indices].
    change (effective_Nr grid_65535 * effective_Nu grid_65535 >? 65535) with false.
    cbv iota. reflexivity.
  - unfold upload. cbn [built_mesh indices].
    rewrite instanceof_built_indices. reflexivity.
  - unfold upload. cbn [built_mesh indices].
    rewrite instanceof_built_indices. reflexivity.
Qed.

(** ** Vertex positions *)











(** ** Texture coordinates *)





(** ** Normals *)





(** ** The seam *)











(** * Further properties of the surface and of the grid *)

(** ** The surface of revolution *)



(** Every vertex of the grid is vertex (i, j) of a ring and a column. *)
Lemma vertex_index_div_mod (Nu : Z) (v : nat) :
  0 < Nu ->
  vertex_index Nu (v / Z.to_nat Nu) (v mod Z.to_nat Nu) = v.
Proof.
  intros HNu. unfold vertex_index.
  pose proof (Nat.div_mod_eq v (Z.to_nat Nu)). lia.
Qed.




(** ** The triangles of the grid *)

(** The triangle that starts at [ii] is one half of one quad. *)
Lemma triangle_start_decompose (rows cols ii : nat) :
  In ii (triangle_starts (rows * (cols * 6))) ->
  exists i j h,
    (i < rows)%nat /\ (j < cols)%nat /\ (h < 2)%nat
    /\ ii = ((i * cols + j) * 6 + 3 * h)%nat.
Proof.
  unfold triangle_starts. rewrite in_map_iff.
  intros (k & <- & Hk). rewrite in_seq in Hk.
  assert ((rows * (cols * 6) + 2) / 3 = 2 * (rows * cols))%nat as Hcount.
  { symmetry. apply (Nat.div_unique _ 3 _ 2); lia. }
  rewrite Hcount in Hk.
  destruct (Nat.eq_dec cols 0) as [->|Hcols]; [lia|].
  pose proof (Nat.div_mod_eq k 2) as Hk2.
  pose proof (Nat.mod_upper_bound k 2 ltac:(lia)) as Hh.
  pose proof (Nat.div_mod_eq (k / 2) cols) as Hq.
  pose proof (Nat.mod_upper_bound (k / 2) cols Hcols) as Hj.
  exists ((k / 2) / cols)%nat, ((k / 2) mod cols)%nat, (k mod 2)%nat.
  set (q := (k / 2)%nat) in *. set (h := (k mod 2)%nat) in *.
  set (i := (q / cols)%nat) in *. set (j := (q mod cols)%nat) in *.
  repeat split; try lia.
  assert (q < rows * cols)%nat by lia.
  nia.
Qed.

Lemma nth_built_indices (Nr Nu : Z) (i j c : nat) :
  (i < Z.to_nat (Nr - 1))%nat -> (j < Z.to_nat (Nu - 1))%nat -> (c < 6)%nat ->
  nth ((i * Z.to_nat (Nu - 1) + j) * 6 + c) (elements (built_indices Nr Nu)) 0
  = nth c (quad_triangles Nu i j) 0 mod modulus (built_indices Nr Nu).
Proof.
  intros Hi Hj Hc.
  assert (Hstored : forall M,
            nth ((i * Z.to_nat (Nu - 1) + j) * 6 + c)
                (stored_triangle_list M Nr Nu) 0
            = nth c (quad_triangles Nu i j) 0 mod M).
  { intros M. unfold stored_triangle_list, range.
    replace ((i * Z.to_nat (Nu - 1) + j) * 6 + c)%nat
      with (i * (Z.to_nat (Nu - 1) * 6) + (j * 6 + c))%nat by lia.
    rewrite nth_flat_map_chunks; try lia.
    - rewrite nth_flat_map_chunks by (auto; lia).
      unfold stored_quad. cbn [Nat.add].
      change 0 with ((fun v => v mod M) 0) at 1.
      apply map_nth.
    - intros k. apply length_flat_map_chunks. reflexivity. }
  unfold built_indices. destruct (_ >? _); cbn [elements modulus]; apply Hstored.
Qed.

Lemma length_built_indices (Nr Nu : Z) :
  length (elements (built_indices Nr Nu))
  = (Z.to_nat (Nr - 1) * (Z.to_nat (Nu - 1) * 6))%nat.
Proof.
  unfold built_indices.
  destruct (_ >? _); cbn [elements]; apply length_stored_triangle_list.
Qed.

(** The width of the index buffer exceeds the number of columns. *)
Lemma columns_below_modulus p :
  effective_Nu p < modulus (built_indices (effective_Nr p) (effective_Nu p)).
Proof.
  pose proof (effective_Nr_min p). pose proof (effective_Nu_min p).
  pose proof (ToInt32_range (Params.Nu p)).
  unfold built_indices.
  destruct (Z.gtb_spec (effective_Nr p * effective_Nu p) 65535);
    cbn [modulus]; unfold effective_Nu in *; nia.
Qed.

Lemma mod_shift_differs (M x d : Z) : 0 < d < M -> x mod M <> (x + d) mod M.
Proof.
  intros Hd Heq.
  assert ((x + d - x) mod M = 0) as Hzero.
  { rewrite Zminus_mod, <- Heq, Z.sub_diag. apply Z.mod_0_l. lia. }
  replace (x + d - x) with d in Hzero by lia.
  rewrite Z.mod_small in Hzero by lia. lia.
Qed.

(** The three corners of a triangle of the closed form are distinct. *)
Lemma built_triangle_distinct p ii :
  let idx := elements (built_indices (effective_Nr p) (effective_Nu p)) in
  In ii (triangle_starts (length idx)) ->
  nth ii idx 0 <> nth (ii + 1) idx 0
  /\ nth ii idx 0 <> nth (ii + 2) idx 0
  /\ nth (ii + 1) idx 0 <> nth (ii + 2) idx 0
  /\ 0 <= nth ii idx 0 /\ 0 <= nth (ii + 1) idx 0 /\ 0 <= nth (ii + 2) idx 0.
Proof.
  intros idx Hii. unfold idx in *. rewrite length_built_indices in Hii.
  apply triangle_start_decompose in Hii.
  destruct Hii as (i & j & h & Hi & Hj & Hh & ->).
  pose proof (effective_Nu_min p) as HNu.
  pose proof (columns_below_modulus p) as HM.
  set (M := modulus _) in *.
  assert (Hpos : forall x, 0 <= x mod M)
    by (intros x; apply Z.mod_pos_bound; lia).
  rewrite <- !Nat.add_assoc.
  rewrite !nth_built_indices by lia. fold M.
  unfold quad_triangles. cbv zeta.
  set (a := Z.of_nat i * effective_Nu p + Z.of_nat j).
  destruct h as [|[|h]]; [| |lia]; cbn [Nat.mul Nat.add nth].
  - replace ((Z.of_nat i + 1) * effective_Nu p + Z.of_nat j)
      with (a + effective_Nu p) by (unfold a; lia).
    replace (Z.of_nat i * effective_Nu p + (Z.of_nat j + 1))
      with (a + 1) by (unfold a; lia).
    repeat split; try apply Hpos.
    + apply mod_shift_differs. lia.
    + apply mod_shift_differs. lia.
    + intros Heq. symmetry in Heq. revert Heq.
      replace (a + effective_Nu p) with (a + 1 + (effective_Nu p - 1)) by lia.
      apply mod_shift_differs. lia.
  - replace ((Z.of_nat i + 1) * effective_Nu p + Z.of_nat j)
      with (a + effective_Nu p) by (unfold a; lia).
    replace ((Z.of_nat i + 1) * effective_Nu p + (Z.of_nat j + 1))
      with (a + effective_Nu p + 1) by (unfold a; lia).
    replace (Z.of_nat i * effective_Nu p + (Z.of_nat j + 1))
      with (a + 1) by (unfold a; lia).
    repeat split; try apply Hpos.
    + apply mod_shift_differs. lia.
    + intros Heq. symmetry in Heq. revert Heq.
      replace (a + effective_Nu p) with (a + 1 + (effective_Nu p - 1)) by lia.
      apply mod_shift_differs. lia.
    + intros Heq. symmetry in Heq. revert Heq.
      replace (a + effective_Nu p + 1) with (a + 1 + effective_Nu p) by lia.
      apply mod_shift_differs. lia.
Qed.

(** X3.  No triangle of the index buffer is degenerate in its indices: its
    three corners are three different vertices, so the accumulation loop adds
    the face normal of a triangle to a vertex at most once. *)
Theorem triangle_corners_distinct alloc p this mesh idx (ii : nat) :
  build alloc p this = Return mesh ->
  indices mesh = Some idx ->
  In ii (triangle_starts (length (elements idx))) ->
  let i0 := nth ii (elements idx) 0 in
  let i1 := nth (ii + 1) (elements idx) 0 in
  let i2 := nth (ii + 2) (elements idx) 0 in
  i0 <> i1 /\ i0 <> i2 /\ i1 <> i2
  /\ (forall v, (corners_at (elements idx) ii v <= 1)%nat).
Proof.
  intros Hbuild Hidx Hii.
  apply build_Return in Hbuild. subst mesh.
  cbn [built_mesh indices] in Hidx. injection Hidx as <-.
  destruct (built_triangle_distinct p ii Hii)
    as (H01 & H02 & H12 & Hn0 & Hn1 & Hn2).
  cbv zeta. repeat split; try assumption.
  intros v. unfold corners_at. cbn [filter].
  repeat match goal with
         | |- context [Nat.eqb ?x ?y] => destruct (Nat.eqb_spec x y)
         end; cbn [length]; lia.
Qed.

(** The scenario of the specification, second triangle: 4, 5, 1. *)
Lemma triangle_corners_distinct_scenario :
  let idx := elements (built_indices 2 4) in
  nth 3 idx 0 <> nth 4 idx 0 /\ nth 3 idx 0 <> nth 5 idx 0
  /\ nth 4 idx 0 <> nth 5 idx 0
  /\ (forall v, (corners_at idx 3 v <= 1)%nat).
Proof.
  apply (triangle_corners_distinct es_alloc scenario new_Model
           (built_mesh scenario new_Model) (built_indices 2 4) 3).
  - rewrite build_closed_form. reflexivity.
  - reflexivity.
  - right. left. reflexivity.
Defined.

Lemma In_quad_triangles_list (Nr Nu : Z) (i j : nat) (v : Z) :
  (i < Z.to_nat (Nr - 1))%nat -> (j < Z.to_nat (Nu - 1))%nat ->
  In v (quad_triangles Nu i j) -> In v (triangle_list Nr Nu).
Proof.
  intros Hi Hj Hv. unfold triangle_list, range.
  apply in_flat_map. exists i. split; [apply in_seq; lia|].
  apply in_flat_map. exists j. split; [apply in_seq; lia|assumption].
Qed.

(** Every vertex of the grid is a corner of a quad. *)
Lemma vertex_in_triangle_list (Nr Nu : Z) (i j : nat) :
  2 <= Nr -> 2 <= Nu -> Z.of_nat i < Nr -> Z.of_nat j < Nu ->
  In (Z.of_nat i * Nu + Z.of_nat j) (triangle_list Nr Nu).
Proof.
  intros HNr HNu Hi Hj.
  destruct (Z.eq_dec (Z.of_nat i) (Nr - 1)) as [Hilast|Hinner];
    destruct (Z.eq_dec (Z.of_nat j) (Nu - 1)) as [Hjlast|Hjinner].
  - apply (In_quad_triangles_list Nr Nu (i - 1) (j - 1)); try lia.
    unfold quad_triangles. cbv zeta. do 4 right. left. nia.
  - apply (In_quad_triangles_list Nr Nu (i - 1) j); try lia.
    unfold quad_triangles. cbv zeta. right. left. nia.
  - apply (In_quad_triangles_list Nr Nu i (j - 1)); try lia.
    unfold quad_triangles. cbv zeta. do 2 right. left. nia.
  - apply (In_quad_triangles_list Nr Nu i j); try lia.
    unfold quad_triangles. cbv zeta. left. lia.
Qed.

(** X4.  Unless the grid has more than 2^32 vertices, every vertex is a corner
    of at least one triangle of the index buffer: no vertex is left without a
    face. *)
Theorem every_vertex_in_a_triangle alloc p this mesh idx (v : nat) :
  build alloc p this = Return mesh ->
  indices mesh = Some idx ->
  effective_Nr p * effective_Nu p <= 2 ^ 32 ->
  Z.of_nat v < effective_Nr p * effective_Nu p ->
  In (Z.of_nat v) (elements idx).
Proof.
  intros Hbuild Hidx Hsmall Hv.
  apply build_Return in Hbuild. subst mesh.
  cbn [built_mesh indices] in Hidx. injection Hidx as <-.
  pose proof (effective_Nr_min p) as HNr.
  pose proof (effective_Nu_min p) as HNu.
  rewrite built_indices_exact by lia.
  assert (Hj : (v mod Z.to_nat (effective_Nu p) < Z.to_nat (effective_Nu p))%nat)
    by (apply Nat.mod_upper_bound; lia).
  assert (Hi : (v / Z.to_nat (effective_Nu p) < Z.to_nat (effective_Nr p))%nat)
    by (apply Nat.Div0.div_lt_upper_bound; nia).
  pose proof (vertex_index_div_mod (effective_Nu p) v ltac:(lia)) as Hv_ij.
  set (i := (v / Z.to_nat (effective_Nu p))%nat) in *.
  set (j := (v mod Z.to_nat (effective_Nu p))%nat) in *.
  replace (Z.of_nat v) with (Z.of_nat i * effective_Nu p + Z.of_nat j)
    by (unfold vertex_index in Hv_ij; lia).
  apply vertex_in_triangle_list; lia.
Qed.

(** The scenario of the specification: its last vertex, 7. *)
Lemma every_vertex_in_a_triangle_scenario :
  In 7 (elements (built_indices 2 4)).
Proof.
  apply (every_vertex_in_a_triangle es_alloc scenario new_Model
           (built_mesh scenario new_Model) (built_indices 2 4) 7).
  - rewrite build_closed_form. reflexivity.
  - reflexivity.
  - vm_compute. discriminate.
  - reflexivity.
Defined.

(** ** Winding *)

Lemma ring_of_vertex (Nu i j : Z) :
  0 <= j < Nu -> ring_of Nu (i * Nu + j) = i.
Proof.
  intros Hj. unfold ring_of.
  rewrite Z.add_comm, Z.div_add by lia.
  rewrite Z.div_small by lia. lia.
Qed.

Lemma column_of_vertex (Nu i j : Z) :
  0 <= j < Nu -> column_of Nu (i * Nu + j) = j.
Proof.
  intros Hj. unfold column_of.
  rewrite Z.add_comm, Z.mod_add by lia.
  apply Z.mod_small. lia.
Qed.

(** X5.  Unless the grid has more than 2^32 vertices, all triangles of the
    index buffer wind the same way: in the grid coordinates (ring, column) of
    its corners, each has the signed double area 1. *)
Theorem triangles_wind_alike alloc p this mesh idx (ii : nat) :
  build alloc p this = Return mesh ->
  indices mesh = Some idx ->
  effective_Nr p * effective_Nu p <= 2 ^ 32 ->
  In ii (triangle_starts (length (elements idx))) ->
  grid_orientation (effective_Nu p)
    (nth ii (elements idx) 0) (nth (ii + 1) (elements idx) 0)
    (nth (ii + 2) (elements idx) 0) = 1.
Proof.
  intros Hbuild Hidx Hsmall Hii.
  apply build_Return in Hbuild. subst mesh.
  cbn [built_mesh indices] in Hidx. injection Hidx as <-.
  pose proof (effective_Nr_min p) as HNr.
  pose proof (effective_Nu_min p) as HNu.
  set (Nr := effective_Nr p) in *. set (Nu := effective_Nu p) in *.
  rewrite length_built_indices in Hii.
  apply triangle_start_decompose in Hii.
  destruct Hii as (i & j & h & Hi & Hj & Hh & ->).
  assert (Hnth : forall c, (c < 6)%nat ->
            nth ((i * Z.to_nat (Nu - 1) + j) * 6 + c)
                (elements (built_indices Nr Nu)) 0
            = nth c (quad_triangles Nu i j) 0).
  { intros c Hc. rewrite nth_built_indices by lia.
    apply Z.mod_small.
    assert (In (nth c (quad_triangles Nu i j) 0) (triangle_list Nr Nu)) as Hin.
    { apply (In_quad_triangles_list Nr Nu i j); try lia.
      apply nth_In. cbn [quad_triangles length]. lia. }
    apply In_triangle_list in Hin; try lia.
    unfold built_indices.
    destruct (Z.gtb_spec (Nr * Nu) 65535); cbn [modulus]; lia. }
  rewrite <- !Nat.add_assoc. rewrite !Hnth by lia.
  unfold quad_triangles, grid_orientation. cbv zeta.
  destruct h as [|[|h]]; [| |lia]; cbn [Nat.mul Nat.add nth].
  - rewrite !ring_of_vertex, !column_of_vertex by lia. lia.
  - rewrite !ring_of_vertex, !column_of_vertex by lia. lia.
Qed.

(** The scenario of the specification, second triangle: 4, 5, 1. *)
Lemma triangles_wind_alike_scenario :
  grid_orientation 4 4 5 1 = 1.
Proof.
  apply (triangles_wind_alike es_alloc scenario new_Model
           (built_mesh scenario new_Model) (built_indices 2 4) 3).
  - rewrite build_closed_form. reflexivity.
  - reflexivity.
  - vm_compute. discriminate.
  - right. left. reflexivity.
Defined.

(** ** The mip canvases of [makeMipCanvas] *)
















(** Read a component of the state through the assignments to it. *)
Ltac gl_state :=
  cbn [raise set_binding set_uint_indices set_buffers
       set_ARRAY_BUFFER_BINDING set_ELEMENT_ARRAY_BUFFER_BINDING
       set_vertex_attribs set_shaders set_programs set_CURRENT_PROGRAM
       set_uniforms set_textures set_TEXTURE_BINDING_2D set_unpack_flip_y
       set_depth_test set_VIEWPORT set_COLOR_CLEAR_VALUE set_errors
       set_drawn set_shown binding
       driver supported canvas uint_indices buffers ARRAY_BUFFER_BINDING
       ELEMENT_ARRAY_BUFFER_BINDING vertex_attribs shaders programs
       CURRENT_PROGRAM uniforms textures TEXTURE_BINDING_2D unpack_flip_y
       depth_test VIEWPORT COLOR_CLEAR_VALUE errors drawn shown].

(** ** [Model.upload] and [Model.draw] on the context *)

Lemma store_store_same {A : Type} (k : nat) (v w : A) (arr : list A) :
  store k v (store k w arr) = store k v arr.
Proof.
  revert k; induction arr as [|x rest IH]; intros [|k]; simpl; auto.
  now rewrite IH.
Qed.

Lemma nth_new_buffers (l extra : list BufferObject) (b : nat) :
  (length l <= b)%nat -> (forall x, In x extra -> x = new_buffer) ->
  nth b (l ++ extra) new_buffer = new_buffer.
Proof.
  intros Hb Hextra.
  destruct (Nat.lt_ge_cases b (length (l ++ extra))) as [Hin|Hout].
  - rewrite app_nth2 by lia. apply Hextra, nth_In.
    rewrite length_app in Hin. lia.
  - now apply nth_overflow.
Qed.

(** Which binding point a buffer object may be bound to. *)
Lemma bindBuffer_bound (target : Target) (b : nat) (gl : WebGL) :
  (b < length (buffers gl))%nat ->
  buffer_target (nth b (buffers gl) new_buffer) = None
  \/ buffer_target (nth b (buffers gl) new_buffer) = Some target ->
  gl.bindBuffer target (Some b) gl
  = set_binding target (Some b)
      (set_buffers
         (store b {| buffer_target := Some target;
                     buffer_data := buffer_data (nth b (buffers gl) new_buffer) |}
            (buffers gl)) gl).
Proof.
  intros Hb Ht. unfold gl.bindBuffer.
  apply Nat.ltb_lt in Hb. rewrite Hb.
  destruct Ht as [-> | ->]; [reflexivity|].
  now destruct target.
Qed.

(** Binding a buffer and giving it data, in one step. *)
Lemma bind_then_data (target : Target) (b : nat) (d : BufferData) (gl : WebGL) :
  (b < length (buffers gl))%nat ->
  buffer_target (nth b (buffers gl) new_buffer) = None
  \/ buffer_target (nth b (buffers gl) new_buffer) = Some target ->
  gl.bufferData target (Some d) STATIC_DRAW (gl.bindBuffer target (Some b) gl)
  = set_buffers
      (store b {| buffer_target := Some target; buffer_data := Some d |}
         (buffers gl))
      (set_binding target (Some b) gl).
Proof.
  intros Hb Ht. rewrite bindBuffer_bound by assumption.
  unfold gl.bufferData.
  destruct target; cbn; rewrite store_store_same; reflexivity.
Qed.

Lemma buffers_set_binding target h gl :
  buffers (set_binding target h gl) = buffers gl.
Proof. now destruct target. Qed.

Lemma length_buffers_bindBuffer target h gl :
  length (buffers (gl.bindBuffer target h gl)) = length (buffers gl).
Proof.
  unfold gl.bindBuffer. destruct h as [b|]; [|apply f_equal, buffers_set_binding].
  destruct (b <? _)%nat; [|reflexivity].
  destruct (match buffer_target _ with Some t => _ | None => _ end);
    [|reflexivity].
  rewrite buffers_set_binding. cbn. apply length_store.
Qed.

Lemma length_buffers_bufferData target d u gl :
  length (buffers (gl.bufferData target d u gl)) = length (buffers gl).
Proof.
  unfold gl.bufferData. destruct d as [d|]; [|reflexivity].
  destruct (binding target gl); [|reflexivity].
  cbn. apply length_store.
Qed.

Lemma buffers_getExtension name gl :
  buffers (snd (gl.getExtension name gl)) = buffers gl.
Proof. unfold gl.getExtension. now destruct (_ && _)%bool. Qed.


Lemma create_if_null_spec (handle : option WebGLBuffer) (gl : WebGL) :
  length (buffers (snd (create_if_null handle gl)))
  = (length (buffers gl) + missing handle)%nat
  /\ fst (create_if_null handle gl) <> None
  /\ (forall b, handle = Some b -> fst (create_if_null handle gl) = Some b).
Proof.
  destruct handle as [b|]; cbn.
  - repeat split; [lia|discriminate|auto].
  - rewrite length_app. cbn. repeat split; [discriminate|discriminate].
Qed.

(** [upload] creates the buffers that are missing, and no other. *)
Lemma upload_creates_buffers (gl : WebGL) (this : ModelObject) :
  let '(this', gl', _) := Model_upload gl this in
  length (buffers gl')
  = (length (buffers gl) + missing (posVBO this) + missing (nrmVBO this)
     + missing (uvVBO this) + missing (ibo this))%nat
  /\ (missing (posVBO this') + missing (nrmVBO this') + missing (uvVBO this')
      + missing (ibo this') = 0)%nat
  /\ (forall b, posVBO this = Some b -> posVBO this' = Some b)
  /\ (forall b, nrmVBO this = Some b -> nrmVBO this' = Some b)
  /\ (forall b, uvVBO this = Some b -> uvVBO this' = Some b)
  /\ (forall b, ibo this = Some b -> ibo this' = Some b).
Proof.
  unfold Model_upload.
  pose proof (create_if_null_spec (posVBO this) gl) as H1.
  destruct (create_if_null (posVBO this) gl) as [h1 gl1].
  pose proof (create_if_null_spec (nrmVBO this) gl1) as H2.
  destruct (create_if_null (nrmVBO this) gl1) as [h2 gl2].
  pose proof (create_if_null_spec (uvVBO this) gl2) as H3.
  destruct (create_if_null (uvVBO this) gl2) as [h3 gl3].
  pose proof (create_if_null_spec (ibo this) gl3) as H4.
  destruct (create_if_null (ibo this) gl3) as [h4 gl4].
  cbn [fst snd] in *.
  destruct H1 as (L1 & N1 & K1), H2 as (L2 & N2 & K2), H3 as (L3 & N3 & K3),
    H4 as (L4 & N4 & K4).
  match goal with
  | |- context [gl.bufferData ELEMENT_ARRAY_BUFFER ?d ?u ?g] =>
      set (gl8 := gl.bufferData ELEMENT_ARRAY_BUFFER d u g)
  end.
  assert (L8 : length (buffers gl8) = length (buffers gl4)).
  { unfold gl8.
    now rewrite !length_buffers_bufferData, !length_buffers_bindBuffer,
      !length_buffers_bufferData, !length_buffers_bindBuffer,
      !length_buffers_bufferData, !length_buffers_bindBuffer,
      !length_buffers_bufferData, !length_buffers_bindBuffer. }
  clearbody gl8.
  destruct (instanceof_Uint32Array (indices (mesh this))).
  - pose proof (buffers_getExtension "OES_element_index_uint" gl8) as HE.
    destruct (gl.getExtension "OES_element_index_uint" gl8) as [ext gl9].
    cbn [snd] in HE. cbn [posVBO nrmVBO uvVBO ibo].
    rewrite !length_buffers_bindBuffer, HE.
    destruct h1, h2, h3, h4; try congruence.
    cbn [missing]. repeat split; auto; lia.
  - cbn [posVBO nrmVBO uvVBO ibo].
    rewrite !length_buffers_bindBuffer.
    destruct h1, h2, h3, h4; try congruence.
    cbn [missing]. repeat split; auto; lia.
Qed.

(** X8.  [upload] creates a buffer for each of the four handles that is
    [null] and for no other: a handle that is set stays as it is, all four
    are set afterwards, and so an upload of the same object creates no
    buffer again. *)
Theorem upload_creates_missing_buffers (gl : WebGL) (this : ModelObject) :
  let '(this', gl', _) := Model_upload gl this in
  length (buffers gl')
  = (length (buffers gl) + missing (posVBO this) + missing (nrmVBO this)
     + missing (uvVBO this) + missing (ibo this))%nat
  /\ (missing (posVBO this') + missing (nrmVBO this') + missing (uvVBO this')
      + missing (ibo this') = 0)%nat
  /\ (forall b, posVBO this = Some b -> posVBO this' = Some b)
  /\ (forall b, nrmVBO this = Some b -> nrmVBO this' = Some b)
  /\ (forall b, uvVBO this = Some b -> uvVBO this' = Some b)
  /\ (forall b, ibo this = Some b -> ibo this' = Some b).
Proof. exact (upload_creates_buffers gl this). Qed.

Lemma handle_ok_created (gl : WebGL) (target : Target) (handle : option WebGLBuffer)
    (extra : list BufferObject) :
  (forall x, In x extra -> x = new_buffer) ->
  handle_ok gl target handle ->
  handle_ok (set_buffers (buffers gl ++ extra) gl) target handle.
Proof.
  intros Hextra. destruct handle as [b|]; [|auto].
  cbn. intros [Hb Ht]. rewrite length_app, app_nth1 by assumption.
  split; [lia|assumption].
Qed.

(** The four buffers, each bound and filled in turn. *)
Lemma fill_buffers (gl : WebGL) (m : Model) (p n u i : nat)
    (dp dn du di : BufferData) :
  owns gl {| mesh := m; posVBO := Some p; nrmVBO := Some n; uvVBO := Some u;
             ibo := Some i |} ->
  gl.bufferData ELEMENT_ARRAY_BUFFER (Some di) STATIC_DRAW
    (gl.bindBuffer ELEMENT_ARRAY_BUFFER (Some i)
       (gl.bufferData ARRAY_BUFFER (Some du) STATIC_DRAW
          (gl.bindBuffer ARRAY_BUFFER (Some u)
             (gl.bufferData ARRAY_BUFFER (Some dn) STATIC_DRAW
                (gl.bindBuffer ARRAY_BUFFER (Some n)
                   (gl.bufferData ARRAY_BUFFER (Some dp) STATIC_DRAW
                      (gl.bindBuffer ARRAY_BUFFER (Some p) gl)))))))
  = set_buffers
      (store i {| buffer_target := Some ELEMENT_ARRAY_BUFFER;
                  buffer_data := Some di |}
         (store u {| buffer_target := Some ARRAY_BUFFER; buffer_data := Some du |}
            (store n {| buffer_target := Some ARRAY_BUFFER;
                        buffer_data := Some dn |}
               (store p {| buffer_target := Some ARRAY_BUFFER;
                           buffer_data := Some dp |} (buffers gl)))))
      (set_ELEMENT_ARRAY_BUFFER_BINDING (Some i)
         (set_ARRAY_BUFFER_BINDING (Some u) gl)).
Proof.
  intros (Hp & Hn & Hu & Hi & Hpn & Hpu & Hpi & Hnu & Hni & Hui).
  cbn in Hp, Hn, Hu, Hi, Hpn, Hpu, Hpi, Hnu, Hni, Hui.
  destruct Hp as [Lp Tp], Hn as [Ln Tn], Hu as [Lu Tu], Hi as [Li Ti].
  rewrite (bind_then_data ARRAY_BUFFER p) by assumption.
  rewrite (bind_then_data ARRAY_BUFFER n)
    by (cbn; rewrite ?length_store, ?nth_store_other by congruence; assumption).
  rewrite (bind_then_data ARRAY_BUFFER u)
    by (cbn; rewrite ?length_store, ?nth_store_other by congruence; assumption).
  rewrite (bind_then_data ELEMENT_ARRAY_BUFFER i)
    by (cbn; rewrite ?length_store, ?nth_store_other by congruence; assumption).
  reflexivity.
Qed.

Ltac solve_handles :=
  unfold owns, handle_ok, distinct_handles in *; cbn in *;
  rewrite ?length_app in *; cbn [length] in *;
  rewrite <- ?app_assoc; cbn [app];
  repeat match goal with
         | H : _ /\ _ |- _ => destruct H
         end;
  repeat split; try lia; auto;
  try (rewrite app_nth1 by lia; assumption);
  try (left; rewrite nth_new_buffers;
       [reflexivity | lia
       | intros x Hx; cbn in Hx; intuition (subst; reflexivity)]).

(** The handles after the four [create_if_null]: the old ones kept, the
    missing ones created at the end of the buffer list. *)
Lemma create_handles (gl : WebGL) (this : ModelObject) :
  owns gl this ->
  let r1 := create_if_null (posVBO this) gl in
  let r2 := create_if_null (nrmVBO this) (snd r1) in
  let r3 := create_if_null (uvVBO this) (snd r2) in
  let r4 := create_if_null (ibo this) (snd r3) in
  exists p n u i,
    fst r1 = Some p /\ fst r2 = Some n /\ fst r3 = Some u /\ fst r4 = Some i
    /\ snd r4
       = set_buffers
           (buffers gl
            ++ repeat new_buffer
                 (missing (posVBO this) + missing (nrmVBO this)
                  + missing (uvVBO this) + missing (ibo this))) gl
    /\ owns (snd r4)
         {| mesh := mesh this; posVBO := Some p; nrmVBO := Some n;
            uvVBO := Some u; ibo := Some i |}.
Proof.
  intros Hown.
  destruct this as [m [p|] [n|] [u|] [i|]]; cbn [posVBO nrmVBO uvVBO ibo mesh];
    cbn [create_if_null gl.createBuffer fst snd missing Nat.add repeat].
  all: do 4 eexists.
  all: do 4 (split; [reflexivity|]).
  all: split;
    [ first [ destruct gl; gl_state; rewrite app_nil_r; reflexivity
            | gl_state; rewrite <- ?app_assoc; reflexivity ] | ].
  all: solve_handles.
Qed.

(** What [upload] leaves in the context and in the object. *)
Lemma Model_upload_stores (gl : WebGL) (this : ModelObject) (idx : IndexArray) :
  owns gl this ->
  indices (mesh this) = Some idx ->
  let '(this', gl', console) := Model_upload gl this in
  uploaded gl' this' /\ owns gl' this'
  /\ mesh this' = fst (upload (supported gl) (mesh this))
  /\ console = snd (upload (supported gl) (mesh this))
  /\ ARRAY_BUFFER_BINDING gl' = None
  /\ ELEMENT_ARRAY_BUFFER_BINDING gl' = None
  /\ errors gl' = errors gl
  /\ vertex_attribs gl' = vertex_attribs gl
  /\ uint_indices gl'
     = (uint_indices gl
        || instanceof_Uint32Array (Some idx)
           && OES_element_index_uint (supported gl))%bool
  /\ (forall b,
        (b < length (buffers gl))%nat ->
        Some b <> posVBO this' -> Some b <> nrmVBO this' ->
        Some b <> uvVBO this' -> Some b <> ibo this' ->
        nth b (buffers gl') new_buffer = nth b (buffers gl) new_buffer).
Proof.
  intros Hown Hidx. unfold Model_upload.
  pose proof (create_handles gl this Hown) as H. cbv zeta in H.
  destruct (create_if_null (posVBO this) gl) as [h1 gl1]; cbn [fst snd] in H.
  destruct (create_if_null (nrmVBO this) gl1) as [h2 gl2]; cbn [fst snd] in H.
  destruct (create_if_null (uvVBO this) gl2) as [h3 gl3]; cbn [fst snd] in H.
  destruct (create_if_null (ibo this) gl3) as [h4 gl4]; cbn [fst snd] in H.
  destruct H as (p & n & u & i & -> & -> & -> & -> & Hgl & Hown4).
  rewrite Hidx. cbn [option_map].
  rewrite (fill_buffers gl4 (mesh this) p n u i) by exact Hown4.
  assert (Hown' := Hown4).
  destruct Hown' as ((Lp & _) & (Ln & _) & (Lu & _) & (Li & _)
                     & Hpn & Hpu & Hpi & Hnu & Hni & Hui).
  cbn [posVBO nrmVBO uvVBO ibo distinct_handles] in *.
  assert (Hold : forall b, (b < length (buffers gl))%nat ->
                           nth b (buffers gl4) new_buffer
                           = nth b (buffers gl) new_buffer).
  { intros b Hb. rewrite Hgl. gl_state. now rewrite app_nth1. }
  assert (Hsame : supported gl4 = supported gl /\ errors gl4 = errors gl
                  /\ vertex_attribs gl4 = vertex_attribs gl
                  /\ uint_indices gl4 = uint_indices gl)
    by (rewrite Hgl; repeat split).
  destruct Hsame as (Hsup & Herr & Hattr & Huint).
  clear Hgl Hown4 gl1 gl2 gl3.
  unfold upload. rewrite Hidx.
  assert (Hread :
    forall B : list BufferObject,
      B = store i {| buffer_target := Some ELEMENT_ARRAY_BUFFER;
                     buffer_data := Some (IndexData idx) |}
            (store u {| buffer_target := Some ARRAY_BUFFER;
                        buffer_data := Some (Float32Data (texcoords (mesh this))) |}
               (store n {| buffer_target := Some ARRAY_BUFFER;
                           buffer_data := Some (Float32Data (normals (mesh this))) |}
                  (store p {| buffer_target := Some ARRAY_BUFFER;
                              buffer_data :=
                                Some (Float32Data (positions (mesh this))) |}
                     (buffers gl4)))) ->
      length B = length (buffers gl4)
      /\ nth p B new_buffer
         = {| buffer_target := Some ARRAY_BUFFER;
              buffer_data := Some (Float32Data (positions (mesh this))) |}
      /\ nth n B new_buffer
         = {| buffer_target := Some ARRAY_BUFFER;
              buffer_data := Some (Float32Data (normals (mesh this))) |}
      /\ nth u B new_buffer
         = {| buffer_target := Some ARRAY_BUFFER;
              buffer_data := Some (Float32Data (texcoords (mesh this))) |}
      /\ nth i B new_buffer
         = {| buffer_target := Some ELEMENT_ARRAY_BUFFER;
              buffer_data := Some (IndexData idx) |}
      /\ (forall b, b <> p -> b <> n -> b <> u -> b <> i ->
                    nth b B new_buffer = nth b (buffers gl4) new_buffer)).
  { intros B ->. rewrite !length_store.
    repeat split.
    - rewrite !nth_store_other by congruence.
      apply nth_store_same. assumption.
    - rewrite !nth_store_other by congruence.
      apply nth_store_same. rewrite !length_store. assumption.
    - rewrite !nth_store_other by congruence.
      apply nth_store_same. rewrite !length_store. assumption.
    - apply nth_store_same. rewrite !length_store. assumption.
    - intros b ? ? ? ?. now rewrite !nth_store_other by congruence. }
  match goal with
  | |- context [set_buffers ?B _] =>
      specialize (Hread B eq_refl); set (buf := B) in *; clearbody buf
  end.
  destruct Hread as (LB & Bp & Bn & Bu & Bi & Bother).
  assert (Hgoal :
    forall (ty : GLenum) (gl' : WebGL) (console : list string),
      ty = type_of_indices idx ->
      buffers gl' = buf ->
      let this' :=
        {| mesh :=
             {| positions := positions (mesh this);
                normals := normals (mesh this);
                texcoords := texcoords (mesh this);
                indices := Some idx;
                indexCount := indexCount (mesh this);
                indexType := Some ty |};
           posVBO := Some p; nrmVBO := Some n; uvVBO := Some u;
           ibo := Some i |} in
      uploaded gl' this' /\ owns gl' this'
      /\ (forall b,
            (b < length (buffers gl))%nat ->
            Some b <> posVBO this' -> Some b <> nrmVBO this' ->
            Some b <> uvVBO this' -> Some b <> ibo this' ->
            nth b (buffers gl') new_buffer = nth b (buffers gl) new_buffer)).
  { intros ty gl' console -> Hbuf this'. unfold this'.
    split; [|split].
    - exists idx. cbn [mesh indices indexType positions normals texcoords
                       posVBO nrmVBO uvVBO ibo].
      unfold holds. rewrite Hbuf, LB.
      repeat split; eexists; (split; [reflexivity|]); split; assumption.
    - unfold owns, handle_ok, distinct_handles.
      cbn [posVBO nrmVBO uvVBO ibo]. rewrite Hbuf, LB, Bp, Bn, Bu, Bi.
      cbn [buffer_target]. repeat split; auto.
    - cbn [posVBO nrmVBO uvVBO ibo]. intros b Hb H H0 H1 H2.
      rewrite Hbuf. rewrite Bother.
      + apply Hold, Hb.
      + intros E. apply H. now rewrite E.
      + intros E. apply H0. now rewrite E.
      + intros E. apply H1. now rewrite E.
      + intros E. apply H2. now rewrite E. }
  destruct idx as [data|data]; cbn [instanceof_Uint32Array].
  - destruct (Hgoal UNSIGNED_SHORT
                (gl.bindBuffer ELEMENT_ARRAY_BUFFER None
                   (gl.bindBuffer ARRAY_BUFFER None
                      (set_buffers buf
                         (set_ELEMENT_ARRAY_BUFFER_BINDING (Some i)
                            (set_ARRAY_BUFFER_BINDING (Some u) gl4)))))
                [] eq_refl eq_refl) as (G1 & G2 & G3).
    split; [exact G1|]. split; [exact G2|].
    cbn [mesh fst snd]. rewrite orb_false_r.
    repeat split; try assumption.
  - unfold gl.getExtension.
    change (String.eqb _ _) with true. cbn [andb].
    replace (supported (set_buffers buf _)) with (supported gl) by (symmetry; exact Hsup).
    destruct (OES_element_index_uint (supported gl)); cbn [negb].
    + destruct (Hgoal UNSIGNED_INT
                  (gl.bindBuffer ELEMENT_ARRAY_BUFFER None
                     (gl.bindBuffer ARRAY_BUFFER None
                        (set_uint_indices true
                           (set_buffers buf
                              (set_ELEMENT_ARRAY_BUFFER_BINDING (Some i)
                                 (set_ARRAY_BUFFER_BINDING (Some u) gl4))))))
                  [] eq_refl eq_refl) as (G1 & G2 & G3).
      split; [exact G1|]. split; [exact G2|].
      cbn [mesh fst snd]. rewrite orb_true_r.
      repeat split; try assumption.
    + destruct (Hgoal UNSIGNED_INT
                  (gl.bindBuffer ELEMENT_ARRAY_BUFFER None
                     (gl.bindBuffer ARRAY_BUFFER None
                        (set_buffers buf
                           (set_ELEMENT_ARRAY_BUFFER_BINDING (Some i)
                              (set_ARRAY_BUFFER_BINDING (Some u) gl4)))))
                  [warning] eq_refl eq_refl) as (G1 & G2 & G3).
      split; [exact G1|]. split; [exact G2|].
      cbn [mesh fst snd]. rewrite orb_false_r.
      repeat split; try assumption.
Qed.

(** X9.  When the object owns its buffers and has an index array, [upload]
    leaves the four arrays of the mesh in the four buffers, each buffer on
    its binding point, and the object owning them; it resolves the index
    type as [upload] on the mesh alone does, unbinds both binding points,
    generates no error, leaves the vertex attributes alone, enables the
    extension only for a [Uint32Array] on a context that has it, and
    touches no buffer but the four. *)
Theorem upload_stores_mesh (gl : WebGL) (this : ModelObject) (idx : IndexArray) :
  owns gl this ->
  indices (mesh this) = Some idx ->
  let '(this', gl', console) := Model_upload gl this in
  uploaded gl' this' /\ owns gl' this'
  /\ mesh this' = fst (upload (supported gl) (mesh this))
  /\ console = snd (upload (supported gl) (mesh this))
  /\ ARRAY_BUFFER_BINDING gl' = None
  /\ ELEMENT_ARRAY_BUFFER_BINDING gl' = None
  /\ errors gl' = errors gl
  /\ vertex_attribs gl' = vertex_attribs gl
  /\ uint_indices gl'
     = (uint_indices gl
        || instanceof_Uint32Array (Some idx)
           && OES_element_index_uint (supported gl))%bool
  /\ (forall b,
        (b < length (buffers gl))%nat ->
        Some b <> posVBO this' -> Some b <> nrmVBO this' ->
        Some b <> uvVBO this' -> Some b <> ibo this' ->
        nth b (buffers gl') new_buffer = nth b (buffers gl) new_buffer).
Proof. exact (Model_upload_stores gl this idx). Qed.

(** A triangle uploaded from an object without buffers. *)
Lemma upload_stores_mesh_triangle :
  owns example_context (object_of triangle)
  /\ indices (mesh (object_of triangle)) = Some (Uint16Array [0; 1; 2])
  /\ let '(this', gl', console) :=
       Model_upload example_context (object_of triangle) in
     uploaded gl' this' /\ owns gl' this' /\ console = []
     /\ errors gl' = errors example_context.
Proof.
  assert (Hown : owns example_context (object_of triangle))
    by (repeat split).
  split; [exact Hown|]. split; [reflexivity|].
  pose proof (upload_stores_mesh example_context (object_of triangle)
                (Uint16Array [0; 1; 2]) Hown eq_refl) as H.
  destruct (Model_upload example_context (object_of triangle))
    as [[this' gl'] console].
  destruct H as (U & O & _ & C & _ & _ & E & _).
  split; [exact U|]. split; [exact O|]. split; [exact C|]. exact E.
Defined.

(** ** Calls that draw nothing *)

Lemma undrawn_refl (gl : WebGL) : undrawn gl gl.
Proof. repeat split; auto. now exists []. Qed.

Lemma undrawn_trans (gl1 gl2 gl3 : WebGL) :
  undrawn gl1 gl2 -> undrawn gl2 gl3 -> undrawn gl1 gl3.
Proof.
  intros (D1 & P1 & T1 & S1 & U1 & es1 & E1)
    (D2 & P2 & T2 & S2 & U2 & es2 & E2).
  repeat split; try congruence.
  - intros H. rewrite U2 by congruence. auto.
  - exists (es2 ++ es1). now rewrite E2, E1, app_assoc.
Qed.

Lemma undrawn_raise (e : GLerror) (gl : WebGL) : undrawn gl (raise e gl).
Proof. repeat split; auto. now exists [e]. Qed.

Ltac undrawn_case :=
  first [ apply undrawn_raise
        | repeat split; auto; now exists [] ].

Lemma undrawn_createBuffer gl : undrawn gl (snd (gl.createBuffer gl)).
Proof. undrawn_case. Qed.

Lemma undrawn_create_if_null h gl : undrawn gl (snd (create_if_null h gl)).
Proof. destruct h; undrawn_case. Qed.

Lemma undrawn_bindBuffer target h gl : undrawn gl (gl.bindBuffer target h gl).
Proof.
  unfold gl.bindBuffer. destruct h as [b|]; [|destruct target; undrawn_case].
  destruct (b <? _)%nat; [|undrawn_case].
  destruct (match buffer_target _ with Some t => _ | None => _ end);
    [|undrawn_case].
  destruct target; undrawn_case.
Qed.

Lemma undrawn_bufferData target d u gl : undrawn gl (gl.bufferData target d u gl).
Proof.
  unfold gl.bufferData. destruct d; [|undrawn_case].
  destruct (binding target gl); undrawn_case.
Qed.

Lemma undrawn_getExtension name gl : undrawn gl (snd (gl.getExtension name gl)).
Proof.
  unfold gl.getExtension.
  destruct (String.eqb name _); cbn [andb]; [|undrawn_case].
  destruct (OES_element_index_uint (supported gl)) eqn:E; cbn [snd];
    [|undrawn_case].
  repeat split; auto; [congruence|now exists []].
Qed.

Lemma undrawn_useProgram p gl : undrawn gl (gl.useProgram p gl).
Proof.
  unfold gl.useProgram. destruct p as [p|]; [|undrawn_case].
  destruct (nth_error _ _) as [obj|]; [|undrawn_case].
  destruct (program_linked obj); undrawn_case.
Qed.

Lemma undrawn_vertexAttribPointer index size ty nrm stride offset gl :
  undrawn gl (gl.vertexAttribPointer index size ty nrm stride offset gl).
Proof.
  unfold gl.vertexAttribPointer.
  repeat match goal with
         | |- undrawn _ (if ?c then _ else _) => destruct c; [undrawn_case|]
         end.
  destruct (ARRAY_BUFFER_BINDING gl), (offset =? 0); undrawn_case.
Qed.

Lemma undrawn_enableVertexAttribArray index gl :
  undrawn gl (gl.enableVertexAttribArray index gl).
Proof.
  unfold gl.enableVertexAttribArray.
  destruct (negb _); undrawn_case.
Qed.

Lemma drawElements_wide_refused mode count offset gl :
  uint_indices gl = false ->
  gl.drawElements mode count (Some UNSIGNED_INT) offset gl
  = raise INVALID_ENUM gl.
Proof. intros H. unfold gl.drawElements. now rewrite H. Qed.

Ltac undrawn_step :=
  first
    [ apply undrawn_refl
    | eapply undrawn_trans;
      [| first [ apply undrawn_bindBuffer | apply undrawn_bufferData
               | apply undrawn_useProgram | apply undrawn_vertexAttribPointer
               | apply undrawn_enableVertexAttribArray ] ] ].

(** Up to [drawElements], [draw] draws nothing. *)
Lemma undrawn_before_drawElements gl program loc this :
  undrawn gl
    (gl.bindBuffer ELEMENT_ARRAY_BUFFER (ibo this)
       (gl.enableVertexAttribArray (aTexcoord loc)
          (gl.vertexAttribPointer (aTexcoord loc) 2 FLOAT false 0 0
             (gl.bindBuffer ARRAY_BUFFER (uvVBO this)
                (gl.enableVertexAttribArray (aNormal loc)
                   (gl.vertexAttribPointer (aNormal loc) 3 FLOAT false 0 0
                      (gl.bindBuffer ARRAY_BUFFER (nrmVBO this)
                         (gl.enableVertexAttribArray (aVertex loc)
                            (gl.vertexAttribPointer (aVertex loc) 3 FLOAT
                               false 0 0
                               (gl.bindBuffer ARRAY_BUFFER (posVBO this)
                                  (gl.useProgram program gl))))))))))).
Proof. repeat undrawn_step. Qed.

(** [upload] draws nothing. *)
Lemma undrawn_upload gl this :
  undrawn gl (snd (fst (Model_upload gl this))).
Proof.
  unfold Model_upload.
  pose proof (undrawn_create_if_null (posVBO this) gl) as H1.
  destruct (create_if_null (posVBO this) gl) as [h1 gl1].
  pose proof (undrawn_create_if_null (nrmVBO this) gl1) as H2.
  destruct (create_if_null (nrmVBO this) gl1) as [h2 gl2].
  pose proof (undrawn_create_if_null (uvVBO this) gl2) as H3.
  destruct (create_if_null (uvVBO this) gl2) as [h3 gl3].
  pose proof (undrawn_create_if_null (ibo this) gl3) as H4.
  destruct (create_if_null (ibo this) gl3) as [h4 gl4].
  cbn [snd] in *.
  assert (H : undrawn gl gl4) by eauto using undrawn_trans.
  clear H1 H2 H3 H4.
  match goal with
  | |- context [gl.bufferData ELEMENT_ARRAY_BUFFER ?d ?u ?g] =>
      assert (H8 : undrawn gl (gl.bufferData ELEMENT_ARRAY_BUFFER d u g))
        by (eapply undrawn_trans; [exact H|repeat undrawn_step]);
      set (gl8 := gl.bufferData ELEMENT_ARRAY_BUFFER d u g) in *;
      clearbody gl8
  end.
  destruct (instanceof_Uint32Array _).
  - pose proof (undrawn_getExtension "OES_element_index_uint" gl8) as HE.
    destruct (gl.getExtension _ gl8) as [ext gl9]. cbn [fst snd] in *.
    eapply undrawn_trans; [exact H8|].
    eapply undrawn_trans; [exact HE|]. repeat undrawn_step.
  - cbn [fst snd]. eapply undrawn_trans; [exact H8|]. repeat undrawn_step.
Qed.

(** [upload] draws nothing, and resolves the index type as [upload] on the
    mesh alone does. *)
Lemma Model_upload_resolves (gl : WebGL) (this : ModelObject) :
  undrawn gl (snd (fst (Model_upload gl this)))
  /\ mesh (fst (fst (Model_upload gl this)))
     = fst (upload (supported gl) (mesh this))
  /\ snd (Model_upload gl this) = snd (upload (supported gl) (mesh this)).
Proof.
  unfold Model_upload.
  pose proof (undrawn_create_if_null (posVBO this) gl) as H1.
  destruct (create_if_null (posVBO this) gl) as [h1 gl1].
  pose proof (undrawn_create_if_null (nrmVBO this) gl1) as H2.
  destruct (create_if_null (nrmVBO this) gl1) as [h2 gl2].
  pose proof (undrawn_create_if_null (uvVBO this) gl2) as H3.
  destruct (create_if_null (uvVBO this) gl2) as [h3 gl3].
  pose proof (undrawn_create_if_null (ibo this) gl3) as H4.
  destruct (create_if_null (ibo this) gl3) as [h4 gl4].
  cbn [snd] in *.
  assert (H : undrawn gl gl4) by eauto using undrawn_trans.
  clear H1 H2 H3 H4.
  match goal with
  | |- context [gl.bufferData ELEMENT_ARRAY_BUFFER ?d ?u ?g] =>
      assert (H8 : undrawn gl (gl.bufferData ELEMENT_ARRAY_BUFFER d u g))
        by (eapply undrawn_trans; [exact H|repeat undrawn_step]);
      set (gl8 := gl.bufferData ELEMENT_ARRAY_BUFFER d u g) in *;
      clearbody gl8
  end.
  unfold upload.
  destruct (instanceof_Uint32Array _).
  - pose proof (undrawn_getExtension "OES_element_index_uint" gl8) as HE.
    assert (Hext : fst (gl.getExtension "OES_element_index_uint" gl8)
                   = OES_element_index_uint (supported gl)).
    { unfold gl.getExtension. change (String.eqb _ _) with true. cbn [andb].
      destruct H8 as (_ & _ & _ & -> & _).
      now destruct (OES_element_index_uint (supported gl)). }
    destruct (gl.getExtension _ gl8) as [ext gl9]. cbn [fst snd] in *.
    subst ext. split; [|split; reflexivity].
    eapply undrawn_trans; [exact H8|].
    eapply undrawn_trans; [exact HE|]. repeat undrawn_step.
  - cbn [fst snd]. split; [|split; reflexivity].
    eapply undrawn_trans; [exact H8|]. repeat undrawn_step.
Qed.

(** X11.  With a [Uint32Array] of indices on a context that lacks
    OES_element_index_uint, [upload] warns and resolves UNSIGNED_INT all the
    same, and the [draw] that follows draws nothing: its [drawElements]
    generates INVALID_ENUM. *)
Theorem wide_indices_need_extension (gl : WebGL) (this : ModelObject)
    (data : list Z) (program : option WebGLProgram) (loc : Locations) :
  indices (mesh this) = Some (Uint32Array data) ->
  OES_element_index_uint (supported gl) = false ->
  uint_indices gl = false ->
  let '(this', gl', console) := Model_upload gl this in
  let gl'' := Model_draw gl' program loc this' in
  console = [warning]
  /\ indexType (mesh this') = Some UNSIGNED_INT
  /\ drawn gl' = drawn gl
  /\ drawn gl'' = drawn gl
  /\ exists es, errors gl'' = INVALID_ENUM :: es ++ errors gl'.
Proof.
  intros Hidx Hsup Huint.
  destruct (Model_upload_resolves gl this) as (Hup & Hmesh & Hconsole).
  destruct (Model_upload gl this) as [[this' gl'] console].
  cbn [fst snd] in *.
  unfold upload in Hmesh, Hconsole. rewrite Hidx in Hmesh, Hconsole.
  cbn [instanceof_Uint32Array fst snd] in Hmesh, Hconsole.
  rewrite Hsup in Hconsole. cbn [negb] in Hconsole.
  assert (Htype : indexType (mesh this') = Some UNSIGNED_INT)
    by now rewrite Hmesh.
  destruct Hup as (Hdrawn & _ & _ & Hsup' & Huint' & _).
  specialize (Huint' Hsup). rewrite Huint in Huint'.
  split; [exact Hconsole|]. split; [exact Htype|]. split; [exact Hdrawn|].
  unfold Model_draw. rewrite Htype.
  pose proof (undrawn_before_drawElements gl' program loc this') as HS.
  match type of HS with
  | undrawn _ ?s => set (S := s) in *; clearbody S
  end.
  destruct HS as (Hd & _ & _ & Hs & Hu & es & He).
  rewrite drawElements_wide_refused
    by (rewrite Hu by congruence; exact Huint').
  unfold gl.bindBuffer. gl_state.
  split; [congruence|]. exists es. now rewrite He.
Qed.

(** The triangle with 32-bit indices on a context without the extension. *)
Lemma wide_indices_need_extension_triangle :
  indices (mesh (object_of wide_triangle)) = Some (Uint32Array [0; 1; 2])
  /\ OES_element_index_uint (supported example_context) = false
  /\ uint_indices example_context = false
  /\ let '(this', gl', console) :=
       Model_upload example_context (object_of wide_triangle) in
     let gl'' := Model_draw gl' (Some 0%nat) example_loc this' in
     console = [warning]
     /\ indexType (mesh this') = Some UNSIGNED_INT
     /\ drawn gl' = drawn example_context
     /\ drawn gl'' = drawn example_context
     /\ exists es, errors gl'' = INVALID_ENUM :: es ++ errors gl'.
Proof.
  split; [reflexivity|]. split; [reflexivity|]. split; [reflexivity|].
  apply (wide_indices_need_extension example_context (object_of wide_triangle)
           [0; 1; 2] (Some 0%nat) example_loc); reflexivity.
Defined.

Lemma store_nth {A : Type} (k : nat) (d : A) (arr : list A) :
  store k (nth k arr d) arr = arr.
Proof.
  revert k; induction arr as [|x rest IH]; intros [|k]; simpl; auto.
  now rewrite IH.
Qed.

Lemma set_buffers_same (gl : WebGL) : set_buffers (buffers gl) gl = gl.
Proof. now destruct gl. Qed.

(** Binding a buffer that holds data of its binding point changes the
    binding only. *)
Lemma bindBuffer_held (target : Target) (b : nat) (d : BufferData) (gl : WebGL) :
  holds gl target (Some b) d ->
  gl.bindBuffer target (Some b) gl = set_binding target (Some b) gl.
Proof.
  intros (b' & [= <-] & Hb & Hobj).
  rewrite bindBuffer_bound by (try assumption; rewrite Hobj; now right).
  replace {| buffer_target := Some target;
             buffer_data := buffer_data (nth b (buffers gl) new_buffer) |}
    with (nth b (buffers gl) new_buffer) by (now rewrite Hobj).
  now rewrite store_nth, set_buffers_same.
Qed.

Lemma useProgram_linked (p : WebGLProgram) (gl : WebGL) :
  linked gl p -> gl.useProgram (Some p) gl = set_CURRENT_PROGRAM (Some p) gl.
Proof.
  intros (obj & Hobj & Hlinked). unfold gl.useProgram.
  now rewrite Hobj, Hlinked.
Qed.

Lemma ToUint32_slot (gl : WebGL) (index : Z) :
  slot gl index ->
  ToUint32 index = index
  /\ (Z.to_nat index < length (vertex_attribs gl))%nat.
Proof.
  intros [Hrange Hlen]. unfold ToUint32.
  rewrite Z.mod_small by assumption. split; [reflexivity|lia].
Qed.

(** Pointing an attribute at the bound buffer and enabling it, in one
    step. *)
Lemma pointer_then_enable (index size : Z) (b : WebGLBuffer) (gl : WebGL) :
  slot gl index -> 1 <= size <= 4 ->
  ARRAY_BUFFER_BINDING gl = Some b ->
  gl.enableVertexAttribArray index
    (gl.vertexAttribPointer index size FLOAT false 0 0 gl)
  = set_vertex_attribs
      (store (Z.to_nat index)
         {| attrib_enabled := true; attrib_buffer := Some b;
            attrib_size := size; attrib_type := FLOAT;
            attrib_normalized := false; attrib_stride := 0;
            attrib_offset := 0 |} (vertex_attribs gl)) gl.
Proof.
  intros Hslot Hsize Hbound.
  destruct (ToUint32_slot gl index Hslot) as [Hindex Hlen].
  unfold gl.vertexAttribPointer, gl.enableVertexAttribArray.
  rewrite Hindex, Hbound.
  assert (Hlt : (Z.to_nat index <? length (vertex_attribs gl))%nat = true)
    by now apply Nat.ltb_lt.
  rewrite Hlt. cbn [negb].
  replace ((1 <=? size) && (size <=? 4))%bool with true by (symmetry; lia).
  cbn [Z.leb Z.eqb Z.compare Z.modulo Z.div_eucl andb negb].
  gl_state. rewrite length_store, Hlt. cbn [negb].
  rewrite nth_store_same by assumption.
  cbn [attrib_enabled attrib_buffer attrib_size attrib_type attrib_normalized
       attrib_stride attrib_offset].
  now rewrite store_store_same.
Qed.

Lemma forallb_three_stores {A : Type} (f : A -> bool) (d : A) (arr : list A)
    (i j k : nat) (x y z : A) :
  f x = true -> f y = true -> f z = true ->
  (forall s, s <> i -> s <> j -> s <> k -> (s < length arr)%nat ->
             f (nth s arr d) = true) ->
  forallb f (store k z (store j y (store i x arr))) = true.
Proof.
  intros Hx Hy Hz Hrest. apply forallb_forall. intros a Hin.
  apply (In_nth _ _ d) in Hin. destruct Hin as (s & Hs & <-).
  rewrite !length_store in Hs.
  destruct (Nat.eq_dec s k) as [->|Hk].
  { rewrite nth_store_same by (rewrite !length_store; assumption). exact Hz. }
  rewrite nth_store_other by assumption.
  destruct (Nat.eq_dec s j) as [->|Hj].
  { rewrite nth_store_same by (rewrite !length_store; assumption). exact Hy. }
  rewrite nth_store_other by assumption.
  destruct (Nat.eq_dec s i) as [->|Hi].
  { rewrite nth_store_same by assumption. exact Hx. }
  rewrite nth_store_other by assumption.
  now apply Hrest.
Qed.

Lemma drawElements_drawn (count : Z) (ty : GLenum) (gl : WebGL)
    (p : WebGLProgram) (e : WebGLBuffer) (d : BufferData) :
  CURRENT_PROGRAM gl = Some p ->
  ELEMENT_ARRAY_BUFFER_BINDING gl = Some e ->
  index_type_enabled gl ty ->
  0 <= count ->
  buffer_data (nth e (buffers gl) new_buffer) = Some d ->
  count * index_size ty <= byteLength d ->
  forallb attrib_ready (vertex_attribs gl) = true ->
  let d :=
    {| draw_program := p; draw_mode := TRIANGLES; draw_count := count;
       draw_type := ty; draw_offset := 0; draw_index_buffer := e;
       draw_attribs := vertex_attribs gl; draw_buffers := buffers gl |} in
  gl.drawElements TRIANGLES count (Some ty) 0 gl
  = set_shown (d :: shown gl) (set_drawn (d :: drawn gl) gl).
Proof.
  intros Hp He Hty Hcount Hd Hlen Hready d'. unfold gl.drawElements.
  replace (match ty with
           | UNSIGNED_SHORT => false
           | UNSIGNED_INT => negb (uint_indices gl)
           end) with false
    by (destruct ty; [reflexivity|]; now rewrite Hty).
  replace (count <? 0) with false by (symmetry; lia).
  cbn [orb Z.ltb Z.compare].
  replace (0 mod index_size ty =? 0) with true by (now destruct ty).
  cbn [negb]. rewrite Hp, He, Hd, Hready.
  replace (0 + count * index_size ty <=? byteLength d) with true
    by (symmetry; lia).
  reflexivity.
Qed.

Lemma closed_mesh_spec (m : Model) (idx : IndexArray) :
  indices m = Some idx -> closed_mesh m = true ->
  indexCount m = Z.of_nat (length (elements idx))
  /\ forall v, In v (elements idx) ->
       0 <= v
       /\ 3 * (v + 1) <= Z.of_nat (length (positions m))
       /\ 3 * (v + 1) <= Z.of_nat (length (normals m))
       /\ 2 * (v + 1) <= Z.of_nat (length (texcoords m)).
Proof.
  unfold closed_mesh. intros -> H.
  apply andb_true_iff in H. destruct H as [Hcount Hall].
  split; [lia|]. intros v Hv.
  rewrite forallb_forall in Hall. specialize (Hall v Hv). lia.
Qed.

Lemma byteLength_indices (idx : IndexArray) :
  byteLength (IndexData idx)
  = Z.of_nat (length (elements idx)) * index_size (type_of_indices idx).
Proof. destruct idx; cbn [byteLength elements type_of_indices index_size]; lia. Qed.

(** The attribute that [draw] sets up at a location. *)
Lemma attrib_ready_disabled (gl : WebGL) (loc : Locations) (s : nat) :
  only_enabled gl loc ->
  0 <= aVertex loc -> 0 <= aNormal loc -> 0 <= aTexcoord loc ->
  s <> Z.to_nat (aVertex loc) -> s <> Z.to_nat (aNormal loc) ->
  s <> Z.to_nat (aTexcoord loc) ->
  attrib_enabled (nth s (vertex_attribs gl) new_attrib) = false.
Proof. intros Honly ? ? ? ? ? ?. apply Honly; lia. Qed.

Ltac draw_side :=
  first
    [ assumption
    | lia
    | reflexivity
    | unfold holds, slot, index_type_enabled, linked in *; gl_state;
      rewrite ?length_store; first [assumption | reflexivity | lia] ].

(** The state [draw] leaves, in one assignment. *)
Lemma Model_draw_state (gl : WebGL) (p : WebGLProgram) (loc : Locations)
    (this : ModelObject) (idx : IndexArray) (bp bn bu bi : WebGLBuffer) :
  posVBO this = Some bp -> nrmVBO this = Some bn -> uvVBO this = Some bu ->
  ibo this = Some bi ->
  holds gl ARRAY_BUFFER (Some bp) (Float32Data (positions (mesh this))) ->
  holds gl ARRAY_BUFFER (Some bn) (Float32Data (normals (mesh this))) ->
  holds gl ARRAY_BUFFER (Some bu) (Float32Data (texcoords (mesh this))) ->
  holds gl ELEMENT_ARRAY_BUFFER (Some bi) (IndexData idx) ->
  indexType (mesh this) = Some (type_of_indices idx) ->
  indexCount (mesh this) = Z.of_nat (length (elements idx)) ->
  locations_ok gl loc -> only_enabled gl loc -> linked gl p ->
  index_type_enabled gl (type_of_indices idx) ->
  let attribs :=
    store (Z.to_nat (aTexcoord loc))
      {| attrib_enabled := true; attrib_buffer := Some bu; attrib_size := 2;
         attrib_type := FLOAT; attrib_normalized := false; attrib_stride := 0;
         attrib_offset := 0 |}
      (store (Z.to_nat (aNormal loc))
         {| attrib_enabled := true; attrib_buffer := Some bn; attrib_size := 3;
            attrib_type := FLOAT; attrib_normalized := false;
            attrib_stride := 0; attrib_offset := 0 |}
         (store (Z.to_nat (aVertex loc))
            {| attrib_enabled := true; attrib_buffer := Some bp;
               attrib_size := 3; attrib_type := FLOAT;
               attrib_normalized := false; attrib_stride := 0;
               attrib_offset := 0 |} (vertex_attribs gl))) in
  let d :=
    {| draw_program := p; draw_mode := TRIANGLES;
       draw_count := Z.of_nat (length (elements idx));
       draw_type := type_of_indices idx; draw_offset := 0;
       draw_index_buffer := bi; draw_attribs := attribs;
       draw_buffers := buffers gl |} in
  Model_draw gl (Some p) loc this
  = set_ELEMENT_ARRAY_BUFFER_BINDING None
      (set_ARRAY_BUFFER_BINDING None
         (set_shown (d :: shown gl)
            (set_drawn (d :: drawn gl)
               (set_vertex_attribs attribs
                  (set_CURRENT_PROGRAM (Some p) gl))))).
Proof.
  intros Ep En Eu Ei Hpos Hnrm Huv Hibo Htype Hcount
    (Sv & Sn & St & Dvn & Dvt & Dnt) Honly Hlinked Henabled attribs d.
  unfold Model_draw. rewrite Ep, En, Eu, Ei, Htype, Hcount.
  rewrite useProgram_linked by assumption.
  rewrite (bindBuffer_held ARRAY_BUFFER bp (Float32Data (positions (mesh this))))
    by draw_side.
  rewrite (pointer_then_enable (aVertex loc) 3 bp) by draw_side.
  rewrite (bindBuffer_held ARRAY_BUFFER bn (Float32Data (normals (mesh this))))
    by draw_side.
  rewrite (pointer_then_enable (aNormal loc) 3 bn) by draw_side.
  rewrite (bindBuffer_held ARRAY_BUFFER bu (Float32Data (texcoords (mesh this))))
    by draw_side.
  rewrite (pointer_then_enable (aTexcoord loc) 2 bu) by draw_side.
  rewrite (bindBuffer_held ELEMENT_ARRAY_BUFFER bi (IndexData idx))
    by draw_side.
  destruct Hibo as (b & [= <-] & Li & Bi).
  rewrite (drawElements_drawn _ _ _ p bi (IndexData idx)).
  - reflexivity.
  - reflexivity.
  - reflexivity.
  - draw_side.
  - lia.
  - gl_state. now rewrite Bi.
  - rewrite byteLength_indices. lia.
  - gl_state. destruct Sv as [[? ?] ?], Sn as [[? ?] ?], St as [[? ?] ?].
    apply (forallb_three_stores _ new_attrib); try reflexivity.
    intros s ? ? ? _. unfold attrib_ready.
    now rewrite (attrib_ready_disabled gl loc s).
Qed.

Lemma attrib_in_range_floats (buffers : list BufferObject) (vertices : list Z)
    (b : WebGLBuffer) (size : Z) (data : list R) :
  buffer_data (nth b buffers new_buffer) = Some (Float32Data data) ->
  0 < size ->
  (forall v, In v vertices ->
             0 <= v /\ size * (v + 1) <= Z.of_nat (length data)) ->
  attrib_in_range buffers vertices
    {| attrib_enabled := true; attrib_buffer := Some b; attrib_size := size;
       attrib_type := FLOAT; attrib_normalized := false; attrib_stride := 0;
       attrib_offset := 0 |} = true.
Proof.
  intros Hdata Hsize Hall. unfold attrib_in_range.
  cbn [attrib_enabled attrib_buffer attrib_size attrib_stride attrib_offset].
  rewrite Hdata. cbn [byteLength Z.eqb].
  apply forallb_forall. intros v Hv. destruct (Hall v Hv). lia.
Qed.

Lemma draw_indices_whole (bufs : list BufferObject) (e : WebGLBuffer)
    (idx : IndexArray) (p : WebGLProgram) (attribs : list VertexAttrib) :
  buffer_data (nth e bufs new_buffer) = Some (IndexData idx) ->
  draw_indices
    {| draw_program := p; draw_mode := TRIANGLES;
       draw_count := Z.of_nat (length (elements idx));
       draw_type := type_of_indices idx; draw_offset := 0;
       draw_index_buffer := e; draw_attribs := attribs;
       draw_buffers := bufs |} = Some (elements idx).
Proof.
  intros H. unfold draw_indices.
  cbn [draw_index_buffer draw_buffers draw_type draw_count draw_offset].
  rewrite H, Nat2Z.id.
  destruct idx as [data|data];
    cbn [type_of_indices elements index_size Z.div Z.div_eucl Z.to_nat skipn];
    now rewrite firstn_all.
Qed.

(** What [draw] reads when the mesh is on the GPU. *)
Lemma Model_draw_reads (gl : WebGL) (p : WebGLProgram)
    (loc : Locations) (this : ModelObject) (idx : IndexArray) :
  uploaded gl this ->
  indices (mesh this) = Some idx ->
  closed_mesh (mesh this) = true ->
  locations_ok gl loc ->
  only_enabled gl loc ->
  linked gl p ->
  index_type_enabled gl (type_of_indices idx) ->
  let gl' := Model_draw gl (Some p) loc this in
  exists d,
    drawn gl' = d :: drawn gl
    /\ errors gl' = errors gl
    /\ draw_program d = p
    /\ draw_count d = Z.of_nat (length (elements idx))
    /\ draw_indices d = Some (elements idx)
    /\ draw_attribute d (aVertex loc) = Some (3, positions (mesh this))
    /\ draw_attribute d (aNormal loc) = Some (3, normals (mesh this))
    /\ draw_attribute d (aTexcoord loc) = Some (2, texcoords (mesh this))
    /\ draw_in_range d = true
    /\ buffers gl' = buffers gl
    /\ ARRAY_BUFFER_BINDING gl' = None
    /\ ELEMENT_ARRAY_BUFFER_BINDING gl' = None
    /\ only_enabled gl' loc
    /\ shown gl' = d :: shown gl.
Proof.
  intros (idx' & Hidx' & Htype & Hpos & Hnrm & Huv & Hibo) Hidx Hclosed
    Hloc Honly Hlinked Henabled gl'.
  rewrite Hidx in Hidx'. injection Hidx' as <-.
  destruct (closed_mesh_spec _ _ Hidx Hclosed) as [Hcount Hrange].
  assert (Hpos' := Hpos). assert (Hnrm' := Hnrm). assert (Huv' := Huv).
  assert (Hibo' := Hibo).
  destruct Hpos' as (bp & Ep & Lp & Bp), Hnrm' as (bn & En & Ln & Bn),
    Huv' as (bu & Eu & Lu & Bu), Hibo' as (bi & Ei & Li & Bi).
  rewrite Ep in Hpos. rewrite En in Hnrm. rewrite Eu in Huv. rewrite Ei in Hibo.
  pose proof (Model_draw_state gl p loc this idx bp bn bu bi Ep En Eu Ei
                Hpos Hnrm Huv Hibo Htype Hcount Hloc Honly Hlinked Henabled)
    as Hstate.
  cbv zeta in Hstate. fold gl' in Hstate.
  destruct Hloc as (Sv & Sn & St & Dvn & Dvt & Dnt).
  destruct (ToUint32_slot gl _ Sv) as [Uv Lv], (ToUint32_slot gl _ Sn) as [Un Lnn],
    (ToUint32_slot gl _ St) as [Ut Lt].
  destruct Sv as [[Pv ?] ?], Sn as [[Pn ?] ?], St as [[Pt ?] ?].
  assert (Nvn : Z.to_nat (aVertex loc) <> Z.to_nat (aNormal loc)) by lia.
  assert (Nvt : Z.to_nat (aVertex loc) <> Z.to_nat (aTexcoord loc)) by lia.
  assert (Nnt : Z.to_nat (aNormal loc) <> Z.to_nat (aTexcoord loc)) by lia.
  match type of Hstate with
  | _ = set_ELEMENT_ARRAY_BUFFER_BINDING _
          (set_ARRAY_BUFFER_BINDING _ (set_shown (?d :: _) _)) =>
      exists d
  end.
  rewrite Hstate. gl_state.
  split; [reflexivity|]. split; [reflexivity|]. split; [reflexivity|].
  split; [reflexivity|].
  split.
  { apply draw_indices_whole. now rewrite Bi. }
  split.
  { unfold draw_attribute. cbn [draw_attribs draw_buffers]. rewrite Uv.
    rewrite !nth_store_other by congruence.
    rewrite nth_store_same by assumption.
    cbn [attrib_enabled attrib_buffer attrib_size]. now rewrite Bp. }
  split.
  { unfold draw_attribute. cbn [draw_attribs draw_buffers]. rewrite Un.
    rewrite !nth_store_other by congruence.
    rewrite nth_store_same by (rewrite ?length_store; assumption).
    cbn [attrib_enabled attrib_buffer attrib_size]. now rewrite Bn. }
  split.
  { unfold draw_attribute. cbn [draw_attribs draw_buffers]. rewrite Ut.
    rewrite nth_store_same by (rewrite ?length_store; assumption).
    cbn [attrib_enabled attrib_buffer attrib_size]. now rewrite Bu. }
  split.
  { unfold draw_in_range.
    rewrite draw_indices_whole by (now rewrite Bi).
    cbn [draw_attribs draw_buffers].
    apply (forallb_three_stores _ new_attrib).
    - apply (attrib_in_range_floats _ _ _ _ (positions (mesh this)));
        [now rewrite Bp|lia|].
      intros v Hv. destruct (Hrange v Hv) as (? & ? & ? & ?). lia.
    - apply (attrib_in_range_floats _ _ _ _ (normals (mesh this)));
        [now rewrite Bn|lia|].
      intros v Hv. destruct (Hrange v Hv) as (? & ? & ? & ?). lia.
    - apply (attrib_in_range_floats _ _ _ _ (texcoords (mesh this)));
        [now rewrite Bu|lia|].
      intros v Hv. destruct (Hrange v Hv) as (? & ? & ? & ?). lia.
    - intros s ? ? ? _. unfold attrib_in_range.
      now rewrite (attrib_ready_disabled gl loc s). }
  split; [reflexivity|]. split; [reflexivity|]. split; [reflexivity|].
  split; [|reflexivity].
  intros s Hv Hn Ht. gl_state.
  assert (s <> Z.to_nat (aVertex loc)) by (clear - Hv Pv; lia).
  assert (s <> Z.to_nat (aNormal loc)) by (clear - Hn Pn; lia).
  assert (s <> Z.to_nat (aTexcoord loc)) by (clear - Ht Pt; lia).
  rewrite !nth_store_other by assumption. now apply Honly.
Qed.

(** X10.  When the mesh is on the GPU and closed, the three locations are
    different slots and the only ones enabled, the program is linked and
    the context accepts the index type, [draw] executes one
    [drawElements] without an error: it reads all indices of the mesh, the
    attributes at the three locations read the positions and normals by 3
    and the texture coordinates by 2, every vertex fetched lies inside the
    attribute arrays, and the buffers are unchanged and unbound
    afterwards. *)
Theorem draw_reads_uploaded_mesh (gl : WebGL) (p : WebGLProgram)
    (loc : Locations) (this : ModelObject) (idx : IndexArray) :
  uploaded gl this ->
  indices (mesh this) = Some idx ->
  closed_mesh (mesh this) = true ->
  locations_ok gl loc ->
  only_enabled gl loc ->
  linked gl p ->
  index_type_enabled gl (type_of_indices idx) ->
  let gl' := Model_draw gl (Some p) loc this in
  exists d,
    drawn gl' = d :: drawn gl
    /\ errors gl' = errors gl
    /\ draw_program d = p
    /\ draw_count d = Z.of_nat (length (elements idx))
    /\ draw_indices d = Some (elements idx)
    /\ draw_attribute d (aVertex loc) = Some (3, positions (mesh this))
    /\ draw_attribute d (aNormal loc) = Some (3, normals (mesh this))
    /\ draw_attribute d (aTexcoord loc) = Some (2, texcoords (mesh this))
    /\ draw_in_range d = true
    /\ buffers gl' = buffers gl
    /\ ARRAY_BUFFER_BINDING gl' = None
    /\ ELEMENT_ARRAY_BUFFER_BINDING gl' = None
    /\ only_enabled gl' loc
    /\ shown gl' = d :: shown gl.
Proof. exact (Model_draw_reads gl p loc this idx). Qed.

(** The triangle, uploaded and drawn. *)
Lemma draw_reads_uploaded_triangle :
  let gl := snd (fst (Model_upload example_context (object_of triangle))) in
  let this := fst (fst (Model_upload example_context (object_of triangle))) in
  uploaded gl this
  /\ indices (mesh this) = Some (Uint16Array [0; 1; 2])
  /\ closed_mesh (mesh this) = true
  /\ locations_ok gl example_loc
  /\ only_enabled gl example_loc
  /\ linked gl 0%nat
  /\ index_type_enabled gl UNSIGNED_SHORT
  /\ exists d,
       drawn (Model_draw gl (Some 0%nat) example_loc this) = d :: drawn gl
       /\ errors (Model_draw gl (Some 0%nat) example_loc this) = errors gl
       /\ draw_indices d = Some [0; 1; 2]
       /\ draw_in_range d = true.
Proof.
  intros gl this.
  assert (Hown : owns example_context (object_of triangle))
    by (repeat split).
  pose proof (Model_upload_stores example_context (object_of triangle)
                (Uint16Array [0; 1; 2]) Hown eq_refl) as Hstores.
  pose proof (Model_upload_resolves example_context (object_of triangle))
    as (Hundrawn & _ & _).
  subst gl this.
  destruct (Model_upload example_context (object_of triangle))
    as [[this gl] console].
  cbn [fst snd] in *.
  destruct Hstores as (Hup & _ & Hmesh & _ & _ & _ & _ & Hattr & _).
  destruct Hundrawn as (_ & Hprog & _).
  assert (Hidx : indices (mesh this) = Some (Uint16Array [0; 1; 2]))
    by (rewrite Hmesh; reflexivity).
  assert (Hclosed : closed_mesh (mesh this) = true)
    by (rewrite Hmesh; reflexivity).
  assert (Hloc : locations_ok gl example_loc).
  { unfold locations_ok, slot. rewrite Hattr.
    change (length (vertex_attribs example_context)) with 8%nat.
    cbn [example_loc aVertex aNormal aTexcoord]. lia. }
  assert (Honly : only_enabled gl example_loc).
  { intros i _ _ _. rewrite Hattr.
    change (vertex_attribs example_context) with (repeat new_attrib 8).
    do 8 (destruct i as [|i]; [reflexivity|]). now destruct i. }
  assert (Hlinked : linked gl 0%nat).
  { unfold linked. rewrite Hprog. eexists. split; reflexivity. }
  assert (Htype : index_type_enabled gl (type_of_indices (Uint16Array [0; 1; 2])))
    by (intros H; discriminate H).
  split; [exact Hup|]. split; [exact Hidx|]. split; [exact Hclosed|].
  split; [exact Hloc|]. split; [exact Honly|]. split; [exact Hlinked|].
  split; [exact Htype|].
  destruct (draw_reads_uploaded_mesh gl 0%nat example_loc this
              (Uint16Array [0; 1; 2]) Hup Hidx Hclosed Hloc Honly Hlinked
              Htype)
    as (d & Hd & He & _ & _ & Hi & _ & _ & _ & Hr & _).
  exists d. repeat split; assumption.
Defined.

(** ** [rebuildSurface] *)

Lemma closed_built_mesh (p : Params.t) (this : Model) (ty : option GLenum) :
  closed_mesh
    {| positions := positions (built_mesh p this);
       normals := normals (built_mesh p this);
       texcoords := texcoords (built_mesh p this);
       indices := indices (built_mesh p this);
       indexCount := indexCount (built_mesh p this);
       indexType := ty |} = true.
Proof.
  pose proof (effective_Nr_min p) as HNr.
  pose proof (effective_Nu_min p) as HNu.
  destruct (built_mesh_lengths p this) as (Lp & Ln & Lt & Li).
  unfold closed_mesh. cbn [indices indexCount positions normals texcoords].
  cbn [built_mesh indices indexCount].
  apply andb_true_intro. split; [apply Z.eqb_refl|].
  apply forallb_forall. intros v Hv.
  apply built_indices_in_range in Hv; [|lia|lia].
  rewrite Lp, Ln, Lt.
  assert (v + 1 <= effective_Nr p * effective_Nu p) by lia.
  assert (3 * (v + 1) <= 3 * effective_Nr p * effective_Nu p) by nia.
  assert (2 * (v + 1) <= 2 * effective_Nr p * effective_Nu p) by nia.
  lia.
Qed.

(** X12.  When the surface owns its buffers and the engine grants the
    arrays, [rebuildSurface] returns with the mesh that [build] makes for
    the parameters on the GPU: the surface owns its buffers again and its
    mesh is closed, one buffer was created for each handle that was [null],
    and nothing was drawn, no error generated, no program or vertex
    attribute changed. *)
Theorem rebuildSurface_uploads (alloc : ArrayKind -> Z -> bool)
    (globals : Main.t) (gl : WebGL) (this : ModelObject) :
  let p := Main.params globals in
  Main.surface globals = Some this ->
  Main.gl globals = Some gl ->
  owns gl this ->
  allocations_granted alloc (effective_Nr p) (effective_Nu p) = true ->
  exists this' gl' console,
    rebuildSurface alloc globals
    = Return (Main.set_gl (Some gl') (Main.set_surface (Some this') globals),
              console)
    /\ mesh this' = fst (upload (supported gl) (built_mesh p (mesh this)))
    /\ console = snd (upload (supported gl) (built_mesh p (mesh this)))
    /\ uploaded gl' this' /\ owns gl' this'
    /\ closed_mesh (mesh this') = true
    /\ length (buffers gl')
       = (length (buffers gl) + missing (posVBO this) + missing (nrmVBO this)
          + missing (uvVBO this) + missing (ibo this))%nat
    /\ errors gl' = errors gl
    /\ drawn gl' = drawn gl
    /\ programs gl' = programs gl
    /\ vertex_attribs gl' = vertex_attribs gl
    /\ uint_indices gl'
       = (uint_indices gl
          || (effective_Nr p * effective_Nu p >? 65535)
             && OES_element_index_uint (supported gl))%bool.
Proof.
  intros p Hsurface Hgl Hown Halloc.
  unfold rebuildSurface, Model_build. rewrite Hsurface, Hgl.
  rewrite build_closed_form. fold p. rewrite Halloc. cbn [bind].
  set (built := {| mesh := built_mesh p (mesh this); posVBO := posVBO this;
                   nrmVBO := nrmVBO this; uvVBO := uvVBO this;
                   ibo := ibo this |}).
  assert (Hown' : owns gl built) by exact Hown.
  pose proof (Model_upload_stores gl built _ Hown' eq_refl) as Hstores.
  pose proof (Model_upload_resolves gl built) as (Hundrawn & _ & _).
  pose proof (upload_creates_buffers gl built) as Hcreated.
  destruct (Model_upload gl built) as [[this' gl'] console].
  cbn [fst snd] in *.
  destruct Hstores as (U & O & M & C & _ & _ & E & A & I & _).
  rewrite instanceof_built_indices in I.
  destruct Hundrawn as (D & P & _).
  destruct Hcreated as (L & _).
  exists this', gl', console.
  split; [reflexivity|]. split; [exact M|]. split; [exact C|].
  split; [exact U|]. split; [exact O|].
  split.
  { rewrite M. unfold upload.
    destruct (instanceof_Uint32Array _); cbn [fst]; apply closed_built_mesh. }
  repeat split; assumption.
Qed.

(** The first [rebuildSurface] of the example grid creates the four buffers. *)
Lemma rebuildSurface_uploads_scenario :
  Main.surface example_globals = Some Model_constructor
  /\ Main.gl example_globals = Some example_context
  /\ owns example_context Model_constructor
  /\ allocations_granted es_alloc (effective_Nr scenario)
       (effective_Nu scenario) = true
  /\ exists this' gl' console,
       rebuildSurface es_alloc example_globals
       = Return (Main.set_gl (Some gl')
                   (Main.set_surface (Some this') example_globals), console)
       /\ uploaded gl' this' /\ owns gl' this'
       /\ closed_mesh (mesh this') = true
       /\ length (buffers gl') = 4%nat.
Proof.
  assert (Hown : owns example_context Model_constructor) by (repeat split).
  split; [reflexivity|]. split; [reflexivity|]. split; [exact Hown|].
  split; [reflexivity|].
  destruct (rebuildSurface_uploads es_alloc example_globals example_context
              Model_constructor eq_refl eq_refl Hown eq_refl)
    as (this' & gl' & console & Hr & _ & _ & U & O & C & L & _).
  exists this', gl', console.
  split; [exact Hr|]. split; [exact U|]. split; [exact O|].
  split; [exact C|]. exact L.
Defined.



(** ** [createMipTexture] *)

Lemma nth_last_of {A : Type} (front : list A) (x d : A) :
  nth (length front) (front ++ [x]) d = x.
Proof. now rewrite nth_middle. Qed.

Lemma store_last_of {A : Type} (front : list A) (x y : A) :
  store (length front) y (front ++ [x]) = front ++ [y].
Proof. apply store_cursor. Qed.

Lemma texImage2D_bound (level : Z) (source : Canvas) (gl : WebGL)
    (front : list TextureObject) (t : TextureObject) (flip : bool) :
  textures gl = front ++ [t] ->
  TEXTURE_BINDING_2D gl = Some (length front) ->
  unpack_flip_y gl = flip ->
  0 <= level ->
  power_of_two (canvas_width source) && power_of_two (canvas_height source)
  = true ->
  gl.texImage2D TEXTURE_2D level RGBA RGBA UNSIGNED_BYTE source gl
  = set_textures
      (front ++ [add_image {| image_level := level; image_source := source;
                              image_flipped := flip |} t]) gl.
Proof.
  intros Ht Hb Hf Hlevel Hpow. unfold gl.texImage2D.
  replace (level <? 0) with false by (symmetry; lia).
  rewrite Hpow, Hb, Ht, Hf. cbn [negb]. rewrite andb_false_r.
  now rewrite nth_last_of, store_last_of.
Qed.

Lemma texParameteri_bound (pname : TexParameter) (param : TexValue)
    (gl : WebGL) (front : list TextureObject) (t : TextureObject) :
  textures gl = front ++ [t] ->
  TEXTURE_BINDING_2D gl = Some (length front) ->
  tex_value_ok pname param = true ->
  gl.texParameteri TEXTURE_2D pname param gl
  = set_textures (front ++ [set_tex_parameter pname param t]) gl.
Proof.
  intros Ht Hb Hok. unfold gl.texParameteri.
  rewrite Hok, Hb, Ht. cbn [negb].
  now rewrite nth_last_of, store_last_of.
Qed.

Lemma power_of_two_mip_size (k : nat) :
  (k <= 8)%nat -> power_of_two (Z.shiftr 256 (Z.of_nat k)) = true.
Proof.
  intros Hk. do 9 (destruct k as [|k]; [reflexivity|]). lia.
Qed.

(** The loop over the levels, on the texture that is bound. *)
Lemma mip_loop (levels : list nat) :
  forall (gl : WebGL) (front : list TextureObject) (t : TextureObject),
    textures gl = front ++ [t] ->
    TEXTURE_BINDING_2D gl = Some (length front) ->
    unpack_flip_y gl = true ->
    (forall k, In k levels -> (k <= 8)%nat) ->
    fold_left
      (fun gl level =>
         let level := Z.of_nat level in
         let size := Z.shiftr 256 level in
         let img := makeMipCanvas size level in
         gl.texImage2D TEXTURE_2D level RGBA RGBA UNSIGNED_BYTE img gl)
      levels gl
    = set_textures
        (front
         ++ [fold_left
               (fun t level =>
                  add_image
                    {| image_level := Z.of_nat level;
                       image_source :=
                         makeMipCanvas (Z.shiftr 256 (Z.of_nat level))
                           (Z.of_nat level);
                       image_flipped := true |} t)
               levels t]) gl.
Proof.
  induction levels as [|k rest IH]; intros gl front t Ht Hb Hf Hall.
  - cbn [fold_left]. rewrite <- Ht. now destruct gl.
  - cbn [fold_left]. cbv zeta.
    rewrite (texImage2D_bound _ _ gl front t true); try assumption; try lia.
    + rewrite (IH _ front
                 (add_image
                    {| image_level := Z.of_nat k;
                       image_source :=
                         makeMipCanvas (Z.shiftr 256 (Z.of_nat k)) (Z.of_nat k);
                       image_flipped := true |} t));
        try reflexivity; try assumption.
      intros k' Hk'. apply Hall. now right.
    + change (canvas_width (makeMipCanvas ?s ?l)) with s.
      change (canvas_height (makeMipCanvas ?s ?l)) with s.
      rewrite power_of_two_mip_size by (apply Hall; now left). reflexivity.
Qed.


Lemma createMipTexture_state (gl : WebGL) :
  createMipTexture gl
  = (length (textures gl),
     set_TEXTURE_BINDING_2D None
       (set_textures (textures gl ++ [mip_texture])
          (set_unpack_flip_y true gl))).
Proof.
  unfold createMipTexture, gl.createTexture. cbv zeta.
  unfold gl.bindTexture at 2. gl_state.
  replace (length (textures gl) <? length (textures gl ++ [new_texture]))%nat
    with true by (symmetry; apply Nat.ltb_lt; rewrite length_app; cbn; lia).
  unfold gl.pixelStorei.
  rewrite (mip_loop _ _ (textures gl) new_texture);
    [|reflexivity|reflexivity|reflexivity|].
  2:{ intros k Hk. unfold range in Hk. apply in_seq in Hk.
      change (Z.to_nat (Z.log2 256 + 1)) with 9%nat in Hk. lia. }
  rewrite (texParameteri_bound TEXTURE_WRAP_S REPEAT _ (textures gl) _)
    by reflexivity.
  rewrite (texParameteri_bound TEXTURE_WRAP_T REPEAT _ (textures gl) _)
    by reflexivity.
  rewrite (texParameteri_bound TEXTURE_MIN_FILTER NEAREST_MIPMAP_NEAREST _
             (textures gl) _) by reflexivity.
  rewrite (texParameteri_bound TEXTURE_MAG_FILTER LINEAR _ (textures gl) _)
    by reflexivity.
  reflexivity.
Qed.

(** X14.  [createMipTexture] returns a new texture with the nine levels
    0..8 of sizes 256, 128, ..., 1, each a flipped image of
    [makeMipCanvas]: the texture is mipmap complete; it repeats in both
    directions, minifies by NEAREST_MIPMAP_NEAREST and magnifies by LINEAR.
    The call leaves TEXTURE_2D unbound and UNPACK_FLIP_Y_WEBGL switched on,
    and generates no error. *)
Theorem createMipTexture_complete (gl : WebGL) :
  let (tex, gl') := createMipTexture gl in
  tex = length (textures gl)
  /\ textures gl' = textures gl ++ [mip_texture]
  /\ mip_complete mip_texture = true
  /\ map (fun img => (image_level img, canvas_width (image_source img),
                      canvas_height (image_source img)))
       (tex_images mip_texture)
     = [ (8, 1, 1); (7, 2, 2); (6, 4, 4); (5, 8, 8); (4, 16, 16);
         (3, 32, 32); (2, 64, 64); (1, 128, 128); (0, 256, 256) ]
  /\ TEXTURE_BINDING_2D gl' = None
  /\ unpack_flip_y gl' = true
  /\ errors gl' = errors gl.
Proof.
  rewrite createMipTexture_state. gl_state.
  repeat split; reflexivity.
Qed.

(** ** [createProgram] *)

Lemma nth_error_last_of {A : Type} (front : list A) (x : A) :
  nth_error (front ++ [x]) (length front) = Some x.
Proof.
  rewrite nth_error_app2 by lia. now rewrite Nat.sub_diag.
Qed.

Lemma nth_error_before_last {A : Type} (front : list A) (x y : A) :
  nth_error ((front ++ [x]) ++ [y]) (length front) = Some x.
Proof.
  rewrite nth_error_app1 by (rewrite length_app; cbn; lia).
  apply nth_error_last_of.
Qed.

(** A new shader, given its source and compiled. *)
Lemma compile_new_shader (type : ShaderType) (source : string) (gl : WebGL) :
  gl.compileShader (length (shaders gl))
    (gl.shaderSource (length (shaders gl)) source
       (set_shaders
          (shaders gl
           ++ [ {| shader_type := type; shader_source := EmptyString;
                   shader_compiled := false; shader_log := EmptyString |} ])
          gl))
  = set_shaders (shaders gl ++ [compiled_shader (driver gl) type source]) gl.
Proof.
  unfold gl.shaderSource. gl_state.
  rewrite nth_error_last_of, store_last_of.
  unfold gl.compileShader. gl_state.
  rewrite nth_error_last_of. cbn [shader_type shader_source].
  unfold compiled_shader.
  destruct (driver_compile (driver gl) type source) as [status log].
  gl_state. now rewrite store_last_of.
Qed.

Lemma getShaderParameter_last (front : list ShaderObject) (s : ShaderObject)
    (gl : WebGL) :
  gl.getShaderParameter (length front) COMPILE_STATUS
    (set_shaders (front ++ [s]) gl) = Some (shader_compiled s).
Proof. unfold gl.getShaderParameter. gl_state. now rewrite nth_error_last_of. Qed.

Lemma getShaderInfoLog_last (front : list ShaderObject) (s : ShaderObject)
    (gl : WebGL) :
  gl.getShaderInfoLog (length front) (set_shaders (front ++ [s]) gl)
  = Some (shader_log s).
Proof. unfold gl.getShaderInfoLog. gl_state. now rewrite nth_error_last_of. Qed.

(** A new program, given a vertex and a fragment shader and linked. *)
Lemma link_new_program (gl : WebGL) (front : list ShaderObject)
    (vs fs : ShaderObject) :
  shaders gl = (front ++ [vs]) ++ [fs] ->
  shader_type vs = VERTEX_SHADER -> shader_type fs = FRAGMENT_SHADER ->
  let prog := length (programs gl) in
  let created :=
    set_programs
      (programs gl ++ [ {| program_shaders := []; program_linked := false;
                           program_log := EmptyString |} ]) gl in
  gl.linkProgram prog
    (gl.attachShader prog (S (length front))
       (gl.attachShader prog (length front) created))
  = set_programs
      (programs gl
       ++ [ {| program_shaders := [length front; S (length front)];
               program_linked :=
                 shader_compiled vs && shader_compiled fs
                 && fst (driver_link (driver gl) [vs; fs]);
               program_log := snd (driver_link (driver gl) [vs; fs]) |} ]) gl.
Proof.
  intros Hsh Hv Hf prog created.
  assert (Hvs : nth_error (shaders gl) (length front) = Some vs)
    by (rewrite Hsh; apply nth_error_before_last).
  assert (Hfs : nth_error (shaders gl) (S (length front)) = Some fs).
  { rewrite Hsh.
    replace (S (length front)) with (length (front ++ [vs]))
      by (rewrite length_app; cbn; lia).
    apply nth_error_last_of. }
  unfold created, prog.
  unfold gl.attachShader at 2. gl_state.
  rewrite nth_error_last_of, Hvs. cbn [program_shaders existsb].
  rewrite store_last_of. cbn [program_linked program_log app].
  unfold gl.attachShader. gl_state.
  rewrite nth_error_last_of, Hfs. cbn [program_shaders existsb].
  rewrite Hvs, Hv, Hf. cbn [orb].
  rewrite store_last_of. cbn [program_linked program_log app].
  unfold gl.linkProgram. gl_state.
  rewrite nth_error_last_of. cbn [program_shaders flat_map].
  rewrite Hvs, Hfs. cbn [app].
  destruct (driver_link (driver gl) [vs; fs]) as [status log].
  gl_state. rewrite store_last_of. cbn [forallb fst snd].
  now rewrite andb_true_r.
Qed.

Lemma getProgramParameter_last (front : list ProgramObject) (p : ProgramObject)
    (gl : WebGL) :
  gl.getProgramParameter (length front) LINK_STATUS
    (set_programs (front ++ [p]) gl) = Some (program_linked p).
Proof. unfold gl.getProgramParameter. gl_state. now rewrite nth_error_last_of. Qed.

Lemma getProgramInfoLog_last (front : list ProgramObject) (p : ProgramObject)
    (gl : WebGL) :
  gl.getProgramInfoLog (length front) (set_programs (front ++ [p]) gl)
  = Some (program_log p).
Proof. unfold gl.getProgramInfoLog. gl_state. now rewrite nth_error_last_of. Qed.

(** The result of [createProgram] and the state it leaves. *)
Lemma createProgram_state (gl : WebGL) (vShader fShader : string) :
  let vs := compiled_shader (driver gl) VERTEX_SHADER vShader in
  let fs := compiled_shader (driver gl) FRAGMENT_SHADER fShader in
  let lk := driver_link (driver gl) [vs; fs] in
  createProgram gl vShader fShader
  = if negb (shader_compiled vs) then
      (Thrown ("Vertex shader error: " ++ shader_log vs),
       set_shaders (shaders gl ++ [vs]) gl)
    else if negb (shader_compiled fs) then
      (Thrown ("Fragment shader error: " ++ shader_log fs),
       set_shaders (shaders gl ++ [vs; fs]) gl)
    else
      (if fst lk then Returned (length (programs gl))
       else Thrown ("Program link error: " ++ snd lk),
       set_programs
         (programs gl
          ++ [ {| program_shaders :=
                    [length (shaders gl); S (length (shaders gl))];
                  program_linked := fst lk; program_log := snd lk |} ])
         (set_shaders (shaders gl ++ [vs; fs]) gl)).
Proof.
  intros vs fs lk.
  unfold createProgram, gl.createShader. cbv beta iota zeta.
  rewrite compile_new_shader. fold vs.
  rewrite getShaderParameter_last, getShaderInfoLog_last.
  cbn [falsy concat_value].
  destruct (shader_compiled vs) eqn:Hvs; cbn [negb]; [|reflexivity].
  set (gl1 := set_shaders (shaders gl ++ [vs]) gl).
  rewrite (compile_new_shader FRAGMENT_SHADER fShader gl1).
  change (driver gl1) with (driver gl). fold fs.
  rewrite getShaderParameter_last, getShaderInfoLog_last.
  cbn [falsy concat_value].
  destruct (shader_compiled fs) eqn:Hfs; cbn [negb].
  2:{ unfold gl1. gl_state. now rewrite <- app_assoc. }
  set (gl2 := set_shaders (shaders gl1 ++ [fs]) gl1).
  unfold gl.createProgram. cbv beta iota zeta.
  change (length (shaders gl1)) with (length (shaders gl ++ [vs])).
  replace (length (shaders gl ++ [vs])) with (S (length (shaders gl)))
    by (rewrite length_app; cbn; lia).
  rewrite (link_new_program gl2 (shaders gl) vs fs) by reflexivity.
  change (driver gl2) with (driver gl). fold lk.
  rewrite Hvs, Hfs. cbn [andb].
  rewrite getProgramParameter_last, getProgramInfoLog_last.
  cbn [program_linked program_log falsy concat_value].
  unfold gl2, gl1. gl_state. rewrite <- app_assoc. cbn [app].
  now destruct (fst lk).
Qed.

(** X15.  [createProgram] returns a program exactly when both shaders
    compile and the program links; the program is then linked in the
    context, with the two shaders attached.  Otherwise it throws at the
    first stage that fails, with the message 'Vertex shader error: ',
    'Fragment shader error: ' or 'Program link error: ' followed by the
    information log of that stage; a vertex shader that fails keeps the
    fragment shader and the program from being created, and what was
    created before the failure stays in the context. *)
Theorem createProgram_outcome (gl : WebGL) (vShader fShader : string) :
  let vs := compiled_shader (driver gl) VERTEX_SHADER vShader in
  let fs := compiled_shader (driver gl) FRAGMENT_SHADER fShader in
  let lk := driver_link (driver gl) [vs; fs] in
  let (result, gl') := createProgram gl vShader fShader in
  errors gl' = errors gl
  /\ match result with
     | Returned prog =>
         shader_compiled vs = true /\ shader_compiled fs = true
         /\ fst lk = true
         /\ prog = length (programs gl)
         /\ shaders gl' = shaders gl ++ [vs; fs]
         /\ programs gl'
            = programs gl
              ++ [ {| program_shaders :=
                        [length (shaders gl); S (length (shaders gl))];
                      program_linked := true; program_log := snd lk |} ]
         /\ linked gl' prog
     | Thrown message =>
         (shader_compiled vs = false
          /\ message = ("Vertex shader error: " ++ shader_log vs)%string
          /\ shaders gl' = shaders gl ++ [vs]
          /\ programs gl' = programs gl)
         \/ (shader_compiled vs = true /\ shader_compiled fs = false
             /\ message = ("Fragment shader error: " ++ shader_log fs)%string
             /\ shaders gl' = shaders gl ++ [vs; fs]
             /\ programs gl' = programs gl)
         \/ (shader_compiled vs = true /\ shader_compiled fs = true
             /\ fst lk = false
             /\ message = ("Program link error: " ++ snd lk)%string
             /\ shaders gl' = shaders gl ++ [vs; fs]
             /\ programs gl'
                = programs gl
                  ++ [ {| program_shaders :=
                            [length (shaders gl); S (length (shaders gl))];
                          program_linked := false; program_log := snd lk |} ])
     end.
Proof.
  intros vs fs lk.
  pose proof (createProgram_state gl vShader fShader) as H.
  cbv zeta in H. fold vs fs lk in H. rewrite H. clear H.
  destruct (shader_compiled vs) eqn:Hvs; cbn [negb].
  2:{ split; [reflexivity|]. left. repeat split. }
  destruct (shader_compiled fs) eqn:Hfs; cbn [negb].
  2:{ split; [reflexivity|]. right. left. repeat split. }
  destruct (fst lk) eqn:Hlk.
  - split; [reflexivity|]. gl_state. repeat split.
    eexists. split; [apply nth_error_last_of|reflexivity].
  - split; [reflexivity|]. right. right. repeat split.
Qed.

(** ** The matrices of [drawFrame] *)



(** ** Calls that leave the scene *)

Lemma same_scene_refl (gl : WebGL) : same_scene gl gl.
Proof. repeat split. Qed.

Lemma same_scene_trans (gl1 gl2 gl3 : WebGL) :
  same_scene gl1 gl2 -> same_scene gl2 gl3 -> same_scene gl1 gl3.
Proof.
  intros (B1 & A1 & P1 & S1 & U1 & C1 & D1 & W1)
    (B2 & A2 & P2 & S2 & U2 & C2 & D2 & W2).
  repeat split; congruence.
Qed.

Ltac same_scene_case := repeat split.

Lemma same_scene_viewport x y w h gl : same_scene gl (gl.viewport x y w h gl).
Proof. unfold gl.viewport. destruct (_ || _)%bool; same_scene_case. Qed.

Lemma same_scene_clearColor r g b a gl :
  same_scene gl (gl.clearColor r g b a gl).
Proof. same_scene_case. Qed.

Lemma same_scene_useProgram p gl : same_scene gl (gl.useProgram p gl).
Proof.
  unfold gl.useProgram. destruct p as [p|]; [|same_scene_case].
  destruct (nth_error _ _) as [obj|]; [|same_scene_case].
  destruct (program_linked obj); same_scene_case.
Qed.

Lemma same_scene_put l v gl : same_scene gl (gl.put l v gl).
Proof. destruct l; same_scene_case. Qed.

Lemma same_scene_uniform l (v : unit -> WebGL -> WebGL) gl :
  (forall g, same_scene g (v tt g)) -> same_scene gl (gl.uniform l v gl).
Proof.
  intros Hv. unfold gl.uniform. destruct l as [l|]; [|same_scene_case].
  destruct (CURRENT_PROGRAM gl) as [p|]; [|same_scene_case].
  destruct (fst l =? p)%nat; [apply Hv|same_scene_case].
Qed.

Lemma same_scene_uniformMatrix4fv l t v gl :
  same_scene gl (gl.uniformMatrix4fv l t v gl).
Proof.
  apply same_scene_uniform. intros g.
  destruct (_ || _)%bool; [same_scene_case|apply same_scene_put].
Qed.

Lemma same_scene_uniformMatrix3fv l t v gl :
  same_scene gl (gl.uniformMatrix3fv l t v gl).
Proof.
  apply same_scene_uniform. intros g.
  destruct (_ || _)%bool; [same_scene_case|apply same_scene_put].
Qed.

Lemma same_scene_uniform3f l x y z gl : same_scene gl (gl.uniform3f l x y z gl).
Proof. apply same_scene_uniform. intros g. apply same_scene_put. Qed.

Lemma same_scene_uniform1f l x gl : same_scene gl (gl.uniform1f l x gl).
Proof. apply same_scene_uniform. intros g. apply same_scene_put. Qed.

Lemma same_scene_uniform1i l x gl : same_scene gl (gl.uniform1i l x gl).
Proof. apply same_scene_uniform. intros g. apply same_scene_put. Qed.

Lemma same_scene_activeTexture u gl : same_scene gl (gl.activeTexture u gl).
Proof. same_scene_case. Qed.

Lemma same_scene_bindTexture target t gl :
  same_scene gl (gl.bindTexture target t gl).
Proof.
  unfold gl.bindTexture. destruct t as [t|]; [|same_scene_case].
  destruct (t <? _)%nat; same_scene_case.
Qed.

Lemma same_scene_enable cap gl : same_scene gl (gl.enable cap gl).
Proof. same_scene_case. Qed.

Lemma same_scene_createMipTexture gl :
  same_scene gl (snd (createMipTexture gl)).
Proof. rewrite createMipTexture_state. same_scene_case. Qed.

(** What depends on the scene only. *)
Lemma same_scene_holds gl gl' target h d :
  same_scene gl gl' -> holds gl target h d -> holds gl' target h d.
Proof. intros (B & _). unfold holds. now rewrite B. Qed.

Lemma same_scene_uploaded gl gl' this :
  same_scene gl gl' -> uploaded gl this -> uploaded gl' this.
Proof.
  intros Hs (idx & Hi & Ht & Hp & Hn & Hu & Hb).
  exists idx. repeat split; eauto using same_scene_holds.
Qed.

Lemma same_scene_owns gl gl' this :
  same_scene gl gl' -> owns gl this -> owns gl' this.
Proof. intros (B & _). unfold owns, handle_ok. now rewrite B. Qed.

Lemma same_scene_locations_ok gl gl' loc :
  same_scene gl gl' -> locations_ok gl loc -> locations_ok gl' loc.
Proof. intros (_ & A & _). unfold locations_ok, slot. now rewrite A. Qed.

Lemma same_scene_only_enabled gl gl' loc :
  same_scene gl gl' -> only_enabled gl loc -> only_enabled gl' loc.
Proof. intros (_ & A & _). unfold only_enabled. now rewrite A. Qed.

Lemma same_scene_linked gl gl' p :
  same_scene gl gl' -> linked gl p -> linked gl' p.
Proof. intros (_ & _ & P & _). unfold linked. now rewrite P. Qed.

Lemma same_scene_index_type_enabled gl gl' ty :
  same_scene gl gl' -> index_type_enabled gl ty -> index_type_enabled gl' ty.
Proof.
  intros (_ & _ & _ & _ & U & _). unfold index_type_enabled. now rewrite U.
Qed.

Lemma same_buffers_uploaded gl gl' this :
  buffers gl' = buffers gl -> uploaded gl this -> uploaded gl' this.
Proof.
  intros B (idx & Hi & Ht & Hp & Hn & Hu & Hb).
  exists idx. unfold holds in *. rewrite B. repeat split; assumption.
Qed.

Lemma same_buffers_owns gl gl' this :
  buffers gl' = buffers gl -> owns gl this -> owns gl' this.
Proof. intros B. unfold owns, handle_ok. now rewrite B. Qed.

(** What [draw] leaves as it was, when the mesh is on the GPU. *)
Lemma Model_draw_keeps (gl : WebGL) (p : WebGLProgram) (loc : Locations)
    (this : ModelObject) (idx : IndexArray) :
  uploaded gl this ->
  indices (mesh this) = Some idx ->
  closed_mesh (mesh this) = true ->
  locations_ok gl loc ->
  only_enabled gl loc ->
  linked gl p ->
  index_type_enabled gl (type_of_indices idx) ->
  let gl' := Model_draw gl (Some p) loc this in
  programs gl' = programs gl
  /\ uint_indices gl' = uint_indices gl
  /\ canvas gl' = canvas gl
  /\ length (vertex_attribs gl') = length (vertex_attribs gl).
Proof.
  intros (idx' & Hidx' & Htype & Hpos & Hnrm & Huv & Hibo) Hidx Hclosed
    Hloc Honly Hlinked Henabled gl'.
  rewrite Hidx in Hidx'. injection Hidx' as <-.
  destruct (closed_mesh_spec _ _ Hidx Hclosed) as [Hcount _].
  assert (Hpos' := Hpos). assert (Hnrm' := Hnrm). assert (Huv' := Huv).
  assert (Hibo' := Hibo).
  destruct Hpos' as (bp & Ep & _), Hnrm' as (bn & En & _),
    Huv' as (bu & Eu & _), Hibo' as (bi & Ei & _).
  rewrite Ep in Hpos. rewrite En in Hnrm. rewrite Eu in Huv. rewrite Ei in Hibo.
  pose proof (Model_draw_state gl p loc this idx bp bn bu bi Ep En Eu Ei
                Hpos Hnrm Huv Hibo Htype Hcount Hloc Honly Hlinked Henabled)
    as Hstate.
  cbv zeta in Hstate. fold gl' in Hstate.
  rewrite Hstate. gl_state. rewrite !length_store. repeat split.
Qed.

(** ** [drawFrame] *)

(** X17.  When the five globals are set, the surface's mesh is closed and
    on the GPU in buffers the surface owns, the program is linked, the
    attribute locations are three different slots and no other attribute
    is enabled, and the index type is one the context accepts, [drawFrame]
    clears the canvas and shows exactly one draw: it reads the index array
    and the three vertex arrays of the surface, and every vertex it fetches
    lies inside them.  It asks for the next frame, keeps [startTime] unless
    it was 0, changes no buffer, and leaves the globals in a state in which
    the next frame can be drawn as well. *)
Theorem drawFrame_draws_surface (m4 : M4) (timeMs : R) (g : Main.t) :
  frame_ready g ->
  let (g', again) := drawFrame m4 timeMs g in
  again = true
  /\ frame_ready g'
  /\ (Main.startTime g = 0%R -> Main.startTime g' = timeMs)
  /\ (Main.startTime g <> 0%R -> Main.startTime g' = Main.startTime g)
  /\ exists gl gl' this idx loc d,
       Main.gl g = Some gl /\ Main.gl g' = Some gl'
       /\ Main.surface g = Some this /\ indices (mesh this) = Some idx
       /\ Main.loc g = Some loc
       /\ shown gl' = [d]
       /\ drawn gl' = d :: drawn gl
       /\ draw_indices d = Some (elements idx)
       /\ draw_attribute d (aVertex loc) = Some (3, positions (mesh this))
       /\ draw_attribute d (aNormal loc) = Some (3, normals (mesh this))
       /\ draw_attribute d (aTexcoord loc) = Some (2, texcoords (mesh this))
       /\ draw_in_range d = true
       /\ buffers gl' = buffers gl.
Proof.
  intros (gl & program & this & view & loc & idx & Hgl & Hp & Hs & Hv & Hl
          & Hup & Hown & Hidx & Hclosed & Hloc & Honly & Hlinked & Henabled).
  unfold drawFrame. rewrite Hgl, Hp, Hs, Hv, Hl. cbv zeta.
  set (G1 := gl.clearColor 0 0 0 1
               (gl.viewport 0 0 (canvas_width (canvas gl))
                  (canvas_height (canvas gl)) gl)).
  assert (H1 : same_scene gl G1).
  { unfold G1. eapply same_scene_trans;
      [apply same_scene_viewport|apply same_scene_clearColor]. }
  change (gl.clear [COLOR_BUFFER_BIT; DEPTH_BUFFER_BIT] G1)
    with (set_shown [] G1).
  set (S0 := set_shown [] G1).
  match goal with
  | |- context [Model_draw ?s _ _ _] => set (S := s)
  end.
  assert (H2 : same_scene S0 S).
  { unfold S.
    repeat (eapply same_scene_trans;
            [|first [ apply same_scene_uniform1i | apply same_scene_bindTexture
                    | apply same_scene_activeTexture
                    | apply same_scene_uniform1f | apply same_scene_uniform3f
                    | apply same_scene_uniformMatrix3fv
                    | apply same_scene_uniformMatrix4fv
                    | apply same_scene_useProgram ]]).
    apply same_scene_refl. }
  assert (HS : buffers S = buffers gl /\ vertex_attribs S = vertex_attribs gl
               /\ programs S = programs gl /\ uint_indices S = uint_indices gl
               /\ drawn S = drawn gl /\ shown S = []).
  { destruct H1 as (B1 & A1 & P1 & _ & U1 & _ & D1 & _).
    destruct H2 as (B2 & A2 & P2 & _ & U2 & _ & D2 & W2).
    rewrite B2, A2, P2, U2, D2, W2. unfold S0. gl_state.
    repeat split; assumption. }
  clearbody S. clear H1 H2 S0 G1.
  destruct HS as (SB & SA & SP & SU & SD & SW).
  assert (Hup' : uploaded S this) by (eapply same_buffers_uploaded; eassumption).
  assert (Hloc' : locations_ok S loc)
    by (unfold locations_ok, slot in *; now rewrite SA).
  assert (Honly' : only_enabled S loc)
    by (unfold only_enabled in *; now rewrite SA).
  assert (Hlinked' : linked S program) by (unfold linked in *; now rewrite SP).
  assert (Henabled' : index_type_enabled S (type_of_indices idx))
    by (unfold index_type_enabled in *; now rewrite SU).
  destruct (Model_draw_reads S program loc this idx Hup' Hidx Hclosed Hloc'
              Honly' Hlinked' Henabled')
    as (d & Dd & _ & _ & _ & Di & Dv & Dn & Dt & Dr & Db & _ & _ & Do & Dw).
  destruct (Model_draw_keeps S program loc this idx Hup' Hidx Hclosed Hloc'
              Honly' Hlinked' Henabled') as (Kp & Ku & _ & Kl).
  set (gl' := Model_draw S (Some program) loc this) in *. clearbody gl'.
  assert (Hup'' : uploaded gl' this)
    by (eapply same_buffers_uploaded; [|exact Hup]; congruence).
  assert (Hown'' : owns gl' this)
    by (eapply same_buffers_owns; [|exact Hown]; congruence).
  assert (Hloc'' : locations_ok gl' loc)
    by (unfold locations_ok, slot in *; rewrite Kl, SA; exact Hloc).
  assert (Hlinked'' : linked gl' program)
    by (unfold linked in *; now rewrite Kp, SP).
  assert (Henabled'' : index_type_enabled gl' (type_of_indices idx))
    by (unfold index_type_enabled in *; now rewrite Ku, SU).
  split; [reflexivity|]. split; [|split; [|split]].
  - exists gl', program, this, view, loc, idx.
    cbn [Main.set_startTime Main.set_gl Main.gl Main.program Main.surface
         Main.spaceball Main.loc].
    repeat (split; [first [assumption|reflexivity]|]). assumption.
  - cbn [Main.set_startTime Main.startTime]. intros H0.
    destruct (Req_dec_T (Main.startTime g) 0); [reflexivity|contradiction].
  - cbn [Main.set_startTime Main.startTime]. intros H0.
    destruct (Req_dec_T (Main.startTime g) 0); [contradiction|reflexivity].
  - exists gl, gl', this, idx, loc, d.
    cbn [Main.set_startTime Main.set_gl Main.gl].
    assert (shown gl' = [d]) by (now rewrite Dw, SW).
    assert (drawn gl' = d :: drawn gl) by (now rewrite Dd, SD).
    assert (buffers gl' = buffers gl) by congruence.
    repeat (split; [first [assumption|reflexivity]|]). assumption.
Qed.

(** ** [initGL] *)

(** ** [initGL] *)

Section InitGL.

Variable alloc : ArrayKind -> Z -> bool.
Variables (vShader fShader : string) (g : Main.t) (gl : WebGL).
Hypothesis Hgl : Main.gl g = Some gl.

Let vs := compiled_shader (driver gl) VERTEX_SHADER vShader.
Let fs := compiled_shader (driver gl) FRAGMENT_SHADER fShader.
Let lk := driver_link (driver gl) [vs; fs].
Let Nr := effective_Nr (Main.params g).
Let Nu := effective_Nu (Main.params g).

(** When a shader does not compile or the program does not link, the
    error of [createProgram] goes through, and only the context changes. *)
Lemma initGL_throws_Error :
  shader_compiled vs && shader_compiled fs && fst lk = false ->
  exists message gl',
    createProgram gl vShader fShader = (Thrown message, gl')
    /\ initGL alloc (Some vShader) (Some fShader) g
       = (Main.set_gl (Some gl') g, [], Some (ErrorObject message)).
Proof.
  intros Hfail. unfold initGL. rewrite Hgl.
  pose proof (createProgram_state gl vShader fShader) as Hcp.
  cbv zeta in Hcp. fold vs fs lk in Hcp. rewrite Hcp. clear Hcp.
  destruct (shader_compiled vs); cbn [negb andb] in *;
    [|do 2 eexists; split; reflexivity].
  destruct (shader_compiled fs); cbn [negb andb] in *;
    [|do 2 eexists; split; reflexivity].
  rewrite Hfail. do 2 eexists; split; reflexivity.
Qed.


(** The program and the locations that [initGL] stores when the program
    links. *)
Let prog : WebGLProgram := length (programs gl).
Let gl1 : WebGL := snd (createProgram gl vShader fShader).
Let loc : Locations :=
  {| aVertex := gl.getAttribLocation prog "vertex" gl1;
     aNormal := gl.getAttribLocation prog "normal" gl1;
     aTexcoord := gl.getAttribLocation prog "texcoord" gl1;
     uMVP := gl.getUniformLocation prog "ModelViewProjectionMatrix" gl1;
     uMV := gl.getUniformLocation prog "ModelViewMatrix" gl1;
     uN := gl.getUniformLocation prog "NormalMatrix" gl1;
     uLight := gl.getUniformLocation prog "LightPosView" gl1;
     uTex := gl.getUniformLocation prog "uTex" gl1;
     uUVScale := gl.getUniformLocation prog "uUVScale" gl1 |}.

Lemma createProgram_linked :
  shader_compiled vs && shader_compiled fs && fst lk = true ->
  createProgram gl vShader fShader = (Returned prog, gl1)
  /\ linked gl1 prog
  /\ buffers gl1 = buffers gl
  /\ vertex_attribs gl1 = vertex_attribs gl
  /\ supported gl1 = supported gl
  /\ uint_indices gl1 = uint_indices gl
  /\ textures gl1 = textures gl
  /\ errors gl1 = errors gl
  /\ drawn gl1 = drawn gl.
Proof.
  intros Hok. unfold gl1, prog.
  pose proof (createProgram_state gl vShader fShader) as Hcp.
  cbv zeta in Hcp. fold vs fs lk in Hcp. rewrite Hcp. clear Hcp.
  apply andb_true_iff in Hok. destruct Hok as [Hok Hlk].
  apply andb_true_iff in Hok. destruct Hok as [Hvs Hfs].
  rewrite Hvs, Hfs, Hlk. cbn [negb snd].
  split; [reflexivity|]. split; [|repeat split].
  eexists. gl_state. split; [apply nth_error_last_of|reflexivity].
Qed.

(** When [build] is refused its arrays, the [RangeError] goes through:
    the program and the locations are stored, the surface is a new
    [Model], and no texture is made. *)
Lemma initGL_throws_RangeError :
  shader_compiled vs && shader_compiled fs && fst lk = true ->
  allocations_granted alloc Nr Nu = false ->
  exists console,
    initGL alloc (Some vShader) (Some fShader) g
    = (Main.set_surface (Some Model_constructor)
         (Main.set_loc (Some loc)
            (Main.set_program (Some prog) (Main.set_gl (Some gl1) g))),
       console, Some RangeErrorObject).
Proof.
  intros Hok Hrefused.
  destruct (createProgram_linked Hok) as (Hcp & _).
  unfold initGL. rewrite Hgl, Hcp. cbv beta iota zeta.
  unfold rebuildSurface, Model_build.
  cbn [Main.set_surface Main.set_loc Main.set_program Main.set_gl
       Main.surface Main.gl Main.params].
  rewrite build_closed_form. fold Nr Nu. rewrite Hrefused. cbn [bind].
  eexists. reflexivity.
Qed.

(** When the program links and [build] gets its arrays, [initGL]
    returns. *)
Lemma initGL_returns :
  shader_compiled vs && shader_compiled fs && fst lk = true ->
  allocations_granted alloc Nr Nu = true ->
  exists g' console this' gl',
    initGL alloc (Some vShader) (Some fShader) g = (g', console, None)
    /\ Main.gl g' = Some gl' /\ Main.surface g' = Some this'
    /\ Main.program g' = Some prog /\ Main.loc g' = Some loc
    /\ Main.mipTex g' = Some (length (textures gl))
    /\ Main.spaceball g' = Main.spaceball g
    /\ Main.params g' = Main.params g
    /\ Main.startTime g' = Main.startTime g
    /\ uploaded gl' this' /\ owns gl' this'
    /\ closed_mesh (mesh this') = true
    /\ indices (mesh this') = Some (built_indices Nr Nu)
    /\ linked gl' prog
    /\ vertex_attribs gl' = vertex_attribs gl
    /\ uint_indices gl'
       = (uint_indices gl
          || (Nr * Nu >? 65535) && OES_element_index_uint (supported gl))%bool
    /\ length (buffers gl') = (length (buffers gl) + 4)%nat
    /\ nth_error (textures gl') (length (textures gl)) = Some mip_texture
    /\ depth_test gl' = true
    /\ errors gl' = errors gl
    /\ drawn gl' = drawn gl.
Proof.
  intros Hok Hgranted.
  destruct (createProgram_linked Hok)
    as (Hcp & Hlinked & B1 & A1 & S1 & U1 & T1 & E1 & D1).
  unfold initGL. rewrite Hgl, Hcp. cbv beta iota zeta.
  fold prog. fold loc.
  unfold rebuildSurface, Model_build.
  cbn [Main.set_surface Main.set_loc Main.set_program Main.set_gl
       Main.surface Main.gl Main.params].
  rewrite build_closed_form. fold Nr Nu. rewrite Hgranted. cbn [bind].
  cbn [Model_constructor mesh posVBO nrmVBO uvVBO ibo].
  set (built := {| mesh := built_mesh (Main.params g) new_Model;
                   posVBO := None; nrmVBO := None; uvVBO := None;
                   ibo := None |}).
  assert (Hown : owns gl1 built) by (repeat split).
  pose proof (Model_upload_stores gl1 built _ Hown eq_refl) as Hstores.
  pose proof (Model_upload_resolves gl1 built) as (Hundrawn & _ & _).
  pose proof (upload_creates_buffers gl1 built) as Hcreated.
  destruct (Model_upload gl1 built) as [[this' gl2] warnings].
  cbn [fst snd] in *.
  cbn [Main.set_surface Main.set_gl Main.gl].
  rewrite createMipTexture_state.
  destruct Hstores as (U & O & M & _ & _ & _ & E & A & I & _).
  destruct Hundrawn as (D & P & T2 & S & _).
  destruct Hcreated as (L & _).
  rewrite instanceof_built_indices in I. fold Nr Nu in I.
  assert (Hmesh : indices (mesh this') = Some (built_indices Nr Nu)
                  /\ closed_mesh (mesh this') = true).
  { rewrite M. unfold upload.
    destruct (instanceof_Uint32Array _); cbn [fst indices];
      (split; [reflexivity|apply closed_built_mesh]). }
  destruct Hmesh as (Mi & Mc).
  do 4 eexists. split; [reflexivity|].
  cbn [Main.set_mipTex Main.set_surface Main.set_loc Main.set_program
       Main.set_gl Main.gl Main.surface Main.program Main.loc Main.mipTex
       Main.spaceball Main.params Main.startTime].
  split; [reflexivity|]. split; [reflexivity|]. split; [reflexivity|].
  split; [reflexivity|]. split; [now rewrite T2, T1|].
  unfold gl.enable. gl_state.
  split; [reflexivity|]. split; [reflexivity|]. split; [reflexivity|].
  split; [eapply same_buffers_uploaded; [|exact U]; reflexivity|].
  split; [eapply same_buffers_owns; [|exact O]; reflexivity|].
  split; [exact Mc|]. split; [exact Mi|].
  split; [unfold linked in *; gl_state; now rewrite P|].
  split; [now rewrite A, A1|].
  split; [now rewrite I, U1, S1|].
  split; [rewrite L, B1; cbn [built posVBO nrmVBO uvVBO ibo missing]; lia|].
  split; [rewrite <- T1, <- T2; apply nth_error_last_of|].
  split; [reflexivity|].
  split; [now rewrite E, E1|].
  now rewrite D, D1.
Qed.

End InitGL.

(** X18.  [initGL] on a context, with both shader sources defined, ends
    in one of three ways and never in a [TypeError].  It returns exactly
    when both shaders compile, the program links and the engine grants the
    arrays of [build]: the program is then linked, the new surface has a
    closed mesh on the GPU in four new buffers it owns, [mipTex] is a new
    texture with the nine levels of [createMipTexture], the depth test is
    on, and nothing was drawn and no GL error generated.  It throws the
    [Error] of [createProgram] when a shader does not compile or the program
    does not link: nothing is logged, and the program, the surface, the
    locations and the texture of the globals stay as they were.  It throws
    a [RangeError] when the engine refuses an array: the program and an
    empty surface are stored, no buffer and no texture is created. *)
Theorem initGL_outcome (alloc : ArrayKind -> Z -> bool)
    (vShader fShader : string) (g : Main.t) (gl : WebGL) :
  Main.gl g = Some gl ->
  let vs := compiled_shader (driver gl) VERTEX_SHADER vShader in
  let fs := compiled_shader (driver gl) FRAGMENT_SHADER fShader in
  let lk := driver_link (driver gl) [vs; fs] in
  let granted :=
    allocations_granted alloc (effective_Nr (Main.params g))
      (effective_Nu (Main.params g)) in
  let '(g', console, thrown) := initGL alloc (Some vShader) (Some fShader) g in
  match thrown with
  | None =>
      shader_compiled vs = true /\ shader_compiled fs = true
      /\ fst lk = true /\ granted = true
      /\ exists this' gl',
           Main.gl g' = Some gl' /\ Main.surface g' = Some this'
           /\ Main.program g' = Some (length (programs gl))
           /\ linked gl' (length (programs gl))
           /\ uploaded gl' this' /\ owns gl' this'
           /\ closed_mesh (mesh this') = true
           /\ Main.mipTex g' = Some (length (textures gl))
           /\ nth_error (textures gl') (length (textures gl))
              = Some mip_texture
           /\ depth_test gl' = true
           /\ length (buffers gl') = (length (buffers gl) + 4)%nat
           /\ errors gl' = errors gl
           /\ drawn gl' = drawn gl
  | Some (ErrorObject message) =>
      shader_compiled vs && shader_compiled fs && fst lk = false
      /\ fst (createProgram gl vShader fShader) = Thrown message
      /\ console = []
      /\ Main.program g' = Main.program g
      /\ Main.surface g' = Main.surface g
      /\ Main.loc g' = Main.loc g
      /\ Main.mipTex g' = Main.mipTex g
  | Some RangeErrorObject =>
      shader_compiled vs = true /\ shader_compiled fs = true
      /\ fst lk = true /\ granted = false
      /\ Main.program g' = Some (length (programs gl))
      /\ Main.surface g' = Some Model_constructor
      /\ Main.mipTex g' = Main.mipTex g
      /\ exists gl',
           Main.gl g' = Some gl' /\ buffers gl' = buffers gl
           /\ textures gl' = textures gl /\ drawn gl' = drawn gl
  | Some TypeErrorObject => False
  end.
Proof.
  intros Hgl vs fs lk granted.
  destruct (shader_compiled vs && shader_compiled fs && fst lk) eqn:Hok.
  - assert (Hflags : shader_compiled vs = true /\ shader_compiled fs = true
                     /\ fst lk = true).
    { apply andb_true_iff in Hok. destruct Hok as [Hok ?].
      apply andb_true_iff in Hok. destruct Hok. auto. }
    destruct Hflags as (Hvs & Hfs & Hlk).
    destruct granted eqn:Hgranted.
    + destruct (initGL_returns alloc vShader fShader g gl Hgl Hok Hgranted)
        as (g' & console & this' & gl' & -> & G & Su & Pr & _ & Mt & _ & _ & _
            & U & O & C & _ & Li & _ & _ & Lb & Tx & Dt & Er & Dr).
      do 4 (split; [first [assumption|reflexivity]|]).
      exists this', gl'. repeat (split; [assumption|]). assumption.
    + destruct (initGL_throws_RangeError alloc vShader fShader g gl Hgl Hok
                  Hgranted) as (console & ->).
      destruct (createProgram_linked vShader fShader gl Hok)
        as (_ & _ & B1 & _ & _ & _ & T1 & _ & D1).
      repeat (split; [first [assumption|reflexivity]|]).
      eexists. split; [reflexivity|]. repeat split; assumption.
  - destruct (initGL_throws_Error alloc vShader fShader g gl Hgl Hok)
      as (message & gl' & Hcp & ->).
    rewrite Hcp. repeat split.
Qed.

(** After [initGL] has returned, a frame can be drawn as soon as the view
    matrix is there. *)
Lemma initGL_ready (alloc : ArrayKind -> Z -> bool)
    (vShader fShader : string) (g : Main.t) (gl : WebGL) (view : list R) :
  Main.gl g = Some gl ->
  let r := initGL alloc (Some vShader) (Some fShader) g in
  let g' := fst (fst r) in
  snd r = None ->
  (forall loc, Main.loc g' = Some loc ->
               locations_ok gl loc /\ only_enabled gl loc) ->
  effective_Nr (Main.params g) * effective_Nu (Main.params g) <= 65535
  \/ OES_element_index_uint (supported gl) = true ->
  frame_ready (Main.set_spaceball (Some view) g').
Proof.
  intros Hgl r g' Hreturned Hlocs Hwide. unfold g', r in *. clear g' r.
  set (vs := compiled_shader (driver gl) VERTEX_SHADER vShader).
  set (fs := compiled_shader (driver gl) FRAGMENT_SHADER fShader).
  set (lk := driver_link (driver gl) [vs; fs]).
  destruct (shader_compiled vs && shader_compiled fs && fst lk) eqn:Hok.
  2:{ destruct (initGL_throws_Error alloc vShader fShader g gl Hgl Hok)
        as (message & gl' & _ & Heq).
      rewrite Heq in Hreturned. discriminate Hreturned. }
  destruct (allocations_granted alloc (effective_Nr (Main.params g))
              (effective_Nu (Main.params g))) eqn:Hgranted.
  2:{ destruct (initGL_throws_RangeError alloc vShader fShader g gl Hgl Hok
                  Hgranted) as (console & Heq).
      rewrite Heq in Hreturned. discriminate Hreturned. }
  destruct (initGL_returns alloc vShader fShader g gl Hgl Hok Hgranted)
    as (g' & console & this' & gl' & Heq & G & Su & Pr & Lo & _ & _ & _ & _
        & U & O & C & Ix & Li & At & Ui & _).
  rewrite Heq in Hlocs |- *. cbn [fst snd] in *.
  destruct (Hlocs _ Lo) as (Hloc & Honly).
  eexists gl', _, this', view, _, _.
  cbn [Main.set_spaceball Main.gl Main.program Main.surface Main.spaceball
       Main.loc].
  repeat (split; [first [eassumption|reflexivity]|]).
  split; [unfold locations_ok, slot in *; rewrite At; exact Hloc|].
  split; [unfold only_enabled in *; rewrite At; exact Honly|].
  split; [exact Li|].
  unfold index_type_enabled. rewrite Ui. unfold built_indices.
  destruct (Z.gtb_spec (effective_Nr (Main.params g)
                        * effective_Nu (Main.params g)) 65535) as [Hgt|Hle];
    cbn [type_of_indices]; [|discriminate].
  intros _. destruct Hwide as [Hsmall| ->]; [lia|]. apply orb_true_r.
Qed.

(** X19.  When [initGL] returns, the attribute locations it found are
    three different slots of a context that has no other attribute enabled,
    and the grid has at most 65535 vertices or the context has the
    extension, then the globals are ready for [drawFrame] once [spaceball]
    is set: the conditions of X17 hold. *)
Theorem initGL_makes_ready (alloc : ArrayKind -> Z -> bool)
    (vShader fShader : string) (g : Main.t) (gl : WebGL) (view : list R) :
  Main.gl g = Some gl ->
  let r := initGL alloc (Some vShader) (Some fShader) g in
  let g' := fst (fst r) in
  snd r = None ->
  (forall loc, Main.loc g' = Some loc ->
               locations_ok gl loc /\ only_enabled gl loc) ->
  effective_Nr (Main.params g) * effective_Nu (Main.params g) <= 65535
  \/ OES_element_index_uint (supported gl) = true ->
  frame_ready (Main.set_spaceball (Some view) g').
Proof. exact (initGL_ready alloc vShader fShader g gl view). Qed.


(** X20.  [rebuildSurface] between two frames: when the globals are ready
    for [drawFrame] and the grid of the parameters has at most 65535
    vertices or the context has the extension, [rebuildSurface] returns
    exactly when the engine grants the arrays of [build], and the globals
    are then ready for [drawFrame] again; otherwise it throws a
    [RangeError]. *)
Theorem rebuildSurface_keeps_ready (alloc : ArrayKind -> Z -> bool)
    (g : Main.t) (gl : WebGL) :
  frame_ready g ->
  Main.gl g = Some gl ->
  effective_Nr (Main.params g) * effective_Nu (Main.params g) <= 65535
  \/ OES_element_index_uint (supported gl) = true ->
  match rebuildSurface alloc g with
  | Return (g', console) =>
      allocations_granted alloc (effective_Nr (Main.params g))
        (effective_Nu (Main.params g)) = true
      /\ frame_ready g'
  | RangeError =>
      allocations_granted alloc (effective_Nr (Main.params g))
        (effective_Nu (Main.params g)) = false
  end.
Proof.
  intros (gl0 & program & this & view & loc & idx & Hgl0 & Hp & Hs & Hv & Hl
          & Hup & Hown & Hidx & Hclosed & Hloc & Honly & Hlinked & Henabled)
    Hgl Hwide.
  rewrite Hgl in Hgl0. injection Hgl0 as <-.
  unfold rebuildSurface, Model_build. rewrite Hs, Hgl.
  rewrite build_closed_form.
  destruct (allocations_granted alloc _ _) eqn:Hgranted; cbn [bind];
    [|reflexivity].
  set (p := Main.params g) in *.
  set (built := {| mesh := built_mesh p (mesh this); posVBO := posVBO this;
                   nrmVBO := nrmVBO this; uvVBO := uvVBO this;
                   ibo := ibo this |}).
  assert (Hown' : owns gl built) by exact Hown.
  pose proof (Model_upload_stores gl built _ Hown' eq_refl) as Hstores.
  pose proof (Model_upload_resolves gl built) as (Hundrawn & _ & _).
  destruct (Model_upload gl built) as [[this' gl'] console].
  cbn [fst snd] in *.
  destruct Hstores as (U & O & M & _ & _ & _ & _ & A & I & _).
  destruct Hundrawn as (_ & P & _).
  rewrite instanceof_built_indices in I.
  assert (Hmesh : indices (mesh this')
                  = Some (built_indices (effective_Nr p) (effective_Nu p))
                  /\ closed_mesh (mesh this') = true).
  { rewrite M. unfold upload.
    destruct (instanceof_Uint32Array _); cbn [fst indices];
      (split; [reflexivity|apply closed_built_mesh]). }
  destruct Hmesh as (Mi & Mc).
  split; [reflexivity|].
  exists gl', program, this', view, loc,
    (built_indices (effective_Nr p) (effective_Nu p)).
  cbn [Main.set_gl Main.set_surface Main.gl Main.program Main.surface
       Main.spaceball Main.loc].
  repeat (split; [first [eassumption|reflexivity]|]).
  split; [unfold locations_ok, slot in *; rewrite A; exact Hloc|].
  split; [unfold only_enabled in *; rewrite A; exact Honly|].
  split; [unfold linked in *; rewrite P; exact Hlinked|].
  unfold index_type_enabled. rewrite I. unfold built_indices.
  destruct (Z.gtb_spec (effective_Nr p * effective_Nu p) 65535) as [Hgt|Hle];
    cbn [type_of_indices]; [|discriminate].
  intros _. destruct Hwide as [Hsmall| ->]; [lia|]. apply orb_true_r.
Qed.

(** ** The examples of [initGL] and [drawFrame] *)

(** The example: [initGL] on the fresh context returns. *)
Lemma started_returns :
  exists g' console this' gl',
    initGL es_alloc (Some "void main() {}"%string)
      (Some "void main() {}"%string) started_globals = (g', console, None)
    /\ Main.gl g' = Some gl'
    /\ Main.surface g' = Some this'
    /\ Main.loc g' = Some example_loc
    /\ Main.params g' = scenario.
Proof.
  destruct (initGL_returns es_alloc "void main() {}" "void main() {}"
              started_globals fresh_context eq_refl eq_refl eq_refl)
    as (g' & console & this' & gl' & Heq & G & Su & _ & Lo & _ & _ & Pa & _).
  exists g', console, this', gl'.
  split; [exact Heq|]. split; [exact G|]. split; [exact Su|].
  split; [exact Lo|]. exact Pa.
Qed.

Lemma fresh_locations :
  locations_ok fresh_context example_loc
  /\ only_enabled fresh_context example_loc.
Proof.
  split.
  - unfold locations_ok, slot.
    change (length (vertex_attribs fresh_context)) with 8%nat.
    cbn [example_loc aVertex aNormal aTexcoord]. lia.
  - intros i _ _ _.
    change (vertex_attribs fresh_context) with (repeat new_attrib 8).
    do 8 (destruct i as [|i]; [reflexivity|]). now destruct i.
Qed.

Lemma scenario_is_small :
  effective_Nr scenario * effective_Nu scenario <= 65535.
Proof.
  change (effective_Nr scenario) with 2.
  change (effective_Nu scenario) with 4. lia.
Qed.

Lemma started_hypotheses :
  snd (initGL es_alloc (Some "void main() {}"%string)
         (Some "void main() {}"%string) started_globals) = None
  /\ forall loc,
       Main.loc (fst (fst (initGL es_alloc (Some "void main() {}"%string)
                             (Some "void main() {}"%string) started_globals)))
       = Some loc ->
       locations_ok fresh_context loc /\ only_enabled fresh_context loc.
Proof.
  destruct started_returns as (g' & console & this' & gl' & -> & _ & _ & Lo & _).
  split; [reflexivity|].
  cbn [fst snd]. intros loc Hloc. rewrite Lo in Hloc. injection Hloc as <-.
  exact fresh_locations.
Qed.

Lemma ready_globals_ready : frame_ready ready_globals.
Proof.
  destruct started_hypotheses as (Hreturned & Hlocs).
  exact (initGL_ready es_alloc "void main() {}" "void main() {}"
           started_globals fresh_context identity4 eq_refl Hreturned Hlocs
           (or_introl scenario_is_small)).
Qed.

Lemma ready_globals_context : Main.gl ready_globals = Some ready_context.
Proof.
  unfold ready_context.
  destruct ready_globals_ready as (gl & _ & _ & _ & _ & _ & -> & _).
  reflexivity.
Qed.

Lemma ready_globals_params : Main.params ready_globals = scenario.
Proof.
  unfold ready_globals.
  destruct started_returns as (g' & console & this' & gl' & -> & _ & _ & _ & Pa).
  exact Pa.
Qed.

(** [initGL] on the fresh context of the example. *)
Lemma initGL_outcome_started :
  Main.gl started_globals = Some fresh_context
  /\ let vs :=
       compiled_shader (driver fresh_context) VERTEX_SHADER "void main() {}" in
     let fs :=
       compiled_shader (driver fresh_context) FRAGMENT_SHADER
         "void main() {}" in
     let lk := driver_link (driver fresh_context) [vs; fs] in
     let granted :=
       allocations_granted es_alloc (effective_Nr (Main.params started_globals))
         (effective_Nu (Main.params started_globals)) in
     let '(g', console, thrown) :=
       initGL es_alloc (Some "void main() {}"%string)
         (Some "void main() {}"%string) started_globals in
     match thrown with
     | None =>
         shader_compiled vs = true /\ shader_compiled fs = true
         /\ fst lk = true /\ granted = true
         /\ exists this' gl',
              Main.gl g' = Some gl' /\ Main.surface g' = Some this'
              /\ Main.program g' = Some (length (programs fresh_context))
              /\ linked gl' (length (programs fresh_context))
              /\ uploaded gl' this' /\ owns gl' this'
              /\ closed_mesh (mesh this') = true
              /\ Main.mipTex g' = Some (length (textures fresh_context))
              /\ nth_error (textures gl') (length (textures fresh_context))
                 = Some mip_texture
              /\ depth_test gl' = true
              /\ length (buffers gl')
                 = (length (buffers fresh_context) + 4)%nat
              /\ errors gl' = errors fresh_context
              /\ drawn gl' = drawn fresh_context
     | Some (ErrorObject message) =>
         shader_compiled vs && shader_compiled fs && fst lk = false
         /\ fst (createProgram fresh_context "void main() {}"
                   "void main() {}") = Thrown message
         /\ console = []
         /\ Main.program g' = Main.program started_globals
         /\ Main.surface g' = Main.surface started_globals
         /\ Main.loc g' = Main.loc started_globals
         /\ Main.mipTex g' = Main.mipTex started_globals
     | Some RangeErrorObject =>
         shader_compiled vs = true /\ shader_compiled fs = true
         /\ fst lk = true /\ granted = false
         /\ Main.program g' = Some (length (programs fresh_context))
         /\ Main.surface g' = Some Model_constructor
         /\ Main.mipTex g' = Main.mipTex started_globals
         /\ exists gl',
              Main.gl g' = Some gl' /\ buffers gl' = buffers fresh_context
              /\ textures gl' = textures fresh_context
              /\ drawn gl' = drawn fresh_context
     | Some TypeErrorObject => False
     end.
Proof.
  split; [reflexivity|].
  exact (initGL_outcome es_alloc "void main() {}" "void main() {}"
           started_globals fresh_context eq_refl).
Defined.

(** After [initGL] on the fresh context of the example, a frame can be
    drawn. *)
Lemma initGL_makes_ready_started :
  Main.gl started_globals = Some fresh_context
  /\ snd (initGL es_alloc (Some "void main() {}"%string)
            (Some "void main() {}"%string) started_globals) = None
  /\ (effective_Nr (Main.params started_globals)
      * effective_Nu (Main.params started_globals) <= 65535
      \/ OES_element_index_uint (supported fresh_context) = true)
  /\ frame_ready ready_globals.
Proof.
  destruct started_hypotheses as (Hreturned & Hlocs).
  split; [reflexivity|]. split; [exact Hreturned|].
  split; [exact (or_introl scenario_is_small)|].
  exact (initGL_makes_ready es_alloc "void main() {}" "void main() {}"
           started_globals fresh_context identity4 eq_refl Hreturned Hlocs
           (or_introl scenario_is_small)).
Defined.

(** A rebuild of the example after [initGL] leaves a frame that can be
    drawn. *)
Lemma rebuildSurface_keeps_ready_started :
  frame_ready ready_globals
  /\ Main.gl ready_globals = Some ready_context
  /\ match rebuildSurface es_alloc ready_globals with
     | Return (g', console) =>
         allocations_granted es_alloc (effective_Nr (Main.params ready_globals))
           (effective_Nu (Main.params ready_globals)) = true
         /\ frame_ready g'
     | RangeError =>
         allocations_granted es_alloc (effective_Nr (Main.params ready_globals))
           (effective_Nu (Main.params ready_globals)) = false
     end.
Proof.
  split; [exact ready_globals_ready|].
  split; [exact ready_globals_context|].
  apply (rebuildSurface_keeps_ready es_alloc ready_globals ready_context
           ready_globals_ready ready_globals_context).
  left. rewrite ready_globals_params. exact scenario_is_small.
Defined.

(** The first frame of the example. *)
Lemma drawFrame_draws_surface_first_frame :
  frame_ready ready_globals
  /\ let (g', again) := drawFrame identity_m4 1000 ready_globals in
     again = true /\ frame_ready g'.
Proof.
  split; [exact ready_globals_ready|].
  pose proof (drawFrame_draws_surface identity_m4 1000 ready_globals
                ready_globals_ready) as H.
  destruct (drawFrame identity_m4 1000 ready_globals) as [g' again].
  destruct H as (Hagain & Hready & _). split; assumption.
Defined.
